(** * p2pfs core: length-prefixed message transport

    A shallow embedding of [p2pfs/core/utils.py] (thread-per-connection
    server over blocking sockets) and [p2pfs/core/server.py] (asyncio server
    with zstd-compressed payloads), and the properties of the framing codec,
    the log projection and the connection registry. *)

From Stdlib Require Import ZArith Lia String Ascii DecimalString.
From Stdlib.Strings Require Import Byte.
From Equations Require Import Equations.
From Equations.Prop Require Import Logic.
From stdpp Require Import base option list strings gmap.

Local Open Scope string_scope.
Local Open Scope list_scope.
Local Open Scope Z_scope.

(** ** Python values, exceptions and results *)

Abbreviation bytes := (list byte).

#[global] Instance byte_eq_decision : EqDecision byte := Byte.byte_eq_dec.

(** The exceptions the two modules can meet.  [IncompleteReadError] is a
    subclass of [EOFError]; [JSONDecodeError] and [UnicodeDecodeError] are
    subclasses of [ValueError]. *)
Inductive exn : Type :=
| EOFError (msg : string)
| IncompleteReadError (partial : bytes) (expected : Z)
| KeyError (key : string)
| IndexError
| TypeError
| ValueError
| JSONDecodeError
| UnicodeDecodeError
| UnicodeEncodeError
| ZstdError
| StructError
| ZeroDivisionError
| AttributeError (name : string)
| NotImplementedError
| ConnectionResetError
| OtherError (tag : string).

(** [isinstance(e, EOFError)]: what [except EOFError] catches. *)
Definition is_EOFError (e : exn) : bool :=
  match e with
  | EOFError _ | IncompleteReadError _ _ => true
  | _ => false
  end.

Inductive res (A : Type) : Type :=
| Ok (a : A)
| Raise (e : exn).
Arguments Ok {A} a.
Arguments Raise {A} e.

Definition res_bind {A B} (r : res A) (k : A -> res B) : res B :=
  match r with
  | Ok a => k a
  | Raise e => Raise e
  end.

(** Python objects that messages are built from.  A [dict] keeps its
    insertion order and has [str] keys, as every object that [json.loads]
    returns; [bytes] stands for the values [json.dumps] refuses.  Floats are
    outside the modelled universe. *)
#[warnings="-register-all"]
Inductive pyval : Type :=
| PNone
| PBool (b : bool)
| PInt (z : Z)
| PStr (s : string)
| PBytes (b : bytes)
| PList (l : list pyval)
| PDict (d : list (string * pyval)).

Abbreviation pydict := (list (string * pyval)).

(** [d.get(k)] and [d[k] = v] on an insertion-ordered dict. *)
Fixpoint dict_get (k : string) (d : pydict) : option pyval :=
  match d with
  | [] => None
  | (k', v) :: d' => if String.eqb k k' then Some v else dict_get k d'
  end.

Fixpoint dict_set (k : string) (v : pyval) (d : pydict) : pydict :=
  match d with
  | [] => [(k, v)]
  | (k', v') :: d' =>
      if String.eqb k k' then (k, v) :: d' else (k', v') :: dict_set k v d'
  end.

Definition dict_keys (d : pydict) : list string := map fst d.

(** ** The state and exception monad of the embedding

    A computation runs on a state of type [St]; a raised exception keeps the
    state changes made before it. *)

Definition M (St A : Type) : Type := St -> res A * St.

Definition ret {St A} (a : A) : M St A := fun st => (Ok a, st).
Definition raise {St A} (e : exn) : M St A := fun st => (Raise e, st).
Definition bind {St A B} (m : M St A) (k : A -> M St B) : M St B :=
  fun st => match m st with
            | (Ok a, st') => k a st'
            | (Raise e, st') => (Raise e, st')
            end.
Definition lift {St A} (r : res A) : M St A := fun st => (r, st).
Definition gets {St A} (f : St -> A) : M St A := fun st => (Ok (f st), st).
Definition modify {St} (f : St -> St) : M St unit := fun st => (Ok tt, f st).

Notation "x <- m ;; k" := (bind m (fun x => k))
  (at level 100, m at next level, right associativity, only parsing).
Notation "m ;;; k" := (bind m (fun _ => k))
  (at level 100, right associativity, only parsing).

(** ** [server.MessageType] *)

Inductive MessageType : Type :=
| REQUEST_REGISTER
| REQUEST_PUBLISH
| REQUEST_FILE_LIST
| REQUEST_FILE_LOCATION
| REQUEST_CHUNK_REGISTER
| REQUEST_LEAVE
| REPLY_REGISTER
| REPLY_FILE_LIST
| REPLY_PUBLISH
| REPLY_FILE_LOCATION
| REPLY_LEAVE
| PEER_REQUEST_CHUNK
| PEER_REPLY_CHUNK.

Module MessageType_.

Definition members : list MessageType :=
  [REQUEST_REGISTER; REQUEST_PUBLISH; REQUEST_FILE_LIST;
   REQUEST_FILE_LOCATION; REQUEST_CHUNK_REGISTER; REQUEST_LEAVE;
   REPLY_REGISTER; REPLY_FILE_LIST; REPLY_PUBLISH; REPLY_FILE_LOCATION;
   REPLY_LEAVE; PEER_REQUEST_CHUNK; PEER_REPLY_CHUNK].

(** [auto()] numbers the members from 1 in declaration order. *)
Definition value (k : MessageType) : Z :=
  match k with
  | REQUEST_REGISTER => 1
  | REQUEST_PUBLISH => 2
  | REQUEST_FILE_LIST => 3
  | REQUEST_FILE_LOCATION => 4
  | REQUEST_CHUNK_REGISTER => 5
  | REQUEST_LEAVE => 6
  | REPLY_REGISTER => 7
  | REPLY_FILE_LIST => 8
  | REPLY_PUBLISH => 9
  | REPLY_FILE_LOCATION => 10
  | REPLY_LEAVE => 11
  | PEER_REQUEST_CHUNK => 12
  | PEER_REPLY_CHUNK => 13
  end.

Definition name (k : MessageType) : string :=
  match k with
  | REQUEST_REGISTER => "REQUEST_REGISTER"
  | REQUEST_PUBLISH => "REQUEST_PUBLISH"
  | REQUEST_FILE_LIST => "REQUEST_FILE_LIST"
  | REQUEST_FILE_LOCATION => "REQUEST_FILE_LOCATION"
  | REQUEST_CHUNK_REGISTER => "REQUEST_CHUNK_REGISTER"
  | REQUEST_LEAVE => "REQUEST_LEAVE"
  | REPLY_REGISTER => "REPLY_REGISTER"
  | REPLY_FILE_LIST => "REPLY_FILE_LIST"
  | REPLY_PUBLISH => "REPLY_PUBLISH"
  | REPLY_FILE_LOCATION => "REPLY_FILE_LOCATION"
  | REPLY_LEAVE => "REPLY_LEAVE"
  | PEER_REQUEST_CHUNK => "PEER_REQUEST_CHUNK"
  | PEER_REPLY_CHUNK => "PEER_REPLY_CHUNK"
  end.

(** Python's [v == z] for an int [z]: [True == 1] and [False == 0]. *)
Definition eq_int (v : pyval) (z : Z) : bool :=
  match v with
  | PInt x => x =? z
  | PBool b => (if b then 1 else 0) =? z
  | _ => false
  end.

(** [MessageType(v)]: the member whose value equals [v], else
    [ValueError]. *)
Definition call (v : pyval) : res MessageType :=
  match List.find (fun k => eq_int v (value k)) members with
  | Some k => Ok k
  | None => Raise ValueError
  end.

End MessageType_.

(** ** Library functions the servers call

    [json], the UTF-8 codec of [str]/[bytes] and [zstandard] are not part of
    the repository: the servers are modelled over any implementation of
    them. *)
Class PyLib : Type := {
  json_dumps : pyval -> res string;
  json_loads : string -> res pyval;
  str_encode_utf8 : string -> res bytes;
  bytes_decode_utf8 : bytes -> res string;
  zstd_compress : bytes -> bytes;
  zstd_decompress : bytes -> res bytes;
}.

(** ** Log records *)

Inductive loglevel : Type := DEBUG | INFO | WARNING.

(** A value substituted for a [{}] of the format string. *)
Inductive logarg : Type :=
| ArgVal (v : pyval)
| ArgPeer (host : string) (port : Z)
| ArgRatio (num den : Z).

Record logrec : Type := LogRec {
  log_level : loglevel;
  log_format : string;
  log_args : list logarg;
}.

(** ** [struct.pack('>I', n)] and [struct.unpack('>I', b)] *)

Module Struct.

Definition byte_of_Z (z : Z) : byte :=
  match Byte.of_N (Z.to_N (Z.land z 255)) with
  | Some b => b
  | None => x00
  end.

Definition Z_of_byte (b : byte) : Z := Z.of_N (Byte.to_N b).

(** Four bytes, most significant first; [struct.error] outside
    [0 <= n <= 0xFFFFFFFF]. *)
Definition pack_I (n : Z) : res bytes :=
  if (0 <=? n) && (n <? 2 ^ 32) then
    Ok [byte_of_Z (Z.shiftr n 24); byte_of_Z (Z.shiftr n 16);
        byte_of_Z (Z.shiftr n 8); byte_of_Z n]
  else Raise StructError.

(** [struct.unpack('>I', b)[0]]; [struct.error] unless [b] has exactly
    four bytes. *)
Definition unpack_I (b : bytes) : res Z :=
  match b with
  | [b3; b2; b1; b0] =>
      Ok (Z.lor (Z.shiftl (Z_of_byte b3) 24)
           (Z.lor (Z.shiftl (Z_of_byte b2) 16)
              (Z.lor (Z.shiftl (Z_of_byte b1) 8) (Z_of_byte b0))))
  | _ => Raise StructError
  end.

End Struct.

(** ** Byte streams

    The receiving end of a TCP connection: the segments still to arrive, in
    order, followed by the peer's close.  How the peer's bytes are cut into
    segments is not under the receiver's control. *)

Definition len {A} (l : list A) : Z := Z.of_nat (length l).

Module Socket.

Definition t := list bytes.

(** [sock.recv(bufsize)] on a blocking socket: at most [bufsize] bytes of
    the next segment that carries data; [b''] once the peer has closed. *)
Fixpoint recv (sock : t) (bufsize : Z) : bytes * t :=
  match sock with
  | [] => ([], [])
  | [] :: rest => recv rest bufsize
  | c :: rest =>
      if len c <=? bufsize then (c, rest)
      else (take (Z.to_nat bufsize) c, drop (Z.to_nat bufsize) c :: rest)
  end.

(** All the bytes the peer sends before it closes. *)
Definition contents (sock : t) : bytes := concat sock.

End Socket.

(** ** [utils.MessageServer] *)

Module Utils.

(** The [while len(data) < n] loop; each pass appends a non-empty packet,
    so [n - len(data)] decreases. *)
Equations? _recvall_loop (sock : Socket.t) (n : Z) (data : bytes)
  : res bytes * Socket.t by wf (Z.to_nat (n - len data)) lt :=
  _recvall_loop sock n data with inspect (len data <? n) := {
    | exist _ false _ => (Ok data, sock)
    | exist _ true Hlt with inspect (Socket.recv sock (n - len data)) := {
        | exist _ ([], sock') _ =>
            (Raise (EOFError "peer socket closed"), sock')
        | exist _ (b :: packet, sock') _ =>
            _recvall_loop sock' n (data ++ b :: packet) } }.
Proof.
  apply Z.ltb_lt in Hlt. unfold len in *.
  rewrite length_app. simpl. lia.
Qed.

Definition _recvall (sock : Socket.t) (n : Z) : res bytes * Socket.t :=
  _recvall_loop sock n [].

(** A connected client socket: what the peer still sends, what has been
    sent to it, and [getpeername()]. *)
Record Client : Type := {
  sock_in : Socket.t;
  sock_out : bytes;
  peer_host : string;
  peer_port : Z;
}.

(** The calls of the three abstract hooks, in order. *)
Inductive event : Type :=
| Connected
| Processed (msg : pyval)
| Closed.

(** The state one handler thread works on; [user] is the state owned by
    the subclass that implements the hooks, [trace] the record of the calls
    of the hooks. *)
Record World (U : Type) : Type := {
  client : Client;
  log : list logrec;
  trace : list event;
  user : U;
}.
Arguments client {U} _.
Arguments log {U} _.
Arguments trace {U} _.
Arguments user {U} _.

Section Server.
Context `{PyLib} {U : Type}.

(** The abstract methods, implemented by subclasses. *)
Variable _client_connected : M (World U) unit.
Variable _process_message : pyval -> M (World U) unit.
Variable _client_closed : M (World U) unit.

Definition set_sock_in (s : Socket.t) (w : World U) : World U :=
  {| client := {| sock_in := s; sock_out := sock_out (client w);
                  peer_host := peer_host (client w);
                  peer_port := peer_port (client w) |};
     log := log w; trace := trace w; user := user w |}.

Definition recvall (n : Z) : M (World U) bytes :=
  fun w => let (r, s) := _recvall (sock_in (client w)) n in
           (r, set_sock_in s w).

Definition sendall (b : bytes) : M (World U) unit :=
  modify (fun w =>
    {| client := {| sock_in := sock_in (client w);
                    sock_out := sock_out (client w) ++ b;
                    peer_host := peer_host (client w);
                    peer_port := peer_port (client w) |};
       log := log w; trace := trace w; user := user w |}).

Definition getpeername : M (World U) logarg :=
  gets (fun w => ArgPeer (peer_host (client w)) (peer_port (client w))).

Definition emit (l : loglevel) (fmt : string) (args : list logarg)
  : M (World U) unit :=
  modify (fun w =>
    {| client := client w; log := log w ++ [LogRec l fmt args];
       trace := trace w; user := user w |}).

(** Calling a hook: the call is recorded and the subclass's code runs.  It
    may send on the socket (with [_write_message]), log and change its own
    state.  Receiving is left to the handler: the hook is shown no incoming
    bytes, and the receiving side is as the handler left it. *)
Definition invoke (ev : event) (hook : M (World U) unit)
  : M (World U) unit :=
  fun w => let (r, w') := hook (set_sock_in [] w) in
           (r, {| client := {| sock_in := sock_in (client w);
                               sock_out := sock_out (client w');
                               peer_host := peer_host (client w);
                               peer_port := peer_port (client w) |};
                  log := log w'; trace := trace w ++ [ev];
                  user := user w' |}).

(** One pass of the [while True] body of [_read_message]. *)
Definition _read_message_body : M (World U) unit :=
  raw_msg_len <- recvall 4 ;;
  msglen <- lift (Struct.unpack_I raw_msg_len) ;;
  raw_msg <- recvall msglen ;;
  text <- lift (bytes_decode_utf8 raw_msg) ;;
  msg <- lift (json_loads text) ;;
  peer <- getpeername ;;
  emit INFO "Message {} from {}" [ArgVal msg; peer] ;;;
  invoke (Processed msg) (_process_message msg).

(** The [while True] loop ends only by an exception; [None] when [fuel]
    passes were not enough to reach it. *)
Fixpoint _read_message_loop (fuel : nat) (w : World U)
  : option (exn * World U) :=
  match fuel with
  | O => None
  | S fuel' =>
      match _read_message_body w with
      | (Ok _, w') => _read_message_loop fuel' w'
      | (Raise e, w') => Some (e, w')
      end
  end.

Definition _read_message_except : M (World U) unit :=
  peer <- getpeername ;;
  emit WARNING "{} closed unexpectedly" [peer] ;;;
  invoke Closed _client_closed.

(** [_read_message(client)]: the loop under [try ... except EOFError].
    Every pass takes at least the four header bytes off the stream, so
    one pass more than the stream has bytes is enough. *)
Definition _read_message (w : World U) : option (res unit * World U) :=
  match _read_message_loop
          (S (length (Socket.contents (sock_in (client w))))) w with
  | None => None
  | Some (e, w') =>
      Some (if is_EOFError e then _read_message_except w'
            else (Raise e, w'))
  end.

(** One pass of the accept loop of [listen] for the accepted client, and
    the handler thread it starts; an exception in the thread does not reach
    [listen]. *)
Definition listen_pass (w : World U) : option (res unit * World U) :=
  match (invoke Connected _client_connected ;;;
         peer <- getpeername ;;
         emit INFO "New connection from {}" [peer]) w with
  | (Ok _, w') => _read_message w'
  | (Raise e, w') => Some (Raise e, w')
  end.

Definition _write_message (message : pyval) : M (World U) unit :=
  peer <- getpeername ;;
  emit INFO "Writing {} to {}" [ArgVal message; peer] ;;;
  text <- lift (json_dumps message) ;;
  raw_msg <- lift (str_encode_utf8 text) ;;
  header <- lift (Struct.pack_I (len raw_msg)) ;;
  sendall (header ++ raw_msg).

End Server.

End Utils.

(** ** [asyncio.StreamReader]

    The reader of an accepted connection: the bytes already buffered and the
    segments the transport will still feed before it feeds EOF. *)
Module StreamReader.

Record t : Type := {
  buffer : bytes;
  feed : list bytes;
}.

Definition contents (r : t) : bytes := buffer r ++ concat (feed r).

(** Waiting for data until [n] bytes are buffered; at EOF the partial
    buffer is handed over in [IncompleteReadError]. *)
Fixpoint readexactly_wait (fd : list bytes) (buf : bytes) (n : Z)
  : res bytes * t :=
  if len buf <? n then
    match fd with
    | [] => (Raise (IncompleteReadError buf n), {| buffer := []; feed := [] |})
    | c :: fd' => readexactly_wait fd' (buf ++ c) n
    end
  else (Ok (take (Z.to_nat n) buf),
        {| buffer := drop (Z.to_nat n) buf; feed := fd |}).

Definition readexactly (n : Z) (r : t) : res bytes * t :=
  if n <? 0 then (Raise ValueError, r)
  else if n =? 0 then (Ok [], r)
  else readexactly_wait (feed r) (buffer r) n.

End StreamReader.

(** ** [asyncio.StreamWriter]

    The writer of an accepted connection: the bytes its transport has
    taken, whether [close] has been called on it, and whether the
    connection is gone ([wait_closed] has returned, or the connection was
    lost).  The socket takes what the transport is given, so that the
    transport's own buffer is empty between two calls. *)
Module StreamWriter.

Record t : Type := {
  written : bytes;
  closing : bool;
  closed : bool;
}.

(** [writer.is_closing()]: [close] was called, or the connection is
    lost. *)
Definition is_closing (w : t) : bool := closing w || closed w.

(** The public attributes of the class. *)
Definition attributes : list string :=
  ["transport"; "write"; "writelines"; "write_eof"; "can_write_eof";
   "close"; "is_closing"; "wait_closed"; "get_extra_info"; "drain";
   "start_tls"].

(** [writer.write(data)]: the transport takes the data, and drops it
    without an error once the connection is closing or lost. *)
Definition write (data : bytes) (w : t) : t :=
  if is_closing w then w
  else {| written := written w ++ data; closing := closing w;
          closed := closed w |}.

(** [getattr(writer, name)()] for the methods without arguments.
    [drain] on a connection that is closing or lost raises
    [ConnectionResetError]. *)
Definition call (name : string) (w : t) : res unit * t :=
  if bool_decide (name ∈ attributes) then
    if String.eqb name "close" then
      (Ok tt, {| written := written w; closing := true;
                 closed := closed w |})
    else if String.eqb name "wait_closed" then
      (Ok tt, {| written := written w; closing := closing w;
                 closed := closing w |})
    else if String.eqb name "drain" then
      if is_closing w then (Raise ConnectionResetError, w) else (Ok tt, w)
    else (Ok tt, w)
  else (Raise (AttributeError name), w).

End StreamWriter.

#[global] Instance StreamReader_inhabited : Inhabited StreamReader.t :=
  populate {| StreamReader.buffer := []; StreamReader.feed := [] |}.
#[global] Instance StreamWriter_inhabited : Inhabited StreamWriter.t :=
  populate {| StreamWriter.written := []; StreamWriter.closing := false;
              StreamWriter.closed := false |}.

(** ** [server.MessageServer] *)
Module Server.

(** The server object and the stream objects it has been handed; readers
    and writers are referred to by handle. *)
Record State : Type := {
  _writers : gset nat;
  readers : gmap nat StreamReader.t;
  writers : gmap nat StreamWriter.t;
  log : list logrec;
}.

Definition set_writers (ws : gset nat) (st : State) : State :=
  {| _writers := ws; readers := readers st; writers := writers st;
     log := log st |}.

Definition emit (l : loglevel) (fmt : string) (args : list logarg)
  : M State unit :=
  modify (fun st =>
    {| _writers := _writers st; readers := readers st;
       writers := writers st; log := log st ++ [LogRec l fmt args] |}).

Definition on_reader {A} (r : nat)
  (f : StreamReader.t -> res A * StreamReader.t) : M State A :=
  fun st => let (a, rd) := f (readers st !!! r) in
            (a, {| _writers := _writers st;
                   readers := <[r := rd]> (readers st);
                   writers := writers st; log := log st |}).

Definition on_writer {A} (w : nat)
  (f : StreamWriter.t -> res A * StreamWriter.t) : M State A :=
  fun st => let (a, wr) := f (writers st !!! w) in
            (a, {| _writers := _writers st; readers := readers st;
                   writers := <[w := wr]> (writers st); log := log st |}).

(** [stop]: [for writer in self._writers: writer.close();
    await writer.wait_close()]. *)
Fixpoint stop_loop (ws : list nat) : M State unit :=
  match ws with
  | [] => ret tt
  | writer :: ws' =>
      on_writer writer (StreamWriter.call "close") ;;;
      on_writer writer (StreamWriter.call "wait_close") ;;;
      stop_loop ws'
  end.

Definition stop : M State unit :=
  fun st => stop_loop (elements (_writers st)) st.

(** [message[key]] on the objects [json.loads] can return. *)
Definition list_getitem {A} (l : list A) (key : pyval) : res A :=
  let at_index (i : Z) :=
    let j := if i <? 0 then i + len l else i in
    if (0 <=? j) && (j <? len l) then
      match l !! Z.to_nat j with
      | Some x => Ok x
      | None => Raise IndexError
      end
    else Raise IndexError in
  match key with
  | PInt i => at_index i
  | PBool b => at_index (if b then 1 else 0)
  | _ => Raise TypeError
  end.

Definition is_data (key : pyval) : bool :=
  match key with
  | PStr s => String.eqb s "data"
  | _ => false
  end.

(** The comprehension [{key: message[key] for key in message
    if key != 'data'}] over a sequence: only its failure matters, since
    [message['type']] fails on every sequence. *)
Fixpoint seq_comprehension {A} (l : list A) (keys : list pyval) : res unit :=
  match keys with
  | [] => Ok tt
  | key :: keys' =>
      if is_data key then seq_comprehension l keys'
      else res_bind (list_getitem l key) (fun _ => seq_comprehension l keys')
  end.

(** The same comprehension over a dict. *)
Definition dict_comprehension (message : pydict) : res pydict :=
  foldl (fun acc key =>
           res_bind acc (fun log_message =>
             if String.eqb key "data" then Ok log_message
             else match dict_get key message with
                  | Some v => Ok (dict_set key v log_message)
                  | None => Raise (KeyError key)
                  end))
        (Ok []) (dict_keys message).

Definition __message_log (message : pyval) : res pydict :=
  match message with
  | PDict d =>
      res_bind (dict_comprehension d) (fun log_message =>
        match dict_get "type" d with
        | None => Raise (KeyError "type")
        | Some ty =>
            res_bind (MessageType_.call ty) (fun kind =>
              Ok (dict_set "type" (PStr (MessageType_.name kind))
                    log_message))
        end)
  | PList l =>
      res_bind (seq_comprehension l l) (fun _ => Raise TypeError)
  | PBytes b =>
      res_bind
        (seq_comprehension b (map (fun x => PInt (Struct.Z_of_byte x)) b))
        (fun _ => Raise TypeError)
  | PStr _ | PNone | PBool _ | PInt _ => Raise TypeError
  end.

Section Codec.
Context `{PyLib}.

Definition _read_message (reader : nat) : M State pyval :=
  raw_msg_len <- on_reader reader (StreamReader.readexactly 4) ;;
  msglen <- lift (Struct.unpack_I raw_msg_len) ;;
  raw_msg <- on_reader reader (StreamReader.readexactly msglen) ;;
  plain <- lift (zstd_decompress raw_msg) ;;
  text <- lift (bytes_decode_utf8 plain) ;;
  msg <- lift (json_loads text) ;;
  log_message <- lift (__message_log msg) ;;
  emit DEBUG "Message received {}" [ArgVal (PDict log_message)] ;;;
  ret msg.

Definition _write_message (message : pyval) (writer : nat)
  : M State unit :=
  log_message <- lift (__message_log message) ;;
  emit DEBUG "Writing {}" [ArgVal (PDict log_message)] ;;;
  text <- lift (json_dumps message) ;;
  raw_msg <- lift (str_encode_utf8 text) ;;
  let compressed := zstd_compress raw_msg in
  (if len raw_msg =? 0 then raise ZeroDivisionError else ret tt) ;;;
  emit DEBUG "Compressed rate: {}"
    [ArgRatio (len compressed) (len raw_msg)] ;;;
  header <- lift (Struct.pack_I (len compressed)) ;;
  on_writer writer (fun w =>
    (Ok tt, StreamWriter.write (header ++ compressed) w)) ;;;
  on_writer writer (StreamWriter.call "drain").

End Codec.

Section Connection.

(** The abstract coroutine, implemented by subclasses. *)
Variable _process_connection : nat -> nat -> M State unit.

(** [set.remove]: [KeyError] when the element is absent. *)
Definition writers_remove (writer : nat) : M State unit :=
  fun st =>
    if bool_decide (writer ∈ _writers st) then
      (Ok tt, set_writers (_writers st ∖ {[writer]}) st)
    else (Raise (KeyError "writer"), st).

Definition __new_connection (reader writer : nat) : M State unit :=
  modify (fun st => set_writers ({[writer]} ∪ _writers st) st) ;;;
  _process_connection reader writer ;;;
  writers_remove writer.

End Connection.

(** The base class leaves [_process_connection] unimplemented. *)
Definition _process_connection (reader writer : nat) : M State unit :=
  raise NotImplementedError.

End Server.

(** ** A reference implementation of the library functions

    Enough of [json] (default options), of the UTF-8 codec and of a
    compressor to run the servers on concrete frames.  [json] covers
    [None], [bool], [int], [str], [list] and [dict]; strings are over the
    code points below 256; the compressor is a store-only stand-in for
    [zstandard] that puts the payload behind the zstd magic number. *)
Module RefLib.
Import Ascii.

Definition dq : ascii := "034".
Definition bs : ascii := "092".

Definition hex (n : N) : ascii :=
  nth (N.to_nat n) (list_ascii_of_string "0123456789abcdef") "0"%char.

(** [json.encoder.py_encode_basestring_ascii] on one character. *)
Definition escape (c : ascii) : list ascii :=
  let n := N_of_ascii c in
  if (n =? 34)%N then [bs; dq]
  else if (n =? 92)%N then [bs; bs]
  else if (n =? 10)%N then [bs; "n"%char]
  else if (n =? 13)%N then [bs; "r"%char]
  else if (n =? 9)%N then [bs; "t"%char]
  else if (n =? 8)%N then [bs; "b"%char]
  else if (n =? 12)%N then [bs; "f"%char]
  else if (n <? 32)%N || (126 <? n)%N then
    [bs; "u"%char; "0"%char; "0"%char; hex (n / 16); hex (n mod 16)]
  else [c].

Definition dumps_str (s : string) : list ascii :=
  dq :: flat_map escape (list_ascii_of_string s) ++ [dq].

Definition dumps_int (z : Z) : list ascii :=
  list_ascii_of_string (NilZero.string_of_int (Z.to_int z)).

Definition join (parts : list (list ascii)) : list ascii :=
  match parts with
  | [] => []
  | p :: ps =>
      p ++ flat_map (fun q => ","%char :: " "%char :: q) ps
  end.

Fixpoint dumps_val (v : pyval) : res (list ascii) :=
  match v with
  | PNone => Ok (list_ascii_of_string "null")
  | PBool true => Ok (list_ascii_of_string "true")
  | PBool false => Ok (list_ascii_of_string "false")
  | PInt z => Ok (dumps_int z)
  | PStr s => Ok (dumps_str s)
  | PBytes _ => Raise TypeError
  | PList l =>
      let fix items (l : list pyval) : res (list (list ascii)) :=
        match l with
        | [] => Ok []
        | x :: xs =>
            res_bind (dumps_val x) (fun p =>
              res_bind (items xs) (fun ps => Ok (p :: ps)))
        end in
      res_bind (items l) (fun ps => Ok ("["%char :: join ps ++ ["]"%char]))
  | PDict d =>
      let fix members (d : pydict) : res (list (list ascii)) :=
        match d with
        | [] => Ok []
        | (k, x) :: xs =>
            res_bind (dumps_val x) (fun p =>
              res_bind (members xs) (fun ps =>
                Ok ((dumps_str k ++ ":"%char :: " "%char :: p) :: ps)))
        end in
      res_bind (members d) (fun ps => Ok ("{"%char :: join ps ++ ["}"%char]))
  end.

Definition dumps (v : pyval) : res string :=
  res_bind (dumps_val v) (fun cs => Ok (string_of_list_ascii cs)).

Definition is_ws (c : ascii) : bool :=
  let n := N_of_ascii c in
  (n =? 32)%N || (n =? 9)%N || (n =? 10)%N || (n =? 13)%N.

Fixpoint skip_ws (s : list ascii) : list ascii :=
  match s with
  | c :: s' => if is_ws c then skip_ws s' else s
  | [] => []
  end.

Definition digit (c : ascii) : option Z :=
  let n := N_of_ascii c in
  if (48 <=? n)%N && (n <=? 57)%N then Some (Z.of_N n - 48) else None.

Definition hex_value (c : ascii) : option N :=
  let n := N_of_ascii c in
  if (48 <=? n)%N && (n <=? 57)%N then Some (n - 48)%N
  else if (97 <=? n)%N && (n <=? 102)%N then Some (n - 87)%N
  else if (65 <=? n)%N && (n <=? 70)%N then Some (n - 55)%N
  else None.

(** The characters of a string literal after its opening quote. *)
Fixpoint parse_string (s : list ascii) (acc : list ascii)
  : option (string * list ascii) :=
  match s with
  | [] => None
  | c :: s' =>
      if Ascii.eqb c dq then Some (string_of_list_ascii (rev acc), s')
      else if Ascii.eqb c bs then
        match s' with
        | e :: s'' =>
            let simple (x : ascii) := parse_string s'' (x :: acc) in
            if Ascii.eqb e dq then simple dq
            else if Ascii.eqb e bs then simple bs
            else if Ascii.eqb e "/" then simple "/"%char
            else if Ascii.eqb e "n" then simple "010"%char
            else if Ascii.eqb e "r" then simple "013"%char
            else if Ascii.eqb e "t" then simple "009"%char
            else if Ascii.eqb e "b" then simple "008"%char
            else if Ascii.eqb e "f" then simple "012"%char
            else if Ascii.eqb e "u" then
              match s'' with
              | h3 :: h2 :: h1 :: h0 :: s3 =>
                  match hex_value h3, hex_value h2, hex_value h1,
                        hex_value h0 with
                  | Some 0%N, Some 0%N, Some x1, Some x0 =>
                      parse_string s3 (ascii_of_N (x1 * 16 + x0) :: acc)
                  | _, _, _, _ => None
                  end
              | _ => None
              end
            else None
        | [] => None
        end
      else if (N_of_ascii c <? 32)%N then None
      else parse_string s' (c :: acc)
  end.

Fixpoint parse_digits (s : list ascii) (acc : Z) : Z * list ascii :=
  match s with
  | c :: s' =>
      match digit c with
      | Some d => parse_digits s' (acc * 10 + d)
      | None => (acc, s)
      end
  | [] => (acc, [])
  end.

(** An optional minus sign, then [0] or a digit string without leading
    zero, not followed by a fraction or an exponent. *)
Definition parse_int (s : list ascii) : option (Z * list ascii) :=
  let unsigned (s : list ascii) :=
    match s with
    | c :: s' =>
        match digit c with
        | Some 0 => Some (0, s')
        | Some d => Some (parse_digits s' d)
        | None => None
        end
    | [] => None
    end in
  let no_float (r : option (Z * list ascii)) :=
    match r with
    | Some (z, c :: s') =>
        if Ascii.eqb c "." || Ascii.eqb c "e" || Ascii.eqb c "E"
        then None else r
    | _ => r
    end in
  match s with
  | c :: s' =>
      if Ascii.eqb c "-" then
        no_float (match unsigned s' with
                  | Some (z, r) => Some (- z, r)
                  | None => None
                  end)
      else no_float (unsigned s)
  | [] => None
  end.

Definition expect (word : string) (s : list ascii) : option (list ascii) :=
  let w := list_ascii_of_string word in
  if bool_decide (take (length w) s = w) then Some (drop (length w) s)
  else None.

Fixpoint parse_value (fuel : nat) (s : list ascii)
  : option (pyval * list ascii) :=
  match fuel with
  | O => None
  | S fuel' =>
      match skip_ws s with
      | [] => None
      | c :: s' =>
          if Ascii.eqb c "n" then
            option_map (pair PNone) (expect "null" (c :: s'))
          else if Ascii.eqb c "t" then
            option_map (pair (PBool true)) (expect "true" (c :: s'))
          else if Ascii.eqb c "f" then
            option_map (pair (PBool false)) (expect "false" (c :: s'))
          else if Ascii.eqb c dq then
            match parse_string s' [] with
            | Some (str, r) => Some (PStr str, r)
            | None => None
            end
          else if Ascii.eqb c "[" then
            match skip_ws s' with
            | c' :: r =>
                if Ascii.eqb c' "]" then Some (PList [], r)
                else parse_items fuel' s' []
            | [] => None
            end
          else if Ascii.eqb c "{" then
            match skip_ws s' with
            | c' :: r =>
                if Ascii.eqb c' "}" then Some (PDict [], r)
                else parse_members fuel' s' []
            | [] => None
            end
          else
            match parse_int (c :: s') with
            | Some (z, r) => Some (PInt z, r)
            | None => None
            end
      end
  end
with parse_items (fuel : nat) (s : list ascii) (acc : list pyval)
  : option (pyval * list ascii) :=
  match fuel with
  | O => None
  | S fuel' =>
      match parse_value fuel' s with
      | Some (v, r) =>
          match skip_ws r with
          | c :: r' =>
              if Ascii.eqb c "]" then Some (PList (rev (v :: acc)), r')
              else if Ascii.eqb c "," then parse_items fuel' r' (v :: acc)
              else None
          | [] => None
          end
      | None => None
      end
  end
with parse_members (fuel : nat) (s : list ascii) (acc : pydict)
  : option (pyval * list ascii) :=
  match fuel with
  | O => None
  | S fuel' =>
      match skip_ws s with
      | c :: s' =>
          if Ascii.eqb c dq then
            match parse_string s' [] with
            | Some (k, r) =>
                match skip_ws r with
                | c' :: r' =>
                    if Ascii.eqb c' ":" then
                      match parse_value fuel' r' with
                      | Some (v, r'') =>
                          match skip_ws r'' with
                          | c'' :: r3 =>
                              if Ascii.eqb c'' "}" then
                                Some (PDict (dict_set k v acc), r3)
                              else if Ascii.eqb c'' "," then
                                parse_members fuel' r3 (dict_set k v acc)
                              else None
                          | [] => None
                          end
                      | None => None
                      end
                    else None
                | [] => None
                end
            | None => None
            end
          else None
      | [] => None
      end
  end.

(** [json.loads]: one value, then nothing but white space. *)
Definition loads (text : string) : res pyval :=
  let s := list_ascii_of_string text in
  match parse_value (2 * length s + 2) s with
  | Some (v, r) =>
      match skip_ws r with
      | [] => Ok v
      | _ => Raise JSONDecodeError
      end
  | None => Raise JSONDecodeError
  end.

(** [str.encode('utf-8')] on code points below 256. *)
Definition encode_char (c : ascii) : bytes :=
  let n := N_of_ascii c in
  if (n <? 128)%N then [byte_of_ascii c]
  else [Struct.byte_of_Z (192 + Z.of_N (n / 64));
        Struct.byte_of_Z (128 + Z.of_N (n mod 64))].

Definition encode (s : string) : res bytes :=
  Ok (flat_map encode_char (list_ascii_of_string s)).

(** [bytes.decode('utf-8')], for the sequences that encode code points
    below 256. *)
Fixpoint decode_bytes (b : bytes) : option (list ascii) :=
  match b with
  | [] => Some []
  | x :: b' =>
      let n := Byte.to_N x in
      if (n <? 128)%N then option_map (cons (ascii_of_byte x)) (decode_bytes b')
      else if (n =? 194)%N || (n =? 195)%N then
        match b' with
        | y :: b'' =>
            let m := Byte.to_N y in
            if (128 <=? m)%N && (m <? 192)%N then
              option_map (cons (ascii_of_N ((n - 192) * 64 + (m - 128))))
                (decode_bytes b'')
            else None
        | [] => None
        end
      else None
  end.

Definition decode (b : bytes) : res string :=
  match decode_bytes b with
  | Some cs => Ok (string_of_list_ascii cs)
  | None => Raise UnicodeDecodeError
  end.

Definition magic : bytes := [x28; xb5; x2f; xfd].

Definition compress (b : bytes) : bytes := magic ++ b.

Definition decompress (b : bytes) : res bytes :=
  if bool_decide (take 4 b = magic) then Ok (drop 4 b)
  else Raise ZstdError.

#[export] Instance lib : PyLib := {
  json_dumps := dumps;
  json_loads := loads;
  str_encode_utf8 := encode;
  bytes_decode_utf8 := decode;
  zstd_compress := compress;
  zstd_decompress := decompress;
}.

(** The bytes of an ASCII text. *)
Definition b (text : string) : bytes :=
  map byte_of_ascii (list_ascii_of_string text).

End RefLib.

(** ** The vocabulary of the properties *)

Module Spec.
Import Socket.

(** The value of a byte string read as a big-endian unsigned number. *)
Definition be_value (b : bytes) : Z :=
  fold_left (fun acc x => acc * 256 + Struct.Z_of_byte x) b 0.

(** The exception [_recvall] raises. *)
Definition eof : exn := EOFError "peer socket closed".

(** Reading [n] bytes off a stream with bytes [c], as a function of [c]
    alone: the result, and the bytes left. *)
Definition read_exactly (failure : exn) (c : bytes) (n : Z)
  : res bytes * bytes :=
  if n <=? 0 then (Ok [], c)
  else if n <=? len c then (Ok (take (Z.to_nat n) c), drop (Z.to_nat n) c)
  else (Raise failure, []).

(** The stream ends before the header is complete, or before the payload
    length that the header declares is reached. *)
Definition truncated (c : bytes) : Prop :=
  len c < 4 \/
  exists L, Struct.unpack_I (take 4 c) = Ok L /\ len c < 4 + L.

(** [v == kind.value] for one of the thirteen members. *)
Definition recognized (v : pyval) : Prop :=
  exists kind, MessageType_.eq_int v (MessageType_.value kind) = true.

(** Two worlds of the threaded server that differ at most in how the
    incoming bytes are cut into segments. *)
Definition same_world {U : Type} (w1 w2 : Utils.World U) : Prop :=
  contents (Utils.sock_in (Utils.client w1))
  = contents (Utils.sock_in (Utils.client w2))
  /\ Utils.sock_out (Utils.client w1) = Utils.sock_out (Utils.client w2)
  /\ Utils.peer_host (Utils.client w1) = Utils.peer_host (Utils.client w2)
  /\ Utils.peer_port (Utils.client w1) = Utils.peer_port (Utils.client w2)
  /\ Utils.log w1 = Utils.log w2
  /\ Utils.trace w1 = Utils.trace w2
  /\ Utils.user w1 = Utils.user w2.

(** A computation whose outcome does not depend on the segmentation. *)
Definition respects_world {U A : Type} (m : M (Utils.World U) A) : Prop :=
  forall w1 w2, same_world w1 w2 ->
    (m w1).1 = (m w2).1 /\ same_world (m w1).2 (m w2).2.

(** Two states of the asyncio server that differ at most in how the bytes
    of the readers are cut into segments. *)
Definition same_state (st1 st2 : Server.State) : Prop :=
  Server._writers st1 = Server._writers st2
  /\ Server.writers st1 = Server.writers st2
  /\ Server.log st1 = Server.log st2
  /\ forall r, StreamReader.contents (Server.readers st1 !!! r)
               = StreamReader.contents (Server.readers st2 !!! r).

Definition respects_state {A : Type} (m : M Server.State A) : Prop :=
  forall st1 st2, same_state st1 st2 ->
    (m st1).1 = (m st2).1 /\ same_state (m st1).2 (m st2).2.

(** The state in which [reader] is fresh and will be fed [segments]. *)
Definition feeding (reader : nat) (segments : list bytes) (st : Server.State)
  : Server.State :=
  {| Server._writers := Server._writers st;
     Server.readers := <[reader := {| StreamReader.buffer := [];
                                      StreamReader.feed := segments |}]>
                         (Server.readers st);
     Server.writers := Server.writers st; Server.log := Server.log st |}.

(** What the threaded loop body does once the payload is in hand. *)
Definition threaded_after_payload `{PyLib} {U : Type}
    (_process_message : pyval -> M (Utils.World U) unit) (raw_msg : bytes)
  : M (Utils.World U) unit :=
  text <- lift (bytes_decode_utf8 raw_msg) ;;
  msg <- lift (json_loads text) ;;
  peer <- Utils.getpeername ;;
  Utils.emit INFO "Message {} from {}" [ArgVal msg; peer] ;;;
  Utils.invoke (Utils.Processed msg) (_process_message msg).

(** What the asyncio [_read_message] does once the payload is in hand. *)
Definition async_after_payload `{PyLib} (raw_msg : bytes)
  : M Server.State pyval :=
  plain <- lift (zstd_decompress raw_msg) ;;
  text <- lift (bytes_decode_utf8 plain) ;;
  msg <- lift (json_loads text) ;;
  log_message <- lift (Server.__message_log msg) ;;
  Server.emit DEBUG "Message received {}" [ArgVal (PDict log_message)] ;;;
  ret msg.

(** The log records of a successful asyncio [_write_message]. *)
Definition write_records `{PyLib} (log_message : pydict) (raw_msg : bytes)
  : list logrec :=
  [LogRec DEBUG "Writing {}" [ArgVal (PDict log_message)];
   LogRec DEBUG "Compressed rate: {}"
     [ArgRatio (len (zstd_compress raw_msg)) (len raw_msg)]].

(** The step of the comprehension, as [dict_comprehension] folds it. *)
Definition step (message : pydict) (acc : res pydict) (key : string)
  : res pydict :=
  res_bind acc (fun log_message =>
    if String.eqb key "data" then Ok log_message
    else match dict_get key message with
         | Some v => Ok (dict_set key v log_message)
         | None => Raise (KeyError key)
         end).

End Spec.

(** ** The servers on concrete connections *)

Module Concrete.
Import Socket.

(** Hooks of a subclass that keeps no state. *)
Definition on_message (msg : pyval) : M (Utils.World unit) unit := ret tt.
Definition on_closed : M (Utils.World unit) unit := ret tt.

Definition world (segments : list bytes) : Utils.World unit :=
  {| Utils.client := {| Utils.sock_in := segments; Utils.sock_out := [];
                        Utils.peer_host := "10.0.0.2";
                        Utils.peer_port := 40000 |};
     Utils.log := []; Utils.trace := []; Utils.user := tt |}.

Definition server (registered : gset nat) : Server.State :=
  {| Server._writers := registered; Server.readers := ∅;
     Server.writers := ∅; Server.log := [] |}.

(** [{'type': 3}], a [REQUEST_FILE_LIST]. *)
Definition file_list_request : pyval := PDict [("type", PInt 3)].

(** [{'type': 8, 'files': []}], a [REPLY_FILE_LIST]. *)
Definition file_list_reply : pyval :=
  PDict [("type", PInt 8); ("files", PList [])].

(** [{'type': 13, 'data': 'abc', 'index': 0}], a [PEER_REPLY_CHUNK]. *)
Definition chunk_reply : pyval :=
  PDict [("type", PInt 13); ("data", PStr "abc"); ("index", PInt 0)].

(** The bytes the threaded server sends for a message. *)
Definition sent_frame (m : pyval) : bytes :=
  Utils.sock_out
    (Utils.client (@Utils._write_message RefLib.lib unit m (world [])).2).

(** The bytes the asyncio server writes for a message. *)
Definition written_frame (m : pyval) : bytes :=
  StreamWriter.written
    (Server.writers
       (@Server._write_message RefLib.lib m 0%nat (server ∅)).2 !!! 0%nat).

(** The text [json.dumps] gives for a message. *)
Definition dumped (m : pyval) : string :=
  match RefLib.dumps m with
  | Ok text => text
  | Raise _ => EmptyString
  end.

(** One byte per segment. *)
Definition bytewise (b : bytes) : list bytes := map (fun x => [x]) b.

(** The uncompressed frame of a payload given as text. *)
Definition frame (payload : string) : bytes :=
  match Struct.pack_I (len (RefLib.b payload)) with
  | Ok header => header ++ RefLib.b payload
  | Raise _ => []
  end.

(** A header alone, cut short after three bytes. *)
Definition short_header : list bytes := [[x00; x00]; [x00]].

(** A header that announces five bytes, followed by two. *)
Definition short_payload : list bytes := [[x00; x00; x00; x05]; RefLib.b "hi"].

(** [{'files': []}]: a mapping without ['type']. *)
Definition untyped : pydict := [("files", PList [])].

(** [{'type': 3, 'data': b'...'}]: [bytes] are not JSON serializable. *)
Definition unserializable : pyval :=
  PDict [("type", PInt 3); ("data", PBytes [x00; x01])].

(** A hook that answers a [REQUEST_FILE_LIST] with the [REPLY_FILE_LIST]
    above, through [_write_message]. *)
Definition answer (msg : pyval) : M (Utils.World unit) unit :=
  match msg with
  | PDict d =>
      match dict_get "type" d with
      | Some (PInt 3) => @Utils._write_message RefLib.lib unit file_list_reply
      | _ => ret tt
      end
  | _ => ret tt
  end.

(** The header for a payload. *)
Definition header_of (payload : bytes) : bytes :=
  match Struct.pack_I (len payload) with
  | Ok header => header
  | Raise _ => []
  end.

(** A payload as the asyncio server compresses it. *)
Definition compressed (text : string) : bytes :=
  RefLib.compress (RefLib.b text).

End Concrete.

(** ** The vocabulary of the properties of the handlers *)

Module Protocol.
Import Socket.

(** The frame for a payload: its header, then the payload. *)
Definition frame_of (payload : bytes) : bytes :=
  match Struct.pack_I (len payload) with
  | Ok header => header ++ payload
  | Raise _ => []
  end.

(** A mapping with a recognized ['type']. *)
Definition typed (msg : pyval) : Prop :=
  exists d ty, msg = PDict d /\ dict_get "type" d = Some ty
               /\ Spec.recognized ty.

(** The message without its ['data'] entry and with the name of the kind
    for ['type'], the entries in their order. *)
Definition projection (kind : MessageType) (d : pydict) : pydict :=
  map (fun kv => if String.eqb (fst kv) "type"
                 then (fst kv, PStr (MessageType_.name kind)) else kv)
      (filter (fun kv => fst kv <> "data") d).

(** The calls of [_process_message] for a list of messages. *)
Definition processed (ms : list pyval) : list Utils.event :=
  map Utils.Processed ms.

(** Calling the threaded [_write_message] for one message after the
    other. *)
Fixpoint write_all `{PyLib} {U : Type} (ms : list pyval)
  : M (Utils.World U) unit :=
  match ms with
  | [] => ret tt
  | m :: ms' => Utils._write_message m ;;; write_all ms'
  end.

End Protocol.

(** ** More connections to run the servers on *)

Module Samples.
Import Concrete.

(** Two messages with their payloads, as the threaded server sends them. *)
Definition two_items : list (bytes * pyval) :=
  [(RefLib.b (dumped file_list_request), file_list_request);
   (RefLib.b (dumped chunk_reply), chunk_reply)].

(** The stream of their frames, one byte per segment. *)
Definition two_frames : list bytes :=
  bytewise (concat (map (fun it => Protocol.frame_of (fst it)) two_items)).

(** A hook that raises. *)
Definition failing (e : exn) (msg : pyval) : M (Utils.World unit) unit :=
  raise e.

Definition on_connected : M (Utils.World unit) unit := ret tt.

(** A frame whose payload is not compressed data, then the compressed
    frame of a message. *)
Definition bad_then_good : list bytes :=
  [frame "{" ++ Protocol.frame_of (compressed (dumped chunk_reply))].

(** A [_process_connection] that returns at once. *)
Definition returning (reader writer : nat) : M Server.State unit := ret tt.

(** A server on whose registered writer [close] has been called. *)
Definition closing_server : Server.State :=
  (Server.on_writer 0%nat (StreamWriter.call "close") (server {[0%nat]})).2.

End Samples.

(** * Properties *)

(** ** The length header *)

Module StructFacts.
Import Spec Struct.

Lemma Z_of_byte_range b : 0 <= Z_of_byte b < 256.
Proof.
  unfold Z_of_byte. pose proof (Byte.to_N_bounded b). lia.
Qed.

Lemma Z_of_byte_of_Z z : Z_of_byte (byte_of_Z z) = z mod 256.
Proof.
  unfold Z_of_byte, byte_of_Z.
  assert (Hland : Z.land z 255 = z mod 256).
  { change 255 with (Z.ones 8). rewrite Z.land_ones by lia. reflexivity. }
  rewrite Hland.
  pose proof (Z.mod_pos_bound z 256 ltac:(lia)) as Hr.
  destruct (Byte.of_N (Z.to_N (z mod 256))) as [b|] eqn:E.
  - apply Byte.to_of_N in E. rewrite E. lia.
  - apply Byte.of_N_None_iff in E. lia.
Qed.

Lemma byte_of_Z_of_byte b : byte_of_Z (Z_of_byte b) = b.
Proof.
  unfold byte_of_Z, Z_of_byte.
  pose proof (Byte.to_N_bounded b) as Hb.
  change 255 with (Z.ones 8). rewrite Z.land_ones by lia.
  rewrite Z.mod_small by lia.
  rewrite N2Z.id, Byte.of_to_N. reflexivity.
Qed.

Lemma lor_shiftl_low a x k :
  0 <= k -> 0 <= x < 2 ^ k -> Z.lor (Z.shiftl a k) x = a * 2 ^ k + x.
Proof.
  intros Hk Hx. rewrite Z.shiftl_mul_pow2 by lia.
  symmetry. apply Z.add_nocarry_lor.
  apply Z.bits_inj'. intros i Hi.
  rewrite Z.land_spec, Z.bits_0.
  destruct (Z.ltb_spec i k) as [Hlt | Hge].
  - rewrite Z.mul_pow2_bits_low by lia. reflexivity.
  - destruct (Z.eq_dec x 0) as [-> | Hnz].
    + rewrite Z.bits_0. apply andb_false_r.
    + rewrite (Z.bits_above_log2 x i); [apply andb_false_r | lia |].
      assert (Z.log2 x < k); [| lia].
      apply Z.log2_lt_pow2; lia.
Qed.

(** On four bytes the shifts and ors of [unpack_I] add up the big-endian
    digits. *)
Lemma unpack_I_be_value b :
  length b = 4%nat -> unpack_I b = Ok (be_value b).
Proof.
  destruct b as [| b3 [| b2 [| b1 [| b0 [| ? ?]]]]]; try discriminate.
  intros _. unfold unpack_I, be_value. simpl. f_equal.
  pose proof (Z_of_byte_range b3). pose proof (Z_of_byte_range b2).
  pose proof (Z_of_byte_range b1). pose proof (Z_of_byte_range b0).
  rewrite (lor_shiftl_low _ (Z_of_byte b0) 8) by lia.
  rewrite (lor_shiftl_low _ _ 16) by lia.
  rewrite (lor_shiftl_low _ _ 24) by lia.
  lia.
Qed.

Lemma pack_I_ok n :
  0 <= n < 2 ^ 32 ->
  pack_I n = Ok [byte_of_Z (n / 2 ^ 24); byte_of_Z (n / 2 ^ 16);
                 byte_of_Z (n / 2 ^ 8); byte_of_Z n].
Proof.
  intros Hn. unfold pack_I.
  destruct (Z.leb_spec 0 n); [| lia].
  destruct (Z.ltb_spec n (2 ^ 32)); [| lia]. simpl.
  rewrite !Z.shiftr_div_pow2 by lia. reflexivity.
Qed.

Lemma pack_I_error n : ~ 0 <= n < 2 ^ 32 -> pack_I n = Raise StructError.
Proof.
  intros Hn. unfold pack_I.
  destruct (Z.leb_spec 0 n); destruct (Z.ltb_spec n (2 ^ 32));
    simpl; try reflexivity; lia.
Qed.

Lemma pack_I_length n header : pack_I n = Ok header -> length header = 4%nat.
Proof.
  unfold pack_I. destruct (_ && _); [| discriminate].
  intros [= <-]. reflexivity.
Qed.

Lemma pack_I_be_value n header : pack_I n = Ok header -> be_value header = n.
Proof.
  intros Hp.
  assert (Hn : 0 <= n < 2 ^ 32).
  { destruct (Z.leb_spec 0 n); destruct (Z.ltb_spec n (2 ^ 32)); try lia;
      rewrite pack_I_error in Hp by lia; discriminate. }
  rewrite pack_I_ok in Hp by lia. injection Hp as <-.
  unfold be_value. simpl. rewrite !Z_of_byte_of_Z.
  change (2 ^ 32) with (256 * (256 * (256 * 256))) in Hn.
  change (2 ^ 24) with (256 * (256 * 256)).
  change (2 ^ 16) with (256 * 256). change (2 ^ 8) with 256.
  rewrite <- !Z.div_div by lia.
  set (q1 := n / 256). set (q2 := q1 / 256). set (q3 := q2 / 256).
  pose proof (Z.div_mod n 256 ltac:(lia)).
  pose proof (Z.div_mod q1 256 ltac:(lia)).
  pose proof (Z.div_mod q2 256 ltac:(lia)).
  pose proof (Z.mod_pos_bound n 256 ltac:(lia)).
  pose proof (Z.mod_pos_bound q1 256 ltac:(lia)).
  pose proof (Z.mod_pos_bound q2 256 ltac:(lia)).
  fold q1 in H. fold q2 in H0. fold q3 in H1.
  assert (0 <= q3 < 256) by (unfold q3, q2, q1; split;
    [repeat apply Z.div_pos; lia
    | repeat (apply Z.div_lt_upper_bound; [lia |]); lia]).
  rewrite (Z.mod_small q3) by lia. lia.
Qed.

Lemma unpack_I_pack_I n header : pack_I n = Ok header -> unpack_I header = Ok n.
Proof.
  intros Hp. rewrite unpack_I_be_value by (eapply pack_I_length; eauto).
  f_equal. eapply pack_I_be_value; eauto.
Qed.

End StructFacts.

(** ** Reading from a socket: [recv] and the [_recvall] loop *)

Module SocketFacts.
Import Socket.

Lemma len_app {A} (l k : list A) : len (l ++ k) = len l + len k.
Proof. unfold len. rewrite length_app. lia. Qed.

Lemma len_nonneg {A} (l : list A) : 0 <= len l.
Proof. unfold len. lia. Qed.

(** A [recv] hands over a prefix of what the peer sends, no longer than
    asked for. *)
Lemma recv_contents sock k p sock' :
  recv sock k = (p, sock') ->
  contents sock = p ++ contents sock' /\ (0 <= k -> len p <= k).
Proof.
  revert p sock'. induction sock as [| c rest IH]; intros p sock' Hr.
  - injection Hr as <- <-. split; [reflexivity |].
    intros Hk. exact Hk.
  - destruct c as [| x c].
    + simpl in Hr. apply IH in Hr. exact Hr.
    + cbn [recv] in Hr.
      destruct (Z.leb_spec (len (x :: c)) k) as [Hle | Hgt];
        injection Hr as <- <-.
      * split; [reflexivity | intros; assumption].
      * split.
        -- unfold contents. cbn [concat]. rewrite app_assoc.
           rewrite take_drop. reflexivity.
        -- intros Hk. unfold len in *. rewrite length_take. lia.
Qed.

(** An empty packet means that the peer has closed. *)
Lemma recv_empty sock k sock' :
  0 < k -> recv sock k = ([], sock') -> contents sock = [] /\ sock' = [].
Proof.
  intros Hk. revert sock'.
  induction sock as [| c rest IH]; intros sock' Hr.
  - injection Hr as <-. split; reflexivity.
  - destruct c as [| x c].
    + simpl in Hr. apply IH in Hr. exact Hr.
    + cbn [recv] in Hr.
      destruct (Z.leb_spec (len (x :: c)) k); [discriminate |].
      injection Hr as Ht _.
      destruct (Z.to_nat k) eqn:E; [lia | discriminate].
Qed.

End SocketFacts.

Module RecvallFacts.
Import Spec Socket Utils SocketFacts.

(** After [funelim]: drop the bookkeeping equations on the inspected
    values and keep the plain ones. *)
Ltac clear_inspect :=
  repeat match goal with
         | H : @eq (sigma _) _ _ |- _ => clear H
         | H : @eq (sig _) _ _ |- _ => clear H
         end.

Lemma recvall_loop_done sock n data :
  n <= len data -> _recvall_loop sock n data = (Ok data, sock).
Proof.
  intros Hn. funelim (_recvall_loop sock n data); clear_inspect;
    try reflexivity; apply Z.ltb_lt in Hlt; lia.
Qed.

(** When the stream ends before [n] bytes are gathered, the loop raises
    [EOFError]. *)
Lemma recvall_loop_short sock n data :
  len data + len (contents sock) < n ->
  _recvall_loop sock n data = (Raise eof, []).
Proof.
  funelim (_recvall_loop sock n data); clear_inspect; intros Hshort.
  - apply Z.ltb_ge in e. pose proof (len_nonneg (contents sock)). lia.
  - apply Z.ltb_lt in Hlt.
    apply recv_empty in e as [_ ->]; [reflexivity | lia].
  - apply Z.ltb_lt in Hlt.
    apply recv_contents in e as [Hc _].
    apply H. rewrite Hc, !len_app in *. lia.
Qed.

(** When the stream carries enough bytes, the loop returns exactly the
    missing ones, whatever the segmentation, and leaves the rest. *)
Lemma recvall_loop_enough sock n data :
  len data < n <= len data + len (contents sock) ->
  exists sock',
    _recvall_loop sock n data
    = (Ok (data ++ take (Z.to_nat (n - len data)) (contents sock)), sock')
    /\ contents sock' = drop (Z.to_nat (n - len data)) (contents sock).
Proof.
  funelim (_recvall_loop sock n data); clear_inspect; intros Hn.
  - apply Z.ltb_ge in e. lia.
  - apply Z.ltb_lt in Hlt.
    apply recv_empty in e as [Hc _]; [| lia].
    rewrite Hc in Hn. change (len []) with 0 in Hn. lia.
  - apply Z.ltb_lt in Hlt.
    apply recv_contents in e as [Hc Hp].
    specialize (Hp ltac:(lia)).
    set (p := b :: packet) in *.
    assert (Hlenp : Z.to_nat (n - len data)
                    = (length p + Z.to_nat (n - len (data ++ p)))%nat).
    { rewrite len_app. unfold len in *. lia. }
    destruct (Z.eq_dec (len (data ++ p)) n) as [Heq | Hne].
    + exists sock'. rewrite recvall_loop_done by lia.
      rewrite Hc, Hlenp, Heq, Z.sub_diag. simpl Z.to_nat.
      rewrite Nat.add_0_r, take_app_length, drop_app_length.
      split; reflexivity.
    + destruct H as (sock'' & Hrun & Hrest).
      { rewrite Hc, !len_app in *. lia. }
      exists sock''. rewrite Hrun, Hrest, Hc, Hlenp.
      rewrite take_app_add, drop_app_add, <- app_assoc.
      split; reflexivity.
Qed.

Lemma recvall_ok sock n :
  0 <= n <= len (contents sock) ->
  exists sock',
    _recvall sock n = (Ok (take (Z.to_nat n) (contents sock)), sock')
    /\ contents sock' = drop (Z.to_nat n) (contents sock).
Proof.
  intros Hn. unfold _recvall.
  destruct (Z.eq_dec n 0) as [-> | Hnz].
  - exists sock. rewrite recvall_loop_done by (unfold len; simpl; lia).
    split; reflexivity.
  - destruct (recvall_loop_enough sock n []) as (sock' & Hrun & Hrest).
    { change (len []) with 0. lia. }
    change (len []) with 0 in *. rewrite Z.sub_0_r in *.
    exists sock'. split; assumption.
Qed.

Lemma recvall_eof sock n :
  len (contents sock) < n -> _recvall sock n = (Raise eof, []).
Proof.
  intros Hn. apply recvall_loop_short. change (len []) with 0. lia.
Qed.

End RecvallFacts.

(** ** What a read returns depends on the stream's bytes only *)

Module ReadSpec.
Import Spec Socket Utils SocketFacts RecvallFacts.

Lemma recvall_read_exactly sock n :
  (_recvall sock n).1 = (read_exactly eof (contents sock) n).1
  /\ contents (_recvall sock n).2 = (read_exactly eof (contents sock) n).2.
Proof.
  unfold read_exactly.
  destruct (Z.leb_spec n 0) as [Hle | Hpos].
  - unfold _recvall. rewrite recvall_loop_done by (change (len []) with 0; lia).
    split; reflexivity.
  - destruct (Z.leb_spec n (len (contents sock))) as [Hfit | Hshort].
    + destruct (recvall_ok sock n) as (sock' & -> & Hrest); [lia |].
      split; [reflexivity | exact Hrest].
    + rewrite recvall_eof by lia. split; reflexivity.
Qed.

Lemma recvall_segmentation sock1 sock2 n :
  contents sock1 = contents sock2 ->
  (_recvall sock1 n).1 = (_recvall sock2 n).1
  /\ contents (_recvall sock1 n).2 = contents (_recvall sock2 n).2.
Proof.
  intros Hc.
  destruct (recvall_read_exactly sock1 n) as [-> ->].
  destruct (recvall_read_exactly sock2 n) as [-> ->].
  rewrite Hc. split; reflexivity.
Qed.

(** [readexactly] over the buffered and the coming bytes. *)
Lemma readexactly_wait_spec fd buf n :
  0 < n ->
  let c := buf ++ concat fd in
  (n <= len c ->
     exists r', StreamReader.readexactly_wait fd buf n
                = (Ok (take (Z.to_nat n) c), r')
                /\ StreamReader.contents r' = drop (Z.to_nat n) c)
  /\ (len c < n ->
        StreamReader.readexactly_wait fd buf n
        = (Raise (IncompleteReadError c n),
           {| StreamReader.buffer := []; StreamReader.feed := [] |})).
Proof.
  intros Hn. revert buf. induction fd as [| seg fd IH]; intros buf c.
  - subst c. simpl concat. rewrite app_nil_r. simpl.
    destruct (Z.ltb_spec (len buf) n) as [Hlt | Hge].
    + split; [lia | reflexivity].
    + split; [| lia]. intros _. eexists. split; [reflexivity |].
      unfold StreamReader.contents. simpl. apply app_nil_r.
  - subst c. simpl concat. simpl.
    destruct (Z.ltb_spec (len buf) n) as [Hlt | Hge].
    + rewrite app_assoc. apply IH.
    + split.
      * intros _. eexists. split.
        -- rewrite take_app_le by (unfold len in *; lia). reflexivity.
        -- unfold StreamReader.contents. simpl.
           rewrite drop_app_le by (unfold len in *; lia). reflexivity.
      * rewrite !len_app. pose proof (len_nonneg seg).
        pose proof (len_nonneg (concat fd)). lia.
Qed.

Lemma readexactly_read_exactly r n :
  0 <= n ->
  (StreamReader.readexactly n r).1
  = (read_exactly (IncompleteReadError (StreamReader.contents r) n)
       (StreamReader.contents r) n).1
  /\ StreamReader.contents (StreamReader.readexactly n r).2
     = (read_exactly (IncompleteReadError (StreamReader.contents r) n)
          (StreamReader.contents r) n).2.
Proof.
  intros Hn. unfold StreamReader.readexactly, read_exactly.
  destruct (Z.ltb_spec n 0); [lia |].
  destruct (Z.eqb_spec n 0) as [-> | Hnz].
  - simpl. split; reflexivity.
  - destruct (Z.leb_spec n 0); [lia |].
    destruct (readexactly_wait_spec (StreamReader.feed r)
                (StreamReader.buffer r) n ltac:(lia)) as [Hok Heof].
    fold (StreamReader.contents r) in Hok, Heof.
    destruct (Z.leb_spec n (len (StreamReader.contents r))).
    + destruct Hok as (r' & -> & Hrest); [lia |].
      split; [reflexivity | exact Hrest].
    + rewrite Heof by lia. split; reflexivity.
Qed.

End ReadSpec.

(** ** The threaded handler *)

Module UtilsFacts.
Import Spec Socket Utils SocketFacts RecvallFacts ReadSpec.

Section Handler.
Context `{PyLib} {U : Type}.
Variable _process_message : pyval -> M (World U) unit.
Variable _client_closed : M (World U) unit.

Abbreviation body := (_read_message_body _process_message).
Abbreviation loop := (_read_message_loop _process_message).
Abbreviation respects := (@respects_world U _).

Lemma same_refl (w : World U) : same_world w w.
Proof. repeat split. Qed.

Lemma respects_bind {A B} (m : M (World U) A) (k : A -> M (World U) B) :
  respects m -> (forall a, respects (k a)) ->
  respects (bind m k).
Proof.
  intros Hm Hk w1 w2 Hs. unfold bind.
  destruct (Hm w1 w2 Hs) as [Hr Hs'].
  destruct (m w1) as [[a1 | e1] v1], (m w2) as [[a2 | e2] v2];
    simpl in Hr, Hs'; try discriminate.
  - injection Hr as ->. apply Hk, Hs'.
  - injection Hr as ->. split; [reflexivity | exact Hs'].
Qed.

Lemma respects_lift {A} (r : res A) : respects (lift r).
Proof. intros w1 w2 Hs. split; [reflexivity | exact Hs]. Qed.

Lemma respects_recvall n : respects (recvall n).
Proof.
  intros w1 w2 Hs. unfold recvall.
  destruct Hs as (Hc & Ho & Hh & Hp & Hl & Ht & Hu).
  destruct (recvall_segmentation _ _ n Hc) as [Hr Hrest].
  destruct (_recvall (sock_in (client w1)) n) as [r1 s1].
  destruct (_recvall (sock_in (client w2)) n) as [r2 s2].
  simpl in *. split; [exact Hr |]. repeat split; assumption.
Qed.

Lemma respects_getpeername : respects getpeername.
Proof.
  intros w1 w2 Hs. unfold getpeername, gets. simpl.
  destruct Hs as (Hc & Ho & Hh & Hp & Hl & Ht & Hu).
  rewrite Hh, Hp. split; [reflexivity |]. repeat split; assumption.
Qed.

Lemma respects_emit l fmt args : respects (emit l fmt args).
Proof.
  intros w1 w2 (Hc & Ho & Hh & Hp & Hl & Ht & Hu).
  unfold emit, modify. simpl. rewrite Hl.
  split; [reflexivity |]. repeat split; assumption.
Qed.

Lemma respects_invoke ev hook : respects (invoke ev hook).
Proof.
  intros w1 w2 (Hc & Ho & Hh & Hp & Hl & Ht & Hu).
  assert (Heq : set_sock_in [] w1 = set_sock_in [] w2).
  { unfold set_sock_in. rewrite Ho, Hh, Hp, Hl, Ht, Hu. reflexivity. }
  unfold invoke. rewrite Heq, Ht, Hh, Hp.
  destruct (hook (set_sock_in [] w2)) as [r w'].
  simpl. split; [reflexivity |]. repeat split; assumption.
Qed.

Lemma respects_body : respects body.
Proof.
  unfold _read_message_body.
  repeat first
    [ apply respects_bind; [| intros ?]
    | apply respects_recvall | apply respects_lift
    | apply respects_getpeername | apply respects_emit
    | apply respects_invoke ].
Qed.

Lemma respects_except : respects (_read_message_except _client_closed).
Proof.
  unfold _read_message_except.
  repeat first
    [ apply respects_bind; [| intros ?]
    | apply respects_getpeername | apply respects_emit
    | apply respects_invoke ].
Qed.

(** The loop's outcome does not depend on the segmentation either. *)
Lemma loop_segmentation fuel w1 w2 :
  same_world w1 w2 ->
  match loop fuel w1, loop fuel w2 with
  | Some (e1, v1), Some (e2, v2) => e1 = e2 /\ same_world v1 v2
  | None, None => True
  | _, _ => False
  end.
Proof.
  revert w1 w2. induction fuel as [| fuel IH]; intros w1 w2 Hs.
  - exact I.
  - simpl. destruct (respects_body w1 w2 Hs) as [Hr Hs'].
    destruct (body w1) as [[[] | e1] v1], (body w2) as [[[] | e2] v2];
      simpl in Hr, Hs'; try discriminate.
    + apply IH, Hs'.
    + injection Hr as ->. split; [reflexivity | exact Hs'].
Qed.

(** A pass that does not raise takes at least the header off the
    stream. *)
Lemma body_consumes w w' :
  body w = (Ok tt, w') ->
  (length (contents (sock_in (client w'))) + 4
   <= length (contents (sock_in (client w))))%nat.
Proof.
  unfold _read_message_body, bind at 1. unfold recvall at 1.
  destruct (recvall_read_exactly (sock_in (client w)) 4) as [Hr Hrest].
  destruct (_recvall (sock_in (client w)) 4) as [r s]. simpl in Hr, Hrest.
  unfold read_exactly in Hr, Hrest. simpl in Hr, Hrest.
  destruct (Z.leb_spec 4 (len (contents (sock_in (client w)))))
    as [Hfit | Hshort]; simpl in Hr, Hrest; subst r; [| discriminate].
  set (w1 := set_sock_in s w).
  assert (H4 : (length (contents (sock_in (client w1))) + 4
                <= length (contents (sock_in (client w))))%nat).
  { unfold w1. simpl. rewrite Hrest, length_drop.
    unfold len in Hfit. lia. }
  clearbody w1. clear Hrest.
  unfold bind at 1. unfold lift at 1.
  destruct (Struct.unpack_I _) as [msglen |]; [| discriminate].
  unfold bind at 1. unfold recvall at 1.
  destruct (recvall_read_exactly (sock_in (client w1)) msglen)
    as [Hr Hrest].
  destruct (_recvall (sock_in (client w1)) msglen) as [r2 s2].
  simpl in Hr, Hrest.
  assert (H5 : (length (contents s2)
                <= length (contents (sock_in (client w1))))%nat).
  { rewrite Hrest. unfold read_exactly.
    destruct (_ <=? _); [simpl; lia |].
    destruct (_ <=? _); simpl; [rewrite length_drop |]; lia. }
  destruct r2 as [raw |]; [| discriminate].
  set (w2 := set_sock_in s2 w1).
  assert (H6 : (length (contents (sock_in (client w2))) + 4
                <= length (contents (sock_in (client w))))%nat).
  { unfold w2. simpl. lia. }
  clearbody w2. clear - H6.
  unfold bind at 1. unfold lift at 1.
  destruct (bytes_decode_utf8 raw) as [text |]; [| discriminate].
  unfold bind at 1. unfold lift at 1.
  destruct (json_loads text) as [msg |]; [| discriminate].
  unfold bind, getpeername, gets, emit, modify, invoke. simpl.
  destruct (_process_message msg _) as [[[] | e] w3]; [| discriminate].
  intros [= <-]. simpl. exact H6.
Qed.

(** With more passes than the stream has bytes, the loop reaches its
    exception. *)
Lemma loop_terminates fuel w :
  (length (contents (sock_in (client w))) < fuel)%nat ->
  exists e w', loop fuel w = Some (e, w').
Proof.
  revert w. induction fuel as [| fuel IH]; intros w Hfuel; [lia |].
  simpl. destruct (body w) as [[[] | e] w'] eqn:Hb.
  - apply body_consumes in Hb. apply IH. lia.
  - eauto.
Qed.

Lemma read_message_terminates w :
  exists r w', _read_message _process_message _client_closed w
               = Some (r, w').
Proof.
  unfold _read_message.
  destruct (loop_terminates
              (S (length (contents (sock_in (client w))))) w)
    as (e & w' & ->); [lia |].
  destruct (is_EOFError e).
  - destruct (_read_message_except _client_closed w') as [r w''] eqn:E.
    exists r, w''. reflexivity.
  - eauto.
Qed.

End Handler.

End UtilsFacts.

(** ** Streams that end inside a frame *)

Module Truncation.
Import Spec Socket Utils SocketFacts RecvallFacts ReadSpec.

Section Decode.
Context `{PyLib} {U : Type}.
Variable _process_message : pyval -> M (World U) unit.
Variable _client_closed : M (World U) unit.

Lemma body_truncated (w : World U) :
  truncated (contents (sock_in (client w))) ->
  _read_message_body _process_message w = (Raise eof, set_sock_in [] w).
Proof.
  intros [Hhdr | (L & Hunpack & Hshort)]; unfold _read_message_body.
  - unfold bind at 1. unfold recvall at 1.
    rewrite recvall_eof by exact Hhdr. reflexivity.
  - pose proof (len_nonneg (contents (sock_in (client w)))) as Hc.
    unfold bind at 1. unfold recvall at 1.
    assert (Hfour : 4 <= len (contents (sock_in (client w)))).
    { destruct (Z.le_gt_cases 4 (len (contents (sock_in (client w)))))
        as [Hle | Hlt]; [exact Hle |].
      exfalso. revert Hunpack. unfold Struct.unpack_I.
      assert (Hl : (length (take 4 (contents (sock_in (client w)))) < 4)%nat).
      { rewrite length_take. unfold len in Hlt. lia. }
      destruct (take 4 (contents (sock_in (client w))))
        as [| ? [| ? [| ? [| ? [| ? ?]]]]]; simpl in Hl;
        try discriminate; lia. }
    destruct (recvall_ok (sock_in (client w)) 4) as (s & -> & Hrest);
      [lia |].
    change (Z.to_nat 4) with 4%nat.
    unfold bind at 1. unfold lift at 1. rewrite Hunpack.
    unfold bind at 1. unfold recvall at 1. cbn [sock_in client set_sock_in].
    rewrite recvall_eof; [reflexivity |].
    rewrite Hrest. unfold len in *. rewrite length_drop. lia.
Qed.

Lemma read_message_truncated (w : World U) :
  truncated (contents (sock_in (client w))) ->
  _read_message _process_message _client_closed w
  = Some (_read_message_except _client_closed (set_sock_in [] w)).
Proof.
  intros Ht. unfold _read_message. cbn [_read_message_loop].
  rewrite body_truncated by exact Ht. reflexivity.
Qed.

(** The asyncio reader on the same streams. *)
Lemma async_read_truncated (st : Server.State) (reader : nat) :
  truncated (StreamReader.contents (Server.readers st !!! reader)) ->
  exists partial expected st',
    Server._read_message reader st
    = (Raise (IncompleteReadError partial expected), st')
    /\ len partial < expected
    /\ Server.log st' = Server.log st
    /\ Server._writers st' = Server._writers st
    /\ Server.writers st' = Server.writers st.
Proof.
  set (c := StreamReader.contents (Server.readers st !!! reader)).
  intros Ht. unfold Server._read_message.
  unfold bind at 1. unfold Server.on_reader at 1.
  destruct (readexactly_read_exactly (Server.readers st !!! reader) 4
              ltac:(lia)) as [Hr Hrest].
  fold c in Hr, Hrest.
  destruct (StreamReader.readexactly 4 (Server.readers st !!! reader))
    as [r rd]. simpl in Hr, Hrest.
  unfold read_exactly in Hr, Hrest.
  change (4 <=? 0) with false in Hr, Hrest. cbv iota in Hr, Hrest.
  destruct Ht as [Hhdr | (L & Hunpack & Hshort)].
  - destruct (Z.leb_spec 4 (len c)); [lia |]. simpl in Hr. subst r.
    eexists c, 4, _. repeat split; [exact Hhdr].
  - pose proof (len_nonneg c) as Hc.
    assert (Hfour : 4 <= len c).
    { destruct (Z.le_gt_cases 4 (len c)) as [Hle | Hlt]; [exact Hle |].
      exfalso. revert Hunpack. unfold Struct.unpack_I.
      assert (Hl : (length (take 4 c) < 4)%nat).
      { rewrite length_take. unfold len in Hlt. lia. }
      destruct (take 4 c) as [| ? [| ? [| ? [| ? [| ? ?]]]]];
        simpl in Hl; try discriminate; lia. }
    destruct (Z.leb_spec 4 (len c)); [| lia]. simpl in Hr, Hrest.
    subst r. change (Z.to_nat 4) with 4%nat in *.
    unfold bind at 1. unfold lift at 1. rewrite Hunpack.
    unfold bind at 1. unfold Server.on_reader at 1.
    cbn [Server.readers]. rewrite lookup_total_insert_eq.
    assert (HL : 0 < L).
    { unfold len in *. lia. }
    destruct (readexactly_read_exactly rd L ltac:(lia)) as [Hr2 _].
    destruct (StreamReader.readexactly L rd) as [r2 rd2].
    simpl in Hr2. unfold read_exactly in Hr2. rewrite Hrest in Hr2.
    destruct (Z.leb_spec L 0); [lia |].
    destruct (Z.leb_spec L (len (drop 4 c))) as [Hfit | _].
    { unfold len in *. rewrite length_drop in Hfit. lia. }
    simpl in Hr2. subst r2.
    eexists (drop 4 c), L, _. repeat split.
    unfold len in *. rewrite length_drop. lia.
Qed.

End Decode.

(** C1.  On a stream that ends before the four header bytes are complete,
    or before the declared payload length is reached, decoding fails with
    an [EOFError]: in the threaded server the [_recvall] loop raises
    [EOFError], no message is handed on, and [_read_message] ends by
    calling [_client_closed]; in the asyncio server [_read_message]
    raises [IncompleteReadError], a subclass of [EOFError], without
    logging a message.  On every finite stream the threaded handler comes
    to an end. *)
Theorem truncated_stream_raises_EOFError `{PyLib} {U : Type}
    (_process_message : pyval -> M (World U) unit)
    (_client_closed : M (World U) unit)
    (w : World U) (st : Server.State) (reader : nat) :
  (truncated (contents (sock_in (client w))) ->
     _read_message_body _process_message w
     = (Raise (EOFError "peer socket closed"), set_sock_in [] w)
     /\ _read_message _process_message _client_closed w
        = Some (_read_message_except _client_closed (set_sock_in [] w))
     /\ trace (_read_message_except _client_closed (set_sock_in [] w)).2
        = trace w ++ [Closed])
  /\ (truncated (StreamReader.contents (Server.readers st !!! reader)) ->
        exists partial expected st',
          Server._read_message reader st
          = (Raise (IncompleteReadError partial expected), st')
          /\ is_EOFError (IncompleteReadError partial expected) = true
          /\ len partial < expected
          /\ Server.log st' = Server.log st)
  /\ (exists r w', _read_message _process_message _client_closed w
                   = Some (r, w')).
Proof.
  split; [| split].
  - intros Ht. split; [apply body_truncated, Ht |].
    split; [apply read_message_truncated, Ht |].
    unfold _read_message_except, bind, getpeername, gets, emit, modify,
      invoke. simpl. destruct (_client_closed _). reflexivity.
  - intros Ht.
    destruct (async_read_truncated st reader Ht)
      as (partial & expected & st' & Hrun & Hlt & Hlog & _).
    exists partial, expected, st'. repeat split; assumption.
  - apply UtilsFacts.read_message_terminates.
Qed.

End Truncation.

(** ** The asyncio codec and the segmentation of its input *)

Module ServerFacts.
Import Spec Server SocketFacts ReadSpec.

Lemma async_respects_bind {A B} (m : M State A) (k : A -> M State B) :
  respects_state m -> (forall a, respects_state (k a)) ->
  respects_state (bind m k).
Proof.
  intros Hm Hk st1 st2 Hs. unfold bind.
  destruct (Hm st1 st2 Hs) as [Hr Hs'].
  destruct (m st1) as [[a1 | e1] v1], (m st2) as [[a2 | e2] v2];
    simpl in Hr, Hs'; try discriminate.
  - injection Hr as ->. apply Hk, Hs'.
  - injection Hr as ->. split; [reflexivity | exact Hs'].
Qed.

Lemma async_respects_lift {A} (r : res A) : respects_state (lift r).
Proof. intros st1 st2 Hs. split; [reflexivity | exact Hs]. Qed.

Lemma async_respects_ret {A} (a : A) : respects_state (ret a).
Proof. intros st1 st2 Hs. split; [reflexivity | exact Hs]. Qed.

Lemma async_respects_emit l fmt args : respects_state (emit l fmt args).
Proof.
  intros st1 st2 (Hw & Hws & Hl & Hr). unfold emit, modify. simpl.
  rewrite Hl. split; [reflexivity |]. repeat split; assumption.
Qed.

Lemma readexactly_segmentation r1 r2 n :
  StreamReader.contents r1 = StreamReader.contents r2 ->
  (StreamReader.readexactly n r1).1 = (StreamReader.readexactly n r2).1
  /\ StreamReader.contents (StreamReader.readexactly n r1).2
     = StreamReader.contents (StreamReader.readexactly n r2).2.
Proof.
  intros Hc. destruct (Z.lt_ge_cases n 0) as [Hneg | Hn].
  - unfold StreamReader.readexactly.
    destruct (Z.ltb_spec n 0); [| lia]. split; [reflexivity | exact Hc].
  - destruct (readexactly_read_exactly r1 n ltac:(lia)) as [-> ->].
    destruct (readexactly_read_exactly r2 n ltac:(lia)) as [-> ->].
    rewrite Hc. split; reflexivity.
Qed.

Lemma async_respects_readexactly reader n :
  respects_state (on_reader reader (StreamReader.readexactly n)).
Proof.
  intros st1 st2 (Hw & Hws & Hl & Hr). unfold on_reader.
  destruct (readexactly_segmentation _ _ n (Hr reader)) as [Hres Hrest].
  destruct (StreamReader.readexactly n (readers st1 !!! reader)) as [a1 rd1].
  destruct (StreamReader.readexactly n (readers st2 !!! reader)) as [a2 rd2].
  cbn [fst snd] in *. split; [exact Hres |].
  repeat split; try assumption. cbn [readers]. intros r.
  destruct (decide (reader = r)) as [<- | Hne].
  - rewrite !lookup_total_insert_eq. exact Hrest.
  - rewrite !lookup_total_insert_ne by exact Hne. apply Hr.
Qed.

Lemma async_respects_read_message `{PyLib} reader :
  respects_state (_read_message reader).
Proof.
  unfold _read_message.
  repeat first
    [ apply async_respects_bind; [| intros ?]
    | apply async_respects_readexactly | apply async_respects_lift
    | apply async_respects_emit | apply async_respects_ret ].
Qed.

Lemma feeding_same reader segs1 segs2 st :
  concat segs1 = concat segs2 ->
  same_state (feeding reader segs1 st) (feeding reader segs2 st).
Proof.
  intros Hc. repeat split. intros r. unfold feeding. cbn [readers].
  destruct (decide (reader = r)) as [<- | Hne].
  - rewrite !lookup_total_insert_eq. unfold StreamReader.contents.
    cbn [StreamReader.buffer StreamReader.feed app]. exact Hc.
  - rewrite !lookup_total_insert_ne by exact Hne. reflexivity.
Qed.

End ServerFacts.

(** ** Frames: writing one and reading it back *)

Module Frames.
Import Spec Socket Utils SocketFacts RecvallFacts ReadSpec StructFacts.

Lemma to_nat_len {A} (l : list A) : Z.to_nat (len l) = length l.
Proof. unfold len. apply Nat2Z.id. Qed.

(** Reading a header and the payload it announces off a socket. *)
Lemma recvall_frame sock header payload rest :
  contents sock = header ++ payload ++ rest ->
  length header = 4%nat ->
  exists s1 s2,
    _recvall sock 4 = (Ok header, s1)
    /\ _recvall s1 (len payload) = (Ok payload, s2)
    /\ contents s2 = rest.
Proof.
  intros Hc Hh.
  destruct (recvall_ok sock 4) as (s1 & Hr1 & Hrest1).
  { rewrite Hc, len_app. unfold len. rewrite Hh.
    pose proof (len_nonneg (payload ++ rest)). unfold len in *. lia. }
  change (Z.to_nat 4) with 4%nat in *. rewrite Hc in Hr1, Hrest1.
  rewrite <- Hh in Hr1 at 1. rewrite <- Hh in Hrest1 at 1.
  rewrite take_app_length in Hr1. rewrite drop_app_length in Hrest1.
  destruct (recvall_ok s1 (len payload)) as (s2 & Hr2 & Hrest2).
  { rewrite Hrest1, len_app. pose proof (len_nonneg payload).
    pose proof (len_nonneg rest). lia. }
  rewrite to_nat_len, Hrest1 in Hr2, Hrest2.
  rewrite take_app_length in Hr2. rewrite drop_app_length in Hrest2.
  exists s1, s2. repeat split; assumption.
Qed.

(** The same through [readexactly]. *)
Lemma readexactly_frame rd header payload rest :
  StreamReader.contents rd = header ++ payload ++ rest ->
  length header = 4%nat ->
  exists rd1 rd2,
    StreamReader.readexactly 4 rd = (Ok header, rd1)
    /\ StreamReader.readexactly (len payload) rd1 = (Ok payload, rd2)
    /\ StreamReader.contents rd2 = rest.
Proof.
  intros Hc Hh.
  destruct (readexactly_read_exactly rd 4 ltac:(lia)) as [Hr1 Hrest1].
  destruct (StreamReader.readexactly 4 rd) as [r1 rd1].
  cbn [fst snd] in Hr1, Hrest1. unfold read_exactly in Hr1, Hrest1.
  change (4 <=? 0) with false in Hr1, Hrest1. cbv iota in Hr1, Hrest1.
  destruct (Z.leb_spec 4 (len (StreamReader.contents rd))) as [_ | Hlt].
  2:{ rewrite Hc, len_app in Hlt. unfold len in Hlt. lia. }
  cbn [fst snd] in Hr1, Hrest1. change (Z.to_nat 4) with 4%nat in *.
  rewrite Hc in Hr1, Hrest1.
  rewrite <- Hh in Hr1 at 1. rewrite <- Hh in Hrest1 at 1.
  rewrite take_app_length in Hr1. rewrite drop_app_length in Hrest1.
  subst r1.
  destruct (readexactly_read_exactly rd1 (len payload)
              (len_nonneg payload)) as [Hr2 Hrest2].
  destruct (StreamReader.readexactly (len payload) rd1) as [r2 rd2] eqn:E2.
  cbn [fst snd] in Hr2, Hrest2. unfold read_exactly in Hr2, Hrest2.
  rewrite Hrest1 in Hr2, Hrest2.
  exists rd1, rd2. split; [reflexivity |]. rewrite E2.
  destruct (Z.leb_spec (len payload) 0) as [Hz | Hpos].
  - assert (payload = []) as ->.
    { destruct payload; [reflexivity |]. unfold len in Hz. simpl in Hz. lia. }
    cbn [fst snd] in *. subst r2. split; [reflexivity | exact Hrest2].
  - destruct (Z.leb_spec (len payload) (len (payload ++ rest))) as [_ | Hlt].
    2:{ rewrite len_app in Hlt. pose proof (len_nonneg rest). lia. }
    cbn [fst snd] in *. rewrite to_nat_len in Hr2, Hrest2.
    rewrite take_app_length in Hr2. rewrite drop_app_length in Hrest2.
    subst r2. split; [reflexivity | exact Hrest2].
Qed.

Section Threaded.
Context `{PyLib} {U : Type}.
Variable _process_message : pyval -> M (World U) unit.

Lemma body_frame (w : World U) header payload rest :
  contents (sock_in (client w)) = header ++ payload ++ rest ->
  length header = 4%nat ->
  Struct.unpack_I header = Ok (len payload) ->
  exists s, contents s = rest
            /\ _read_message_body _process_message w
               = threaded_after_payload _process_message payload
                   (set_sock_in s w).
Proof.
  intros Hc Hh Hu.
  destruct (recvall_frame _ _ _ _ Hc Hh) as (s1 & s2 & Hr1 & Hr2 & Hrest).
  exists s2. split; [exact Hrest |].
  unfold _read_message_body.
  unfold bind at 1. unfold recvall at 1. rewrite Hr1.
  unfold bind at 1. unfold lift at 1. rewrite Hu.
  unfold bind at 1. unfold recvall at 1.
  cbn [sock_in client set_sock_in]. rewrite Hr2. reflexivity.
Qed.

(** [_write_message] succeeds exactly when the message serializes and
    its payload fits the header; it then sends header and payload. *)
Lemma write_message_inv (message : pyval) (w w' : World U) :
  _write_message message w = (Ok tt, w') ->
  exists text payload header,
    json_dumps message = Ok text
    /\ str_encode_utf8 text = Ok payload
    /\ Struct.pack_I (len payload) = Ok header
    /\ sock_out (client w') = sock_out (client w) ++ header ++ payload
    /\ sock_in (client w') = sock_in (client w)
    /\ trace w' = trace w /\ user w' = user w
    /\ log w' = log w ++ [LogRec INFO "Writing {} to {}"
                            [ArgVal message;
                             ArgPeer (peer_host (client w))
                               (peer_port (client w))]].
Proof.
  unfold _write_message, bind, getpeername, gets, emit, modify, lift,
    sendall. simpl.
  destruct (json_dumps message) as [text |] eqn:Hd; [| discriminate].
  destruct (str_encode_utf8 text) as [payload |] eqn:He; [| discriminate].
  destruct (Struct.pack_I (len payload)) as [header |] eqn:Hp;
    [| discriminate].
  intros [= <-]. exists text, payload, header. simpl.
  repeat split; first [assumption | reflexivity].
Qed.

Lemma write_message_ok (message : pyval) (w : World U) text payload :
  json_dumps message = Ok text ->
  str_encode_utf8 text = Ok payload ->
  len payload < 2 ^ 32 ->
  exists w', _write_message message w = (Ok tt, w').
Proof.
  intros Hd He Hfit.
  unfold _write_message, bind, getpeername, gets, emit, modify, lift,
    sendall. simpl. rewrite Hd, He.
  rewrite pack_I_ok by (pose proof (len_nonneg payload); lia).
  eexists. reflexivity.
Qed.

End Threaded.

End Frames.

(** ** The log projection [__message_log] *)

Module LogFacts.
Import Spec Server.

Lemma dict_get_set k k' v d :
  dict_get k (dict_set k' v d)
  = if String.eqb k k' then Some v else dict_get k d.
Proof.
  induction d as [| [k0 v0] d IH]; simpl.
  - destruct (String.eqb_spec k k'); reflexivity.
  - destruct (String.eqb_spec k' k0) as [-> | Hne]; simpl.
    + destruct (String.eqb_spec k k0); reflexivity.
    + destruct (String.eqb_spec k k0) as [-> | Hne'].
      * destruct (String.eqb_spec k0 k'); [congruence | reflexivity].
      * exact IH.
Qed.

Lemma dict_get_key k d : k ∈ dict_keys d -> exists v, dict_get k d = Some v.
Proof.
  induction d as [| [k0 v0] d IH]; simpl.
  - intros Hin. apply elem_of_nil in Hin. contradiction.
  - intros [-> | Hin]%elem_of_cons.
    + rewrite String.eqb_refl. eauto.
    + destruct (String.eqb k k0); eauto.
Qed.

Lemma dict_get_None k d : k ∉ dict_keys d -> dict_get k d = None.
Proof.
  induction d as [| [k0 v0] d IH]; simpl; [reflexivity |].
  intros Hn. destruct (String.eqb_spec k k0) as [-> | Hne].
  - exfalso. apply Hn. left.
  - apply IH. intros Hin. apply Hn. right. exact Hin.
Qed.

Lemma comprehension_fold message keys acc :
  (forall k, k ∈ keys -> k ∈ dict_keys message) ->
  exists log_message,
    foldl (step message) (Ok acc) keys = Ok log_message
    /\ forall k,
         dict_get k log_message
         = if String.eqb k "data" then dict_get k acc
           else if bool_decide (k ∈ keys) then dict_get k message
           else dict_get k acc.
Proof.
  revert acc. induction keys as [| key keys IH]; intros acc Hkeys.
  - exists acc. split; [reflexivity |]. intros k.
    destruct (String.eqb k "data"); reflexivity.
  - cbn [foldl]. unfold step at 2. cbn [res_bind].
    destruct (String.eqb_spec key "data") as [-> | Hkey].
    + destruct (IH acc) as (lm & Hrun & Hget).
      { intros k Hk. apply Hkeys. right. exact Hk. }
      exists lm. split; [exact Hrun |]. intros k. rewrite Hget.
      destruct (String.eqb_spec k "data") as [-> | Hk]; [reflexivity |].
      destruct (bool_decide_reflect (k ∈ keys)) as [Hin | Hnin].
      * rewrite bool_decide_eq_true_2 by (right; exact Hin). reflexivity.
      * rewrite bool_decide_eq_false_2; [reflexivity |].
        intros [Heq | Hin]%elem_of_cons; [congruence | tauto].
    + destruct (dict_get_key key message) as [v Hv].
      { apply Hkeys. left. }
      rewrite Hv.
      destruct (IH (dict_set key v acc)) as (lm & Hrun & Hget).
      { intros k Hk. apply Hkeys. right. exact Hk. }
      exists lm. split; [exact Hrun |]. intros k. rewrite Hget.
      rewrite dict_get_set.
      destruct (String.eqb_spec k "data") as [-> | Hk].
      * destruct (String.eqb_spec "data" key); [congruence | reflexivity].
      * destruct (bool_decide_reflect (k ∈ keys)) as [Hin | Hnin].
        -- rewrite bool_decide_eq_true_2 by (right; exact Hin). reflexivity.
        -- destruct (String.eqb_spec k key) as [-> | Hne].
           ++ rewrite bool_decide_eq_true_2 by left.
              symmetry. exact Hv.
           ++ rewrite bool_decide_eq_false_2; [reflexivity |].
              intros [Heq | Hin]%elem_of_cons; [congruence | tauto].
Qed.

(** Over a dict the comprehension never fails: it copies every entry but
    ['data']. *)
Lemma dict_comprehension_spec message :
  exists log_message,
    dict_comprehension message = Ok log_message
    /\ forall k,
         dict_get k log_message
         = if String.eqb k "data" then None else dict_get k message.
Proof.
  destruct (comprehension_fold message (dict_keys message) [])
    as (lm & Hrun & Hget); [tauto |].
  exists lm. split; [exact Hrun |]. intros k. rewrite Hget.
  destruct (String.eqb k "data"); [reflexivity |].
  destruct (bool_decide_reflect (k ∈ dict_keys message)) as [Hin | Hnin];
    [reflexivity |].
  simpl. symmetry. apply dict_get_None, Hnin.
Qed.

Lemma call_recognized v :
  recognized v ->
  exists kind, MessageType_.call v = Ok kind
               /\ MessageType_.eq_int v (MessageType_.value kind) = true.
Proof.
  intros [kind Hk]. unfold MessageType_.call.
  destruct (List.find _ MessageType_.members) as [kind' |] eqn:Hf.
  - apply List.find_some in Hf as [_ Hf]. eauto.
  - exfalso. pose proof (List.find_none _ _ Hf kind) as Hnone.
    cbv beta in Hnone. rewrite Hk in Hnone.
    assert (Hin : In kind MessageType_.members)
      by (destruct kind; simpl; tauto).
    specialize (Hnone Hin). discriminate.
Qed.

Lemma call_unrecognized v :
  ~ recognized v -> MessageType_.call v = Raise ValueError.
Proof.
  intros Hn. unfold MessageType_.call.
  destruct (List.find _ MessageType_.members) as [kind |] eqn:Hf;
    [| reflexivity].
  apply List.find_some in Hf as [_ Hf]. exfalso. apply Hn.
  exists kind. exact Hf.
Qed.

Lemma message_log_dict d ty :
  dict_get "type" d = Some ty -> recognized ty ->
  exists kind log_message,
    MessageType_.call ty = Ok kind
    /\ __message_log (PDict d) = Ok log_message
    /\ forall k,
         dict_get k log_message
         = if String.eqb k "type" then Some (PStr (MessageType_.name kind))
           else if String.eqb k "data" then None
           else dict_get k d.
Proof.
  intros Hty Hrec.
  destruct (call_recognized ty Hrec) as (kind & Hcall & _).
  destruct (dict_comprehension_spec d) as (lm & Hrun & Hget).
  exists kind, (dict_set "type" (PStr (MessageType_.name kind)) lm).
  split; [exact Hcall |]. split.
  - unfold __message_log. rewrite Hrun. cbn [res_bind].
    rewrite Hty, Hcall. reflexivity.
  - intros k. rewrite dict_get_set, Hget. reflexivity.
Qed.

Lemma message_log_no_type d :
  dict_get "type" d = None -> __message_log (PDict d) = Raise (KeyError "type").
Proof.
  intros Hty. destruct (dict_comprehension_spec d) as (lm & Hrun & _).
  unfold __message_log. rewrite Hrun. cbn [res_bind]. rewrite Hty.
  reflexivity.
Qed.

Lemma message_log_bad_type d ty :
  dict_get "type" d = Some ty -> ~ recognized ty ->
  __message_log (PDict d) = Raise ValueError.
Proof.
  intros Hty Hn. destruct (dict_comprehension_spec d) as (lm & Hrun & _).
  unfold __message_log. rewrite Hrun. cbn [res_bind].
  rewrite Hty, (call_unrecognized ty Hn). reflexivity.
Qed.

(** Nothing but a dict gets through [__message_log]. *)
Lemma message_log_not_dict message :
  (forall d, message <> PDict d) -> exists e, __message_log message = Raise e.
Proof.
  intros Hnd. destruct message; simpl; eauto.
  - destruct (seq_comprehension _ _); simpl; eauto.
  - destruct (seq_comprehension _ _); simpl; eauto.
  - exfalso. eapply Hnd. reflexivity.
Qed.

(** Indexing a sequence fails with [IndexError] or [TypeError]. *)
Lemma list_getitem_error {A} (l : list A) key e :
  list_getitem l key = Raise e -> e = TypeError \/ e = IndexError.
Proof.
  unfold list_getitem.
  destruct key as [| b | i | | | |]; try (intros [= <-]; left; reflexivity).
  - destruct (_ && _); [| intros [= <-]; right; reflexivity].
    destruct (l !! _); [discriminate | intros [= <-]; right; reflexivity].
  - destruct (_ && _); [| intros [= <-]; right; reflexivity].
    destruct (l !! _); [discriminate | intros [= <-]; right; reflexivity].
Qed.

Lemma seq_comprehension_error {A} (l : list A) keys e :
  seq_comprehension l keys = Raise e -> e = TypeError \/ e = IndexError.
Proof.
  induction keys as [| key keys IH]; cbn [seq_comprehension];
    [discriminate |].
  destruct (is_data key); [exact IH |].
  destruct (list_getitem l key) as [x | e'] eqn:Hget; cbn [res_bind].
  - exact IH.
  - intros [= <-]. eapply list_getitem_error, Hget.
Qed.

(** What [__message_log] raises on each value that is not a mapping with
    a recognized ['type']. *)
Lemma message_log_error message e :
  __message_log message = Raise e ->
  match message with
  | PDict d =>
      match dict_get "type" d with
      | None => e = KeyError "type"
      | Some ty => ~ recognized ty /\ e = ValueError
      end
  | _ => e = TypeError \/ e = IndexError
  end.
Proof.
  destruct message as [| b | z | s0 | b | l | d]; cbn [__message_log];
    try (intros [= <-]; left; reflexivity).
  - destruct (seq_comprehension _ _) as [u | e'] eqn:Hs; cbn [res_bind].
    + intros [= <-]. left. reflexivity.
    + intros [= <-]. eapply seq_comprehension_error, Hs.
  - destruct (seq_comprehension _ _) as [u | e'] eqn:Hs; cbn [res_bind].
    + intros [= <-]. left. reflexivity.
    + intros [= <-]. eapply seq_comprehension_error, Hs.
  - destruct (dict_get "type" d) as [ty |] eqn:Hty.
    + intros Hlog.
      assert (Hn : ~ recognized ty).
      { intros Hrec.
        destruct (message_log_dict d ty Hty Hrec) as (kind & lm & _ & Hok & _).
        cbn [__message_log] in Hok. rewrite Hty in Hok. congruence. }
      split; [exact Hn |].
      pose proof (message_log_bad_type d ty Hty Hn) as Hbad.
      cbn [__message_log] in Hbad. rewrite Hty in Hbad. congruence.
    + intros Hlog. pose proof (message_log_no_type d Hty) as Hno.
      cbn [__message_log] in Hno. rewrite Hty in Hno. congruence.
Qed.

End LogFacts.

(** ** The asyncio codec on one frame *)

Module AsyncFrames.
Import Spec Server SocketFacts ReadSpec StructFacts Frames.

Lemma call_drain w :
  StreamWriter.call "drain" w
  = if StreamWriter.is_closing w then (Raise ConnectionResetError, w)
    else (Ok tt, w).
Proof. reflexivity. Qed.

Lemma write_is_closing data w :
  StreamWriter.is_closing (StreamWriter.write data w)
  = StreamWriter.is_closing w.
Proof.
  unfold StreamWriter.write.
  destruct (StreamWriter.is_closing w) eqn:E; [exact E |].
  exact E.
Qed.

Lemma write_open data w :
  StreamWriter.is_closing w = false ->
  StreamWriter.written (StreamWriter.write data w)
  = StreamWriter.written w ++ data.
Proof. unfold StreamWriter.write. intros ->. reflexivity. Qed.

Lemma write_closing data w :
  StreamWriter.is_closing w = true -> StreamWriter.write data w = w.
Proof. unfold StreamWriter.write. intros ->. reflexivity. Qed.

Lemma call_close w :
  StreamWriter.call "close" w
  = (Ok tt, {| StreamWriter.written := StreamWriter.written w;
               StreamWriter.closing := true;
               StreamWriter.closed := StreamWriter.closed w |}).
Proof. reflexivity. Qed.

(** [StreamWriter] has [wait_closed], and no [wait_close]. *)
Lemma call_wait_close w :
  StreamWriter.call "wait_close" w = (Raise (AttributeError "wait_close"), w).
Proof. reflexivity. Qed.

Section Codec.
Context `{PyLib}.

Lemma async_write_message_inv message writer st st' :
  _write_message message writer st = (Ok tt, st') ->
  exists log_message text raw_msg header,
    __message_log message = Ok log_message
    /\ json_dumps message = Ok text
    /\ str_encode_utf8 text = Ok raw_msg
    /\ len raw_msg <> 0
    /\ Struct.pack_I (len (zstd_compress raw_msg)) = Ok header
    /\ StreamWriter.written (writers st' !!! writer)
       = StreamWriter.written (writers st !!! writer)
         ++ header ++ zstd_compress raw_msg
    /\ _writers st' = _writers st
    /\ readers st' = readers st
    /\ log st' = log st ++ write_records log_message raw_msg.
Proof.
  unfold _write_message, bind, lift, emit, modify, raise, ret, on_writer.
  destruct (__message_log message) as [lm |] eqn:Hl; [| discriminate].
  cbn [_writers readers writers log].
  destruct (json_dumps message) as [text |] eqn:Hd; [| discriminate].
  destruct (str_encode_utf8 text) as [raw |] eqn:He; [| discriminate].
  destruct (Z.eqb_spec (len raw) 0) as [Hz | Hnz]; [discriminate |].
  cbn [_writers readers writers log].
  destruct (Struct.pack_I (len (zstd_compress raw))) as [header |] eqn:Hp;
    [| discriminate].
  cbn [_writers readers writers log].
  rewrite lookup_total_insert_eq, call_drain, write_is_closing.
  destruct (StreamWriter.is_closing (writers st !!! writer)) eqn:Hopen;
    [discriminate |].
  intros [= <-]. exists lm, text, raw, header.
  cbn [_writers readers writers log].
  rewrite lookup_total_insert_eq, (write_open _ _ Hopen).
  unfold write_records. rewrite <- app_assoc.
  repeat split; first [assumption | reflexivity].
Qed.

Lemma async_write_message_ok message writer st log_message text raw_msg :
  __message_log message = Ok log_message ->
  json_dumps message = Ok text ->
  str_encode_utf8 text = Ok raw_msg ->
  len raw_msg <> 0 ->
  len (zstd_compress raw_msg) < 2 ^ 32 ->
  StreamWriter.is_closing (writers st !!! writer) = false ->
  exists st', _write_message message writer st = (Ok tt, st').
Proof.
  intros Hl Hd He Hnz Hfit Hopen.
  unfold _write_message, bind, lift, emit, modify, raise, ret, on_writer.
  rewrite Hl. cbn [_writers readers writers log]. rewrite Hd, He.
  destruct (Z.eqb_spec (len raw_msg) 0) as [Hz | _]; [contradiction |].
  cbn [_writers readers writers log].
  rewrite pack_I_ok
    by (pose proof (len_nonneg (zstd_compress raw_msg)); lia).
  cbn [_writers readers writers log].
  rewrite lookup_total_insert_eq, call_drain, write_is_closing, Hopen.
  eexists. reflexivity.
Qed.

(** On a connection that is closing or lost, a message that serializes
    is dropped and [drain] raises. *)
Lemma async_write_message_closing message writer st log_message text
    raw_msg :
  __message_log message = Ok log_message ->
  json_dumps message = Ok text ->
  str_encode_utf8 text = Ok raw_msg ->
  len raw_msg <> 0 ->
  len (zstd_compress raw_msg) < 2 ^ 32 ->
  StreamWriter.is_closing (writers st !!! writer) = true ->
  exists st',
    _write_message message writer st = (Raise ConnectionResetError, st')
    /\ writers st' !!! writer = writers st !!! writer
    /\ _writers st' = _writers st
    /\ readers st' = readers st
    /\ log st' = log st ++ write_records log_message raw_msg.
Proof.
  intros Hl Hd He Hnz Hfit Hdown.
  unfold _write_message, bind, lift, emit, modify, raise, ret, on_writer.
  rewrite Hl. cbn [_writers readers writers log]. rewrite Hd, He.
  destruct (Z.eqb_spec (len raw_msg) 0) as [Hz | _]; [contradiction |].
  cbn [_writers readers writers log].
  rewrite pack_I_ok
    by (pose proof (len_nonneg (zstd_compress raw_msg)); lia).
  cbn [_writers readers writers log].
  rewrite lookup_total_insert_eq, call_drain, write_is_closing, Hdown.
  eexists. split; [reflexivity |].
  cbn [_writers readers writers log].
  rewrite !lookup_total_insert_eq, (write_closing _ _ Hdown).
  unfold write_records. rewrite <- app_assoc.
  repeat split; reflexivity.
Qed.

(** A message that [__message_log] refuses is refused before anything
    is logged or written. *)
Lemma async_write_message_log_raises message writer st e :
  __message_log message = Raise e ->
  _write_message message writer st = (Raise e, st).
Proof.
  intros Hl. unfold _write_message, bind, lift. rewrite Hl. reflexivity.
Qed.

Lemma async_read_message_frame st reader header payload rest :
  StreamReader.contents (readers st !!! reader)
  = header ++ payload ++ rest ->
  length header = 4%nat ->
  Struct.unpack_I header = Ok (len payload) ->
  exists st1,
    _read_message reader st = async_after_payload payload st1
    /\ StreamReader.contents (readers st1 !!! reader) = rest
    /\ _writers st1 = _writers st
    /\ writers st1 = writers st
    /\ log st1 = log st.
Proof.
  intros Hc Hh Hu.
  destruct (readexactly_frame _ _ _ _ Hc Hh)
    as (rd1 & rd2 & Hr1 & Hr2 & Hrest).
  eexists. split.
  - unfold _read_message.
    unfold bind at 1. unfold on_reader at 1. rewrite Hr1.
    unfold bind at 1. unfold lift at 1. rewrite Hu.
    unfold bind at 1. unfold on_reader at 1.
    cbn [_writers readers writers log].
    rewrite lookup_total_insert_eq, Hr2. reflexivity.
  - cbn [_writers readers writers log].
    rewrite lookup_total_insert_eq.
    repeat split; first [assumption | reflexivity].
Qed.

End Codec.

End AsyncFrames.

(** ** Partial reads *)

Module PartialReads.
Import Spec Socket Utils SocketFacts RecvallFacts ReadSpec Frames.

(** C3.  However the incoming bytes are cut into segments, down to one
    byte per read, the payload-read loop gathers exactly [L] bytes, the
    first [L] bytes of the stream, and leaves the rest; and decoding gives
    the same outcome as when the bytes arrive in one piece.  This holds
    for the [_recvall] loop and [readexactly], and for the decoders
    themselves: on a stream that holds a header announcing [len payload],
    then [payload], then [rest], the threaded handler and the asyncio
    [_read_message] go on with exactly [payload] in hand and exactly
    [rest] left on the stream. *)
Theorem partial_reads_accumulate_exactly `{PyLib} {U : Type}
    (_process_message : pyval -> M (World U) unit)
    (sock : Socket.t) (L : Z) (w : World U)
    (st : Server.State) (reader : nat) :
  0 <= L <= len (contents sock) ->
  (exists sock',
     _recvall sock L = (Ok (take (Z.to_nat L) (contents sock)), sock')
     /\ contents sock' = drop (Z.to_nat L) (contents sock))
  /\ (exists rd',
        StreamReader.readexactly L
          {| StreamReader.buffer := []; StreamReader.feed := sock |}
        = (Ok (take (Z.to_nat L) (contents sock)), rd')
        /\ StreamReader.contents rd' = drop (Z.to_nat L) (contents sock))
  /\ (let pieces := _read_message_body _process_message (set_sock_in sock w) in
      let whole :=
        _read_message_body _process_message
          (set_sock_in [contents sock] w) in
      pieces.1 = whole.1 /\ same_world pieces.2 whole.2)
  /\ (let pieces :=
        Server._read_message reader (feeding reader sock st) in
      let whole :=
        Server._read_message reader
          (feeding reader [contents sock] st) in
      pieces.1 = whole.1 /\ same_state pieces.2 whole.2)
  /\ (forall header payload rest,
        contents sock = header ++ payload ++ rest ->
        length header = 4%nat ->
        Struct.unpack_I header = Ok (len payload) ->
        (exists s,
           contents s = rest
           /\ _read_message_body _process_message (set_sock_in sock w)
              = threaded_after_payload _process_message payload
                  (set_sock_in s w))
        /\ (exists st1,
              Server._read_message reader (feeding reader sock st)
              = async_after_payload payload st1
              /\ StreamReader.contents (Server.readers st1 !!! reader)
                 = rest
              /\ Server._writers st1 = Server._writers st
              /\ Server.writers st1 = Server.writers st
              /\ Server.log st1 = Server.log st)).
Proof.
  intros HL. split; [| split; [| split; [| split]]].
  - apply recvall_ok, HL.
  - set (rd := {| StreamReader.buffer := []; StreamReader.feed := sock |}).
    destruct (readexactly_read_exactly rd L ltac:(lia)) as [Hr Hrest].
    destruct (StreamReader.readexactly L rd) as [r rd'].
    simpl in Hr, Hrest. unfold read_exactly in Hr, Hrest.
    change (StreamReader.contents rd) with (contents sock) in Hr, Hrest.
    exists rd'. destruct (Z.leb_spec L 0).
    + assert (L = 0) as -> by lia. simpl in *. subst r.
      split; [reflexivity | exact Hrest].
    + destruct (Z.leb_spec L (len (contents sock))); [| lia].
      simpl in *. subst r. split; [reflexivity | exact Hrest].
  - apply UtilsFacts.respects_body.
    repeat split. simpl. unfold contents. simpl. symmetry. apply app_nil_r.
  - apply ServerFacts.async_respects_read_message, ServerFacts.feeding_same.
    simpl. symmetry. apply app_nil_r.
  - intros header payload rest Hc Hh Hu. split.
    + destruct (body_frame _process_message (set_sock_in sock w)
                  header payload rest Hc Hh Hu) as (s & Hrest & Hbody).
      exists s. split; [exact Hrest |]. exact Hbody.
    + destruct (AsyncFrames.async_read_message_frame
                  (feeding reader sock st) reader header payload rest)
        as (st1 & Hread & Hrest & Hreg & Hwr & Hlog).
      * cbn [feeding Server.readers]. rewrite lookup_total_insert_eq.
        exact Hc.
      * exact Hh.
      * exact Hu.
      * exists st1. repeat split; assumption.
Qed.

End PartialReads.

(** ** The wire format and the round trip *)

Module Codec.
Import Spec Socket SocketFacts RecvallFacts ReadSpec StructFacts Frames.

(** C5.  Whenever [_write_message] sends a frame, what it adds to the
    connection is a four-byte header followed by the payload and nothing
    else; the header, read as a big-endian unsigned number, is the byte
    length of the payload (the serialized message, compressed in the
    asyncio server); and reading four bytes and then as many bytes as the
    header says gives back header and payload and leaves what follows the
    frame. *)
Theorem frame_is_header_then_payload `{PyLib} {U : Type}
    (message : pyval) (w w' : Utils.World U)
    (writer : nat) (st st' : Server.State) :
  (Utils._write_message message w = (Ok tt, w') ->
     exists text payload header,
       json_dumps message = Ok text
       /\ str_encode_utf8 text = Ok payload
       /\ Utils.sock_out (Utils.client w')
          = Utils.sock_out (Utils.client w) ++ header ++ payload
       /\ length header = 4%nat
       /\ be_value header = len payload
       /\ Struct.unpack_I header = Ok (len payload)
       /\ forall sock rest,
            contents sock = header ++ payload ++ rest ->
            exists s1 s2,
              Utils._recvall sock 4 = (Ok header, s1)
              /\ Utils._recvall s1 (len payload) = (Ok payload, s2)
              /\ contents s2 = rest)
  /\ (Server._write_message message writer st = (Ok tt, st') ->
        exists text raw_msg header,
          let payload := zstd_compress raw_msg in
          json_dumps message = Ok text
          /\ str_encode_utf8 text = Ok raw_msg
          /\ StreamWriter.written (Server.writers st' !!! writer)
             = StreamWriter.written (Server.writers st !!! writer)
               ++ header ++ payload
          /\ length header = 4%nat
          /\ be_value header = len payload
          /\ Struct.unpack_I header = Ok (len payload)
          /\ forall rd rest,
               StreamReader.contents rd = header ++ payload ++ rest ->
               exists rd1 rd2,
                 StreamReader.readexactly 4 rd = (Ok header, rd1)
                 /\ StreamReader.readexactly (len payload) rd1
                    = (Ok payload, rd2)
                 /\ StreamReader.contents rd2 = rest).
Proof.
  split.
  - intros Hw.
    destruct (write_message_inv message w w' Hw)
      as (text & payload & header & Hd & He & Hp & Hout & _).
    exists text, payload, header.
    pose proof (pack_I_length _ _ Hp) as Hlen.
    repeat split; try assumption.
    + eapply pack_I_be_value; eauto.
    + eapply unpack_I_pack_I; eauto.
    + intros sock rest Hc. eapply recvall_frame; eauto.
  - intros Hw.
    destruct (AsyncFrames.async_write_message_inv message writer st st' Hw)
      as (lm & text & raw & header & _ & Hd & He & _ & Hp & Hout & _).
    exists text, raw, header. cbv zeta.
    pose proof (pack_I_length _ _ Hp) as Hlen.
    repeat split; try assumption.
    + eapply pack_I_be_value; eauto.
    + eapply unpack_I_pack_I; eauto.
    + intros rd rest Hc. eapply readexactly_frame; eauto.
Qed.


End Codec.

(** ** Messages without a recognized type, and the logged projection *)

Module Logging.
Import Spec Server LogFacts AsyncFrames.

(** A message that [_read_message] returns has been logged through
    [__message_log]. *)
Lemma read_message_inv `{PyLib} reader st st' msg :
  _read_message reader st = (Ok msg, st') ->
  exists log_message,
    __message_log msg = Ok log_message
    /\ log st' = log st
                 ++ [LogRec DEBUG "Message received {}"
                       [ArgVal (PDict log_message)]].
Proof.
  unfold _read_message, bind, lift, emit, modify, ret, on_reader.
  destruct (StreamReader.readexactly 4 _) as [[hdr |] rd1]; [| discriminate].
  cbn [_writers readers writers log].
  destruct (Struct.unpack_I hdr) as [msglen |]; [| discriminate].
  destruct (StreamReader.readexactly msglen _) as [[raw |] rd2];
    [| discriminate].
  cbn [_writers readers writers log].
  destruct (zstd_decompress raw) as [plain |]; [| discriminate].
  destruct (bytes_decode_utf8 plain) as [text |]; [| discriminate].
  destruct (json_loads text) as [msg' |]; [| discriminate].
  destruct (__message_log msg') as [lm |] eqn:Hl; [| discriminate].
  intros [= <- <-]. exists lm. split; [exact Hl | reflexivity].
Qed.

(** C10.  In the asyncio server a message mapping without a ['type'] key,
    or whose ['type'] is none of the thirteen [MessageType] values, does
    not get through [__message_log]: [_write_message] raises [KeyError] or
    [ValueError] and leaves the server and the writer as they were, no
    byte written; and [_read_message], having received and parsed such a
    message, raises the same error instead of returning it. *)
Theorem untyped_message_is_refused `{PyLib}
    (d : pydict) (writer reader : nat) (st st_recv : State)
    (header payload rest plain : bytes) (text : string) :
  (dict_get "type" d = None
   \/ exists ty, dict_get "type" d = Some ty /\ ~ recognized ty) ->
  exists e,
    (e = KeyError "type" \/ e = ValueError)
    /\ _write_message (PDict d) writer st = (Raise e, st)
    /\ (StreamReader.contents (readers st_recv !!! reader)
        = header ++ payload ++ rest ->
        length header = 4%nat ->
        Struct.unpack_I header = Ok (len payload) ->
        zstd_decompress payload = Ok plain ->
        bytes_decode_utf8 plain = Ok text ->
        json_loads text = Ok (PDict d) ->
        exists st',
          _read_message reader st_recv = (Raise e, st')
          /\ log st' = log st_recv).
Proof.
  intros Hty.
  assert (Hlog : exists e, (e = KeyError "type" \/ e = ValueError)
                           /\ __message_log (PDict d) = Raise e).
  { destruct Hty as [Hnone | (ty & Hsome & Hn)].
    - exists (KeyError "type"). split; [left; reflexivity |].
      apply message_log_no_type, Hnone.
    - exists ValueError. split; [right; reflexivity |].
      eapply message_log_bad_type; eauto. }
  destruct Hlog as (e & He & Hlog). exists e. split; [exact He |].
  split; [apply async_write_message_log_raises, Hlog |].
  intros Hc Hh Hu Hz Hdec Hloads.
  destruct (async_read_message_frame st_recv reader header payload rest
              Hc Hh Hu)
    as (st1 & Hread & _ & _ & _ & Hl).
  exists st1. split; [| exact Hl].
  rewrite Hread. unfold async_after_payload, bind, lift.
  rewrite Hz, Hdec, Hloads, Hlog. reflexivity.
Qed.

(** What a call of the asyncio [_read_message] logs: the projection of
    the message it returns, and nothing when it raises. *)
Lemma read_message_raise_log `{PyLib} reader st st' e :
  _read_message reader st = (Raise e, st') -> log st' = log st.
Proof.
  unfold _read_message, bind, lift, emit, modify, ret, on_reader.
  destruct (StreamReader.readexactly 4 _) as [[hdr |] rd1];
    [| intros [= _ <-]; reflexivity].
  cbn [_writers readers writers log].
  destruct (Struct.unpack_I hdr) as [msglen |];
    [| intros [= _ <-]; reflexivity].
  destruct (StreamReader.readexactly msglen _) as [[raw |] rd2];
    [| intros [= _ <-]; reflexivity].
  cbn [_writers readers writers log].
  destruct (zstd_decompress raw) as [plain |];
    [| intros [= _ <-]; reflexivity].
  destruct (bytes_decode_utf8 plain) as [text |];
    [| intros [= _ <-]; reflexivity].
  destruct (json_loads text) as [msg' |]; [| intros [= _ <-]; reflexivity].
  destruct (__message_log msg') as [lm |];
    [discriminate | intros [= _ <-]; reflexivity].
Qed.

(** What a call of the asyncio [_write_message] logs once
    [__message_log] has returned, whatever happens next. *)
Lemma write_message_log `{PyLib} message writer st log_message :
  __message_log message = Ok log_message ->
  exists more,
    log (_write_message message writer st).2
    = log st ++ [LogRec DEBUG "Writing {}" [ArgVal (PDict log_message)]]
        ++ more
    /\ (more = []
        \/ exists num den,
             more = [LogRec DEBUG "Compressed rate: {}"
                       [ArgRatio num den]]).
Proof.
  intros Hl.
  unfold _write_message, bind, lift, emit, modify, raise, ret, on_writer.
  rewrite Hl. cbn [_writers readers writers log].
  destruct (json_dumps message) as [text |].
  2:{ exists []. split; [reflexivity | left; reflexivity]. }
  destruct (str_encode_utf8 text) as [raw |].
  2:{ exists []. split; [reflexivity | left; reflexivity]. }
  destruct (len raw =? 0).
  { exists []. split; [reflexivity | left; reflexivity]. }
  cbn [_writers readers writers log].
  destruct (Struct.pack_I (len (zstd_compress raw))) as [header |].
  - cbn [_writers readers writers log].
    rewrite lookup_total_insert_eq, call_drain.
    eexists [_]. split; [| right; eexists _, _; reflexivity].
    destruct (StreamWriter.is_closing _);
      cbn [snd _writers readers writers log];
      rewrite <- app_assoc; reflexivity.
  - eexists [_]. split; [| right; eexists _, _; reflexivity].
    cbn [snd _writers readers writers log].
    rewrite <- app_assoc. reflexivity.
Qed.

(** C9, as the code has it.  Asyncio server: for a mapping with a
    recognized ['type'], the record logged on each encode, also on one
    that fails after the record is written, and on each decode carries
    the projection of the message: the ['data'] entry is left out,
    ['type'] is the name of the message kind, and every other entry is the
    message's own; a decode that raises logs nothing.  Threaded server:
    each encode, whether or not it then fails, and each decode logs the
    whole message as it is. *)
Theorem logged_projection_omits_data `{PyLib} {U : Type}
    (_process_message : pyval -> M (Utils.World U) unit)
    (d : pydict) (ty : pyval) (writer reader : nat) (st : State)
    (m : pyval) (w : Utils.World U) :
  dict_get "type" d = Some ty -> recognized ty ->
  (exists kind log_message,
     MessageType_.call ty = Ok kind
     /\ dict_get "data" log_message = None
     /\ dict_get "type" log_message = Some (PStr (MessageType_.name kind))
     /\ (forall k, k <> "data" -> k <> "type" ->
                   dict_get k log_message = dict_get k d)
     /\ (exists more,
           log (_write_message (PDict d) writer st).2
           = log st
             ++ [LogRec DEBUG "Writing {}" [ArgVal (PDict log_message)]]
             ++ more
           /\ (more = []
               \/ exists num den,
                    more = [LogRec DEBUG "Compressed rate: {}"
                              [ArgRatio num den]]))
     /\ (forall st',
           _read_message reader st = (Ok (PDict d), st') ->
           log st' = log st ++ [LogRec DEBUG "Message received {}"
                                  [ArgVal (PDict log_message)]]))
  /\ (forall e st',
        _read_message reader st = (Raise e, st') -> log st' = log st)
  /\ Utils.log (Utils._write_message m w).2
     = Utils.log w
       ++ [LogRec INFO "Writing {} to {}"
             [ArgVal m;
              ArgPeer (Utils.peer_host (Utils.client w))
                (Utils.peer_port (Utils.client w))]]
  /\ (forall header payload rest text,
        Socket.contents (Utils.sock_in (Utils.client w))
        = header ++ payload ++ rest ->
        length header = 4%nat ->
        Struct.unpack_I header = Ok (len payload) ->
        bytes_decode_utf8 payload = Ok text ->
        json_loads text = Ok m ->
        exists w1,
          Utils._read_message_body _process_message w
          = Utils.invoke (Utils.Processed m) (_process_message m) w1
          /\ Utils.log w1
             = Utils.log w
               ++ [LogRec INFO "Message {} from {}"
                     [ArgVal m;
                      ArgPeer (Utils.peer_host (Utils.client w))
                        (Utils.peer_port (Utils.client w))]]).
Proof.
  intros Hty Hrec.
  destruct (message_log_dict d ty Hty Hrec)
    as (kind & lm & Hcall & Hlog & Hget).
  split; [| split; [| split]].
  - exists kind, lm. split; [exact Hcall |].
    split; [rewrite Hget; reflexivity |].
    split; [rewrite Hget; reflexivity |].
    split.
    { intros k Hd Ht. rewrite Hget.
      destruct (String.eqb_spec k "type"); [contradiction |].
      destruct (String.eqb_spec k "data"); [contradiction | reflexivity]. }
    split.
    + apply write_message_log, Hlog.
    + intros st' Hr.
      destruct (read_message_inv _ _ _ _ Hr) as (lm' & Hlog' & Hl).
      rewrite Hlog in Hlog'. injection Hlog' as <-. exact Hl.
  - intros e st' Hr. eapply read_message_raise_log, Hr.
  - unfold Utils._write_message, bind, Utils.getpeername, gets, Utils.emit,
      modify, lift, Utils.sendall. cbn [fst snd].
    destruct (json_dumps m) as [text |]; [| reflexivity].
    destruct (str_encode_utf8 text) as [raw |]; [| reflexivity].
    destruct (Struct.pack_I (len raw)) as [header |]; reflexivity.
  - intros header payload rest text Hc Hh Hu Hdec Hloads.
    destruct (Frames.body_frame _process_message w header payload rest
                Hc Hh Hu) as (s & _ & Hbody).
    eexists. split.
    + rewrite Hbody. unfold threaded_after_payload.
      unfold bind at 1. unfold lift at 1. rewrite Hdec.
      unfold bind at 1. unfold lift at 1. rewrite Hloads.
      unfold bind, Utils.getpeername, gets, Utils.emit, modify.
      cbn [fst snd]. reflexivity.
    + reflexivity.
Qed.

End Logging.

(** ** Failures of encoding and of decoding *)

Module Failures.
Import Spec Socket SocketFacts Frames LogFacts.

(** C8, as the code has it.  A message that [json.dumps] refuses makes
    [_write_message] raise to its caller the very exception that
    [json.dumps] raised (in the asyncio server the one of [__message_log]
    when that one comes first), without sending a byte and without
    touching the registry or the streams.  The threaded server sends every
    message that serializes to a payload that fits the header.  The
    asyncio server sends those among them that are mappings with a
    recognized [type], when the writer's connection is open; on a
    connection that is closing or lost the frame of such a message is
    dropped and [drain] raises [ConnectionResetError]. *)
Theorem write_message_failure_and_totality `{PyLib} {U : Type}
    (m : pyval) (w : Utils.World U) (writer : nat) (st : Server.State) :
  (forall e, json_dumps m = Raise e ->
     (exists w',
        Utils._write_message m w = (Raise e, w')
        /\ Utils.client w' = Utils.client w
        /\ Utils.trace w' = Utils.trace w
        /\ Utils.user w' = Utils.user w)
     /\ (exists e' st',
           Server._write_message m writer st = (Raise e', st')
           /\ (e' = e \/ Server.__message_log m = Raise e')
           /\ Server._writers st' = Server._writers st
           /\ Server.writers st' = Server.writers st
           /\ Server.readers st' = Server.readers st))
  /\ (forall text raw_msg,
        json_dumps m = Ok text ->
        str_encode_utf8 text = Ok raw_msg ->
        (len raw_msg < 2 ^ 32 ->
           exists w', Utils._write_message m w = (Ok tt, w'))
        /\ ((exists d ty, m = PDict d /\ dict_get "type" d = Some ty
                          /\ recognized ty) ->
            len raw_msg <> 0 ->
            len (zstd_compress raw_msg) < 2 ^ 32 ->
            (StreamWriter.is_closing (Server.writers st !!! writer) = false ->
               exists st', Server._write_message m writer st = (Ok tt, st'))
            /\ (StreamWriter.is_closing (Server.writers st !!! writer) = true ->
                  exists st',
                    Server._write_message m writer st
                    = (Raise ConnectionResetError, st')
                    /\ Server.writers st' !!! writer
                       = Server.writers st !!! writer
                    /\ Server._writers st' = Server._writers st))).
Proof.
  split.
  - intros e Hd. split.
    + unfold Utils._write_message, bind, Utils.getpeername, gets,
        Utils.emit, modify, lift. cbn [fst snd]. rewrite Hd.
      eexists. split; [reflexivity |]. repeat split.
    + unfold Server._write_message, bind, lift.
      destruct (Server.__message_log m) as [lm | e'] eqn:Hl.
      * unfold Server.emit, modify. rewrite Hd.
        eexists e, _. split; [reflexivity |].
        split; [left; reflexivity |]. repeat split.
      * exists e', st. split; [reflexivity |].
        split; [right; reflexivity |]. repeat split.
  - intros text raw Hd He. split.
    + intros Hfit. eapply write_message_ok; eauto.
    + intros (d & ty & -> & Hty & Hrec) Hnz Hfit.
      destruct (message_log_dict d ty Hty Hrec) as (kind & lm & _ & Hl & _).
      split; intros Hconn.
      * eapply AsyncFrames.async_write_message_ok; eauto.
      * destruct (AsyncFrames.async_write_message_closing (PDict d) writer st
                    lm text raw Hl Hd He Hnz Hfit Hconn)
          as (st' & Hw & Hwr & Hreg & _).
        exists st'. repeat split; assumption.
Qed.

(** C4, as the code has it.  A frame whose payload does not decompress
    (asyncio server), decode as UTF-8 or parse as JSON makes the decoding
    raise the error of that library call, and no message is handed on or
    logged.  A payload that parses to anything but a mapping with a
    recognized [type] is refused by the asyncio server, in
    [__message_log]: with [KeyError] for a mapping without ['type'], with
    [ValueError] for a mapping whose ['type'] is not recognized, and with
    [TypeError] or [IndexError] for a value that is not a mapping.  The
    threaded server does not look at the parsed value and hands it to
    [_process_message]. *)
Theorem malformed_payload_raises_library_error `{PyLib} {U : Type}
    (_process_message : pyval -> M (Utils.World U) unit)
    (w : Utils.World U) (st : Server.State) (reader : nat)
    (header payload rest : bytes) :
  length header = 4%nat ->
  Struct.unpack_I header = Ok (len payload) ->
  (contents (Utils.sock_in (Utils.client w)) = header ++ payload ++ rest ->
     (forall e,
        bytes_decode_utf8 payload = Raise e
        \/ (exists text, bytes_decode_utf8 payload = Ok text
                         /\ json_loads text = Raise e) ->
        exists w',
          Utils._read_message_body _process_message w = (Raise e, w')
          /\ Utils.trace w' = Utils.trace w
          /\ Utils.log w' = Utils.log w
          /\ Utils.user w' = Utils.user w)
     /\ (forall text msg,
           bytes_decode_utf8 payload = Ok text ->
           json_loads text = Ok msg ->
           exists w',
             Utils._read_message_body _process_message w
             = Utils.invoke (Utils.Processed msg) (_process_message msg) w'
             /\ Utils.trace w' = Utils.trace w))
  /\ (StreamReader.contents (Server.readers st !!! reader)
      = header ++ payload ++ rest ->
      (forall e,
         zstd_decompress payload = Raise e
         \/ (exists plain,
               zstd_decompress payload = Ok plain
               /\ (bytes_decode_utf8 plain = Raise e
                   \/ exists text, bytes_decode_utf8 plain = Ok text
                                   /\ json_loads text = Raise e)) ->
         exists st',
           Server._read_message reader st = (Raise e, st')
           /\ Server.log st' = Server.log st)
      /\ (forall plain text msg,
            zstd_decompress payload = Ok plain ->
            bytes_decode_utf8 plain = Ok text ->
            json_loads text = Ok msg ->
            ~ (exists d ty, msg = PDict d /\ dict_get "type" d = Some ty
                            /\ recognized ty) ->
            exists e st',
              Server._read_message reader st = (Raise e, st')
              /\ Server.log st' = Server.log st
              /\ match msg with
                 | PDict d =>
                     match dict_get "type" d with
                     | None => e = KeyError "type"
                     | Some _ => e = ValueError
                     end
                 | _ => e = TypeError \/ e = IndexError
                 end)).
Proof.
  intros Hh Hu. split.
  - intros Hc.
    destruct (body_frame _process_message w header payload rest Hc Hh Hu)
      as (s & _ & Hbody).
    split.
    + intros e He. exists (Utils.set_sock_in s w). rewrite Hbody.
      unfold threaded_after_payload, bind, lift.
      destruct He as [-> | (text & -> & ->)]; repeat split.
    + intros text msg Hdec Hloads. eexists. rewrite Hbody.
      unfold threaded_after_payload.
      unfold bind at 1. unfold lift at 1. rewrite Hdec.
      unfold bind at 1. unfold lift at 1. rewrite Hloads.
      unfold bind, Utils.getpeername, gets, Utils.emit, modify.
      cbn [fst snd]. split; reflexivity.
  - intros Hc.
    destruct (AsyncFrames.async_read_message_frame st reader header payload rest
                Hc Hh Hu) as (st1 & Hread & _ & _ & _ & Hl).
    split.
    + intros e He. exists st1. rewrite Hread.
      unfold async_after_payload, bind, lift.
      destruct He as [-> | (plain & -> & [-> | (text & -> & ->)])];
        split; first [reflexivity | exact Hl].
    + intros plain text msg Hz Hdec Hloads Hbad.
      assert (Hlog : exists e, Server.__message_log msg = Raise e).
      { destruct msg as [| | | | | | d];
          try (apply message_log_not_dict; intros d; discriminate).
        destruct (dict_get "type" d) as [ty |] eqn:Hty.
        - exists ValueError. eapply message_log_bad_type; [exact Hty |].
          intros Hrec. apply Hbad. exists d, ty. auto.
        - exists (KeyError "type"). apply message_log_no_type, Hty. }
      destruct Hlog as [e Hlog]. exists e, st1. rewrite Hread.
      unfold async_after_payload, bind, lift.
      rewrite Hz, Hdec, Hloads, Hlog. split; [reflexivity |].
      split; [exact Hl |].
      pose proof (message_log_error msg e Hlog) as Herr.
      destruct msg as [| | | | | | d]; try exact Herr.
      destruct (dict_get "type" d); [exact (proj2 Herr) | exact Herr].
Qed.

End Failures.

(** ** The connection registry and shutdown *)

Module Registry.
Import Server AsyncFrames.

(** C6.  On a server with a registered connection, [stop] asks the first
    writer it meets to close and then fails on the attribute
    [wait_close], which [StreamWriter] does not have: it raises
    [AttributeError], no other writer is asked to close, and the registry
    is as it was. *)
Theorem stop_raises_AttributeError (st : State) :
  _writers st <> ∅ ->
  exists writer st',
    stop st = (Raise (AttributeError "wait_close"), st')
    /\ writer ∈ _writers st
    /\ _writers st' = _writers st
    /\ StreamWriter.closing (writers st' !!! writer) = true
    /\ forall other, other <> writer ->
                     writers st' !!! other = writers st !!! other.
Proof.
  intros Hne. unfold stop.
  destruct (elements (_writers st)) as [| writer ws] eqn:He.
  - apply elements_empty_inv in He. apply leibniz_equiv in He. contradiction.
  - exists writer. eexists. split.
    + cbn [stop_loop]. unfold bind, on_writer.
      rewrite call_close. cbn [_writers readers writers log].
      rewrite lookup_total_insert_eq, call_wait_close. reflexivity.
    + cbn [_writers readers writers log]. split.
      { apply elem_of_elements. rewrite He. left. }
      split; [reflexivity |]. split.
      { rewrite lookup_total_insert_eq. reflexivity. }
      intros other Hother.
      rewrite !lookup_total_insert_ne by congruence. reflexivity.
Qed.

(** C7, as the code has it.  Removing a registered connection takes it
    out of the set; removing one that is not in the set raises [KeyError]
    and changes nothing.  A connection is in the registry while its
    [_process_connection] runs, and is taken out when that returns. *)
Theorem registry_add_then_remove
    (_process_connection : nat -> nat -> M State unit)
    (reader writer : nat) (st st1 : State) :
  (writer ∈ _writers st ->
     writers_remove writer st
     = (Ok tt, set_writers (_writers st ∖ {[writer]}) st))
  /\ (writer ∉ _writers st ->
        writers_remove writer st = (Raise (KeyError "writer"), st))
  /\ writer ∈ _writers (set_writers ({[writer]} ∪ _writers st) st)
  /\ (_process_connection reader writer
        (set_writers ({[writer]} ∪ _writers st) st) = (Ok tt, st1) ->
      writer ∈ _writers st1 ->
      exists st',
        __new_connection _process_connection reader writer st = (Ok tt, st')
        /\ _writers st' = _writers st1 ∖ {[writer]}
        /\ writer ∉ _writers st').
Proof.
  split; [| split; [| split]].
  - intros Hin. unfold writers_remove.
    rewrite bool_decide_eq_true_2 by exact Hin. reflexivity.
  - intros Hnin. unfold writers_remove.
    rewrite bool_decide_eq_false_2 by exact Hnin. reflexivity.
  - cbn. apply elem_of_union. left. apply elem_of_singleton. reflexivity.
  - intros Hrun Hin. eexists. split.
    + unfold __new_connection, bind, modify. rewrite Hrun.
      unfold writers_remove. rewrite bool_decide_eq_true_2 by exact Hin.
      reflexivity.
    + cbn. split; [reflexivity |].
      intros Hin'. apply elem_of_difference in Hin' as [_ Hnot].
      apply Hnot, elem_of_singleton. reflexivity.
Qed.

End Registry.


Module Checks.
Import Spec Socket Concrete.

Local Abbreviation lib := RefLib.lib.
#[local] Existing Instance RefLib.lib.

Lemma truncated_stream_raises_EOFError_witness :
  truncated (contents short_header)
  /\ truncated
       (StreamReader.contents
          (Server.readers (feeding 0 short_payload (server ∅))
             !!! 0%nat))
  /\ Utils._read_message_body on_message (world short_header)
     = (Raise (EOFError "peer socket closed"),
        Utils.set_sock_in [] (world short_header))
  /\ exists partial expected st',
       Server._read_message 0%nat
         (feeding 0 short_payload (server ∅))
       = (Raise (IncompleteReadError partial expected), st').
Proof.
  assert (H1 : truncated (contents short_header)).
  { left. vm_compute. reflexivity. }
  assert (H2 : truncated
                 (StreamReader.contents
                    (Server.readers
                       (feeding 0 short_payload (server ∅))
                       !!! 0%nat))).
  { right. exists 5. split; vm_compute; reflexivity. }
  destruct (@Truncation.truncated_stream_raises_EOFError lib unit
              on_message on_closed (world short_header)
              (feeding 0 short_payload (server ∅)) 0%nat)
    as (T1 & T2 & _).
  destruct (T1 H1) as (Hbody & _).
  destruct (T2 H2) as (partial & expected & st' & Hrun & _).
  split; [exact H1 |]. split; [exact H2 |]. split; [exact Hbody |].
  exists partial, expected, st'. exact Hrun.
Defined.

Lemma partial_reads_accumulate_exactly_witness :
  0 <= 28 <= len (contents (bytewise (sent_frame file_list_reply)))
  /\ (exists sock',
        Utils._recvall (bytewise (sent_frame file_list_reply)) 28
        = (Ok (take (Z.to_nat 28)
                 (contents (bytewise (sent_frame file_list_reply)))), sock'))
  /\ (exists s,
        contents s = []
        /\ Utils._read_message_body on_message
             (world (bytewise (sent_frame file_list_reply)))
           = threaded_after_payload on_message
               (RefLib.b (dumped file_list_reply))
               (Utils.set_sock_in s (world [])))
  /\ (exists st1,
        Server._read_message 0%nat
          (feeding 0 (bytewise (sent_frame file_list_reply)) (server ∅))
        = async_after_payload (RefLib.b (dumped file_list_reply)) st1
        /\ StreamReader.contents (Server.readers st1 !!! 0%nat) = []).
Proof.
  assert (HL : 0 <= 28
               <= len (contents (bytewise (sent_frame file_list_reply)))).
  { vm_compute. split; discriminate. }
  destruct (@PartialReads.partial_reads_accumulate_exactly lib unit
              on_message (bytewise (sent_frame file_list_reply)) 28
              (world []) (server ∅) 0%nat HL)
    as ((sock' & Hrun & _) & _ & _ & _ & Hframe).
  destruct (Hframe (header_of (RefLib.b (dumped file_list_reply)))
              (RefLib.b (dumped file_list_reply)) [])
    as ((s & Hrest & Hbody) & (st1 & Hread & Hrest1 & _));
    [vm_compute; reflexivity | reflexivity | vm_compute; reflexivity |].
  split; [exact HL |]. split; [exists sock'; exact Hrun |]. split.
  - exists s. split; [exact Hrest | exact Hbody].
  - exists st1. split; [exact Hread | exact Hrest1].
Defined.

Lemma frame_is_header_then_payload_witness :
  Utils._write_message file_list_reply (world [])
  = (Ok tt, (Utils._write_message file_list_reply (world [])).2)
  /\ Server._write_message file_list_reply 0%nat (server ∅)
     = (Ok tt, (Server._write_message file_list_reply 0%nat (server ∅)).2)
  /\ (exists payload header,
        sent_frame file_list_reply = header ++ payload
        /\ be_value header = len payload)
  /\ (exists payload header,
        written_frame file_list_reply = header ++ payload
        /\ be_value header = len payload).
Proof.
  assert (H1 : Utils._write_message file_list_reply (world [])
               = (Ok tt, (Utils._write_message file_list_reply (world [])).2)).
  { vm_compute. reflexivity. }
  assert (H2 : Server._write_message file_list_reply 0%nat (server ∅)
               = (Ok tt, (Server._write_message file_list_reply 0%nat
                            (server ∅)).2)).
  { vm_compute. reflexivity. }
  destruct (@Codec.frame_is_header_then_payload lib unit file_list_reply
              (world []) (Utils._write_message file_list_reply (world [])).2
              0%nat (server ∅)
              (Server._write_message file_list_reply 0%nat (server ∅)).2)
    as (T1 & T2).
  destruct (T1 H1) as (text & payload & header & _ & _ & Hout & _ & Hbe & _).
  destruct (T2 H2) as (text' & raw & header' & _ & _ & Hout' & _ & Hbe' & _).
  split; [exact H1 |]. split; [exact H2 |]. split.
  - exists payload, header. split; [exact Hout | exact Hbe].
  - exists (zstd_compress raw), header'. split; [exact Hout' | exact Hbe'].
Defined.


Lemma untyped_message_is_refused_witness :
  dict_get "type" untyped = None
  /\ Server._write_message (PDict untyped) 0%nat (server {[0%nat]})
     = (Raise (KeyError "type"), server {[0%nat]})
  /\ exists st',
       Server._read_message 0%nat
         (feeding 0
            (bytewise (header_of (compressed (dumped (PDict untyped)))
                       ++ compressed (dumped (PDict untyped))))
            (server ∅))
       = (Raise (KeyError "type"), st').
Proof.
  assert (Hty : dict_get "type" untyped = None
                \/ exists ty, dict_get "type" untyped = Some ty
                              /\ ~ recognized ty).
  { left. reflexivity. }
  destruct (@Logging.untyped_message_is_refused lib untyped 0%nat 0%nat
              (server {[0%nat]})
              (feeding 0
                 (bytewise (header_of (compressed (dumped (PDict untyped)))
                            ++ compressed (dumped (PDict untyped))))
                 (server ∅))
              (header_of (compressed (dumped (PDict untyped))))
              (compressed (dumped (PDict untyped))) []
              (RefLib.b (dumped (PDict untyped))) (dumped (PDict untyped))
              Hty)
    as (e & He & Hw & Hr).
  assert (Hkey : e = KeyError "type").
  { destruct He as [-> | ->]; [reflexivity |].
    vm_compute in Hw. discriminate. }
  subst e. split; [reflexivity |]. split; [exact Hw |].
  destruct Hr as (st' & Hrun & _); try (vm_compute; reflexivity).
  exists st'. exact Hrun.
Defined.

Lemma logged_projection_omits_data_witness :
  dict_get "type" [("type", PInt 13); ("data", PStr "abc"); ("index", PInt 0)]
  = Some (PInt 13)
  /\ recognized (PInt 13)
  /\ (exists kind log_message more,
        MessageType_.call (PInt 13) = Ok kind
        /\ dict_get "data" log_message = None
        /\ dict_get "type" log_message
           = Some (PStr (MessageType_.name kind))
        /\ dict_get "index" log_message = Some (PInt 0)
        /\ Server.log
             (Server._write_message chunk_reply 0%nat (server ∅)).2
           = [LogRec DEBUG "Writing {}" [ArgVal (PDict log_message)]]
             ++ more
        /\ Server.log
             (Server._read_message 0%nat
                (feeding 0 (bytewise (written_frame chunk_reply))
                   (server ∅))).2
           = [LogRec DEBUG "Message received {}"
                [ArgVal (PDict log_message)]])
  /\ Utils.log (Utils._write_message unserializable (world [])).2
     = [LogRec INFO "Writing {} to {}"
          [ArgVal unserializable; ArgPeer "10.0.0.2" 40000]].
Proof.
  assert (Hty : dict_get "type"
                  [("type", PInt 13); ("data", PStr "abc"); ("index", PInt 0)]
                = Some (PInt 13)) by reflexivity.
  assert (Hrec : recognized (PInt 13)).
  { exists PEER_REPLY_CHUNK. reflexivity. }
  destruct (@Logging.logged_projection_omits_data lib unit on_message _ _
              0%nat 0%nat (server ∅) unserializable (world []) Hty Hrec)
    as ((kind & lm & Hcall & Hdata & Htype & Hother & Hwrite & _)
        & _ & Hthreaded & _).
  destruct (@Logging.logged_projection_omits_data lib unit on_message _ _
              0%nat 0%nat
              (feeding 0 (bytewise (written_frame chunk_reply)) (server ∅))
              unserializable (world []) Hty Hrec)
    as ((kind' & lm' & Hcall' & _ & _ & _ & Hwrite' & Hread) & _).
  destruct Hwrite as (more & Hw & _).
  destruct Hwrite' as (more' & Hw' & _).
  assert (Hlm : lm' = lm).
  { vm_compute in Hw. vm_compute in Hw'. congruence. }
  subst lm'.
  split; [exact Hty |]. split; [exact Hrec |]. split.
  - exists kind, lm, more. split; [exact Hcall |]. split; [exact Hdata |].
    split; [exact Htype |]. split.
    { rewrite Hother by discriminate. reflexivity. }
    split; [exact Hw |].
    apply (Hread (Server._read_message 0%nat
                    (feeding 0 (bytewise (written_frame chunk_reply))
                       (server ∅))).2).
    vm_compute. reflexivity.
  - exact Hthreaded.
Defined.

Lemma write_message_failure_and_totality_witness :
  json_dumps unserializable = Raise TypeError
  /\ json_dumps file_list_reply = Ok (dumped file_list_reply)
  /\ (exists w', Utils._write_message unserializable (world [])
                 = (Raise TypeError, w')
                 /\ Utils.client w' = Utils.client (world []))
  /\ (exists w', Utils._write_message file_list_reply (world [])
                 = (Ok tt, w'))
  /\ (exists st', Server._write_message file_list_reply 0%nat
                    (server {[0%nat]}) = (Ok tt, st'))
  /\ (exists st', Server._write_message file_list_reply 0%nat
                    Samples.closing_server
                  = (Raise ConnectionResetError, st')
                  /\ StreamWriter.written (Server.writers st' !!! 0%nat)
                     = []).
Proof.
  assert (Hbad : json_dumps unserializable = Raise TypeError)
    by (vm_compute; reflexivity).
  assert (Hd : json_dumps file_list_reply = Ok (dumped file_list_reply))
    by (vm_compute; reflexivity).
  assert (He : str_encode_utf8 (dumped file_list_reply)
               = Ok (RefLib.b (dumped file_list_reply)))
    by (vm_compute; reflexivity).
  destruct (@Failures.write_message_failure_and_totality lib unit
              unserializable (world []) 0%nat (server {[0%nat]}))
    as (T1 & _).
  destruct (T1 TypeError Hbad) as ((w' & Hw & Hc & _) & _).
  destruct (@Failures.write_message_failure_and_totality lib unit
              file_list_reply (world []) 0%nat (server {[0%nat]}))
    as (_ & T2).
  destruct (T2 _ _ Hd He) as (T3 & T4).
  destruct (@Failures.write_message_failure_and_totality lib unit
              file_list_reply (world []) 0%nat Samples.closing_server)
    as (_ & T2').
  destruct (T2' _ _ Hd He) as (_ & T5).
  assert (Hty : exists d ty, file_list_reply = PDict d
                             /\ dict_get "type" d = Some ty
                             /\ recognized ty).
  { exists [("type", PInt 8); ("files", PList [])], (PInt 8).
    split; [reflexivity |]. split; [reflexivity |].
    exists REPLY_FILE_LIST. reflexivity. }
  assert (Hnz : len (RefLib.b (dumped file_list_reply)) <> 0)
    by (vm_compute; discriminate).
  assert (Hfit : len (zstd_compress (RefLib.b (dumped file_list_reply)))
                 < 2 ^ 32) by (vm_compute; reflexivity).
  destruct (T4 Hty Hnz Hfit) as (Topen & _).
  destruct (T5 Hty Hnz Hfit) as (_ & Tdown).
  split; [exact Hbad |]. split; [exact Hd |].
  split; [exists w'; split; assumption |]. split.
  { apply T3. vm_compute. reflexivity. }
  split.
  - apply Topen. vm_compute. reflexivity.
  - destruct Tdown as (st' & Hrun & Hwr & _); [vm_compute; reflexivity |].
    exists st'. split; [exact Hrun |]. rewrite Hwr. vm_compute. reflexivity.
Defined.

Lemma malformed_payload_raises_library_error_witness :
  (exists w',
     Utils._read_message_body on_message (world (bytewise (frame "{")))
     = (Raise JSONDecodeError, w')
     /\ Utils.trace w' = [])
  /\ (exists st',
        Server._read_message 0%nat
          (feeding 0 (bytewise (frame "{")) (server ∅))
        = (Raise ZstdError, st'))
  /\ (exists w',
        Utils._read_message_body on_message (world (bytewise (frame "{}")))
        = Utils.invoke (Utils.Processed (PDict [])) (on_message (PDict []))
            w')
  /\ (exists st',
        Server._read_message 0%nat
          (feeding 0
             [header_of (compressed "{}") ++ compressed "{}"] (server ∅))
        = (Raise (KeyError "type"), st'))
  /\ (exists st',
        Server._read_message 0%nat
          (feeding 0
             [header_of (compressed "[5]") ++ compressed "[5]"] (server ∅))
        = (Raise IndexError, st')).
Proof.
  split; [| split; [| split; [| split]]].
  - destruct (@Failures.malformed_payload_raises_library_error lib unit
                on_message (world (bytewise (frame "{"))) (server ∅) 0%nat
                (header_of (RefLib.b "{")) (RefLib.b "{") [])
      as (T & _); [reflexivity | vm_compute; reflexivity |].
    destruct T as (T & _); [vm_compute; reflexivity |].
    destruct (T JSONDecodeError) as (w' & Hrun & Htrace & _).
    { right. exists "{"%string. split; vm_compute; reflexivity. }
    exists w'. split; [exact Hrun | exact Htrace].
  - destruct (@Failures.malformed_payload_raises_library_error lib unit
                on_message (world [])
                (feeding 0 (bytewise (frame "{")) (server ∅)) 0%nat
                (header_of (RefLib.b "{")) (RefLib.b "{") [])
      as (_ & T); [reflexivity | vm_compute; reflexivity |].
    destruct T as (T & _); [vm_compute; reflexivity |].
    destruct (T ZstdError) as (st' & Hrun & _).
    { left. vm_compute. reflexivity. }
    exists st'. exact Hrun.
  - destruct (@Failures.malformed_payload_raises_library_error lib unit
                on_message (world (bytewise (frame "{}"))) (server ∅) 0%nat
                (header_of (RefLib.b "{}")) (RefLib.b "{}") [])
      as (T & _); [reflexivity | vm_compute; reflexivity |].
    destruct T as (_ & T); [vm_compute; reflexivity |].
    destruct (T "{}"%string (PDict [])) as (w' & Hrun & _);
      [vm_compute; reflexivity | vm_compute; reflexivity |].
    exists w'. exact Hrun.
  - destruct (@Failures.malformed_payload_raises_library_error lib unit
                on_message (world [])
                (feeding 0
                   [header_of (compressed "{}") ++ compressed "{}"]
                   (server ∅)) 0%nat
                (header_of (compressed "{}")) (compressed "{}") [])
      as (_ & T); [reflexivity | vm_compute; reflexivity |].
    destruct T as (_ & T); [vm_compute; reflexivity |].
    destruct (T (RefLib.b "{}") "{}"%string (PDict []))
      as (e & st' & Hrun & _ & He);
      [vm_compute; reflexivity | vm_compute; reflexivity
      | vm_compute; reflexivity | |].
    { intros (d & ty & Hd & Hty & _). injection Hd as <-. discriminate. }
    cbn in He. subst e. exists st'. exact Hrun.
  - destruct (@Failures.malformed_payload_raises_library_error lib unit
                on_message (world [])
                (feeding 0
                   [header_of (compressed "[5]") ++ compressed "[5]"]
                   (server ∅)) 0%nat
                (header_of (compressed "[5]")) (compressed "[5]") [])
      as (_ & T); [reflexivity | vm_compute; reflexivity |].
    destruct T as (_ & T); [vm_compute; reflexivity |].
    destruct (T (RefLib.b "[5]") "[5]"%string (PList [PInt 5]))
      as (e & st' & Hrun & _ & He);
      [vm_compute; reflexivity | vm_compute; reflexivity
      | vm_compute; reflexivity | |].
    { intros (d & ty & Hd & _). discriminate. }
    assert (Hidx : e = IndexError).
    { destruct He as [-> | ->]; [| reflexivity].
      vm_compute in Hrun. discriminate. }
    subst e. exists st'. exact Hrun.
Defined.

Lemma stop_raises_AttributeError_witness :
  Server._writers (server {[1%nat; 2%nat]}) <> ∅
  /\ exists st',
       Server.stop (server {[1%nat; 2%nat]})
       = (Raise (AttributeError "wait_close"), st')
       /\ Server._writers st' = {[1%nat; 2%nat]}.
Proof.
  assert (Hne : Server._writers (server {[1%nat; 2%nat]}) <> ∅).
  { cbn. intros Heq.
    assert (Hin : 1%nat ∈ ({[1%nat; 2%nat]} : gset nat))
      by (apply elem_of_union; left; apply elem_of_singleton; reflexivity).
    rewrite Heq in Hin. apply elem_of_empty in Hin. exact Hin. }
  destruct (Registry.stop_raises_AttributeError _ Hne)
    as (writer & st' & Hrun & _ & Hreg & _).
  split; [exact Hne |]. exists st'. split; [exact Hrun | exact Hreg].
Defined.

Lemma registry_add_then_remove_witness :
  (1%nat ∈ Server._writers (server {[1%nat]}))
  /\ (2%nat ∉ Server._writers (server {[1%nat]}))
  /\ Server.writers_remove 1%nat (server {[1%nat]})
     = (Ok tt, Server.set_writers ({[1%nat]} ∖ {[1%nat]}) (server {[1%nat]}))
  /\ Server.writers_remove 2%nat (server {[1%nat]})
     = (Raise (KeyError "writer"), server {[1%nat]})
  /\ exists st',
       Server.__new_connection (fun _ _ => ret tt) 0%nat 2%nat
         (server {[1%nat]}) = (Ok tt, st')
       /\ (2%nat ∉ Server._writers st').
Proof.
  assert (H1 : 1%nat ∈ Server._writers (server {[1%nat]})).
  { change (1%nat ∈ ({[1%nat]} : gset nat)).
    apply elem_of_singleton. reflexivity. }
  assert (H2 : 2%nat ∉ Server._writers (server {[1%nat]})).
  { change (2%nat ∉ ({[1%nat]} : gset nat)).
    intros Hin. apply elem_of_singleton in Hin. discriminate. }
  destruct (Registry.registry_add_then_remove (fun _ _ => ret tt)
              0%nat 1%nat (server {[1%nat]}) (server ∅)) as (T1 & _).
  destruct (Registry.registry_add_then_remove (fun _ _ => ret tt)
              0%nat 2%nat (server {[1%nat]})
              (Server.set_writers ({[2%nat]} ∪ {[1%nat]}) (server {[1%nat]})))
    as (_ & T2 & T3 & T4).
  destruct (T4 eq_refl T3) as (st' & Hrun & _ & Hnot).
  split; [exact H1 |]. split; [exact H2 |]. split; [exact (T1 H1) |].
  split; [exact (T2 H2) |].
  exists st'. split; [exact Hrun | exact Hnot].
Defined.

(** The file-list scenario on the threaded server: the client sends
    [{'type': REQUEST_FILE_LIST}], the server's hook answers, and the client,
    reading the answer byte by byte, decodes exactly
    [{'type': REPLY_FILE_LIST, 'files': []}]. *)
Example file_list_scenario :
  let server_end :=
    (Utils._read_message_body answer
       (world [sent_frame file_list_request])).2 in
  let answer_bytes := Utils.sock_out (Utils.client server_end) in
  Utils.trace server_end = [Utils.Processed file_list_request]
  /\ Utils.trace
       (Utils._read_message_body on_message
          (world (bytewise answer_bytes))).2
     = [Utils.Processed file_list_reply].
Proof. split; vm_compute; reflexivity. Qed.

(** *** Where the code departs from the specification *)


(** C4.  In the threaded server a payload without ['type'] is decoded and
    handed to [_process_message]; and on a payload that is not JSON the
    handler ends with [JSONDecodeError] without calling
    [_client_closed]. *)
Lemma malformed_payload_counterexample :
  Utils._read_message_body on_message (world [frame "{}"])
  = (Ok tt,
     {| Utils.client := Utils.client (world []);
        Utils.log := [LogRec INFO "Message {} from {}"
                        [ArgVal (PDict []); ArgPeer "10.0.0.2" 40000]];
        Utils.trace := [Utils.Processed (PDict [])];
        Utils.user := tt |})
  /\ Utils._read_message on_message on_closed (world [frame "{"])
     = Some (Raise JSONDecodeError, world []).
Proof. split; vm_compute; reflexivity. Qed.

(** C7.  Removing a connection that is not registered raises [KeyError];
    and when [_process_connection] raises, as the base class's does, the
    connection stays registered. *)
Lemma unregister_absent_counterexample :
  Server.writers_remove 1%nat (server ∅)
  = (Raise (KeyError "writer"), server ∅)
  /\ Server.__new_connection Server._process_connection 0%nat 1%nat
       (server ∅)
     = (Raise NotImplementedError, server ({[1%nat]} ∪ ∅)).
Proof. split; reflexivity. Qed.

(** C8.  [{}] is JSON serializable, and the asyncio [_write_message]
    refuses it. *)
Lemma encode_not_total_counterexample :
  json_dumps (PDict []) = Ok "{}"%string
  /\ Server._write_message (PDict []) 0%nat (server {[0%nat]})
     = (Raise (KeyError "type"), server {[0%nat]}).
Proof. split; vm_compute; reflexivity. Qed.

(** C9.  The threaded server logs the whole message, ['data'] included
    and ['type'] as it is, when it writes and when it reads. *)
Lemma threaded_log_keeps_data_counterexample :
  Utils.log (Utils._write_message chunk_reply (world [])).2
  = [LogRec INFO "Writing {} to {}"
       [ArgVal chunk_reply; ArgPeer "10.0.0.2" 40000]]
  /\ Utils.log
       (Utils._read_message_body on_message
          (world [sent_frame chunk_reply])).2
     = [LogRec INFO "Message {} from {}"
          [ArgVal chunk_reply; ArgPeer "10.0.0.2" 40000]]
  /\ (exists d, chunk_reply = PDict d
                /\ dict_get "data" d = Some (PStr "abc")
                /\ dict_get "type" d = Some (PInt 13)).
Proof.
  split; [vm_compute; reflexivity |]. split; [vm_compute; reflexivity |].
  eexists. split; [reflexivity |]. split; reflexivity.
Qed.

End Checks.

(** * Further properties of the code *)

(** ** The header and the message kinds *)

Module Kinds.
Import Spec Struct StructFacts.

Lemma Z_of_byte_inj b1 b2 : Z_of_byte b1 = Z_of_byte b2 -> b1 = b2.
Proof.
  intros Heq. rewrite <- (byte_of_Z_of_byte b1), <- (byte_of_Z_of_byte b2).
  rewrite Heq. reflexivity.
Qed.

Lemma be_value_inj b1 b2 :
  length b1 = 4%nat -> length b2 = 4%nat ->
  be_value b1 = be_value b2 -> b1 = b2.
Proof.
  destruct b1 as [| x3 [| x2 [| x1 [| x0 [| ? ?]]]]]; try discriminate.
  destruct b2 as [| y3 [| y2 [| y1 [| y0 [| ? ?]]]]]; try discriminate.
  intros _ _. unfold be_value. simpl.
  pose proof (Z_of_byte_range x3). pose proof (Z_of_byte_range x2).
  pose proof (Z_of_byte_range x1). pose proof (Z_of_byte_range x0).
  pose proof (Z_of_byte_range y3). pose proof (Z_of_byte_range y2).
  pose proof (Z_of_byte_range y1). pose proof (Z_of_byte_range y0).
  intros Heq.
  assert (Z_of_byte x0 = Z_of_byte y0) by lia.
  assert (Z_of_byte x1 = Z_of_byte y1) by lia.
  assert (Z_of_byte x2 = Z_of_byte y2) by lia.
  assert (Z_of_byte x3 = Z_of_byte y3) by lia.
  repeat f_equal; apply Z_of_byte_inj; assumption.
Qed.

Lemma be_value_range b : length b = 4%nat -> 0 <= be_value b < 2 ^ 32.
Proof.
  destruct b as [| x3 [| x2 [| x1 [| x0 [| ? ?]]]]]; try discriminate.
  intros _. unfold be_value. simpl.
  pose proof (Z_of_byte_range x3). pose proof (Z_of_byte_range x2).
  pose proof (Z_of_byte_range x1). pose proof (Z_of_byte_range x0).
  change (2 ^ 32) with 4294967296. lia.
Qed.

(** X1.  The header codec is a bijection between the strings of four bytes
    and the numbers from 0 to 2^32 - 1: every four bytes unpack to a
    length in that range that packs to the same bytes, every number of the
    range packs to four bytes that unpack to it, and outside of these
    [struct.error] is raised.  So the length that [_read_message] asks
    [_recvall] or [readexactly] for is never negative. *)
Theorem header_codec_bijection (b : bytes) (n : Z) :
  (length b = 4%nat ->
     exists L, unpack_I b = Ok L /\ 0 <= L < 2 ^ 32 /\ pack_I L = Ok b)
  /\ (length b <> 4%nat -> unpack_I b = Raise StructError)
  /\ (0 <= n < 2 ^ 32 ->
        exists header, pack_I n = Ok header /\ length header = 4%nat
                       /\ unpack_I header = Ok n)
  /\ (~ 0 <= n < 2 ^ 32 -> pack_I n = Raise StructError).
Proof.
  split; [| split; [| split]].
  - intros Hb. exists (be_value b).
    split; [apply unpack_I_be_value, Hb |].
    pose proof (be_value_range b Hb) as Hr. split; [exact Hr |].
    destruct (pack_I (be_value b)) as [header | e] eqn:Hp.
    + f_equal. apply be_value_inj; [eapply pack_I_length; eauto | exact Hb |].
      eapply pack_I_be_value; eauto.
    + rewrite pack_I_ok in Hp by exact Hr. discriminate.
  - intros Hb. unfold unpack_I.
    destruct b as [| x3 [| x2 [| x1 [| x0 [| ? ?]]]]]; try reflexivity.
    contradiction Hb. reflexivity.
  - intros Hn. eexists. split; [apply pack_I_ok, Hn |].
    split; [reflexivity |]. eapply unpack_I_pack_I, pack_I_ok, Hn.
  - apply pack_I_error.
Qed.

Lemma value_range kind : 1 <= MessageType_.value kind <= 13.
Proof. destruct kind; simpl; lia. Qed.

Lemma value_inj k1 k2 :
  MessageType_.value k1 = MessageType_.value k2 -> k1 = k2.
Proof. destruct k1, k2; simpl; intros Heq; try reflexivity; discriminate. Qed.

Lemma value_surj z :
  1 <= z <= 13 -> exists kind, MessageType_.value kind = z.
Proof.
  intros Hz.
  assert (Hcases : z = 1 \/ z = 2 \/ z = 3 \/ z = 4 \/ z = 5 \/ z = 6
                   \/ z = 7 \/ z = 8 \/ z = 9 \/ z = 10 \/ z = 11
                   \/ z = 12 \/ z = 13) by lia.
  repeat destruct Hcases as [-> | Hcases]; [.. | subst z].
  - exists REQUEST_REGISTER. reflexivity.
  - exists REQUEST_PUBLISH. reflexivity.
  - exists REQUEST_FILE_LIST. reflexivity.
  - exists REQUEST_FILE_LOCATION. reflexivity.
  - exists REQUEST_CHUNK_REGISTER. reflexivity.
  - exists REQUEST_LEAVE. reflexivity.
  - exists REPLY_REGISTER. reflexivity.
  - exists REPLY_FILE_LIST. reflexivity.
  - exists REPLY_PUBLISH. reflexivity.
  - exists REPLY_FILE_LOCATION. reflexivity.
  - exists REPLY_LEAVE. reflexivity.
  - exists PEER_REQUEST_CHUNK. reflexivity.
  - exists PEER_REPLY_CHUNK. reflexivity.
Qed.

(** The member found for a value is the one with that value. *)
Lemma call_value v kind :
  MessageType_.call v = Ok kind <->
  MessageType_.eq_int v (MessageType_.value kind) = true.
Proof.
  split.
  - unfold MessageType_.call.
    destruct (List.find _ MessageType_.members) as [k |] eqn:Hf;
      [| discriminate].
    intros [= <-]. apply List.find_some in Hf as [_ Hf]. exact Hf.
  - intros Heq.
    destruct (LogFacts.call_recognized v) as (k & Hcall & Hk).
    { exists kind. exact Heq. }
    rewrite Hcall. f_equal. apply value_inj.
    destruct v as [| [] | z | | | |];
      cbn [MessageType_.eq_int] in Heq, Hk; try discriminate;
      apply Z.eqb_eq in Heq, Hk; congruence.
Qed.

(** A value equal to no member's is refused. *)
Lemma call_no_member v :
  (forall kind, MessageType_.eq_int v (MessageType_.value kind) = false) ->
  MessageType_.call v = Raise ValueError.
Proof.
  intros Hno. apply LogFacts.call_unrecognized. intros [kind Hk].
  rewrite Hno in Hk. discriminate.
Qed.

(** X2.  [MessageType(v)] on the values of the model (there are no
    floats among them).  Every member is found again from its own value,
    and no two members share a value or a name.  For an int [n] the lookup
    returns the member whose value is [n], which exists exactly for [n]
    from 1 to 13, and raises [ValueError] for every other int.  [True],
    which equals 1, gives [REQUEST_REGISTER]; [False], [None], a string,
    bytes, a list and a dict raise [ValueError]. *)
Theorem message_type_lookup (kind : MessageType) (n : Z) :
  MessageType_.call (PInt (MessageType_.value kind)) = Ok kind
  /\ (forall kind', MessageType_.value kind = MessageType_.value kind' ->
                    kind = kind')
  /\ (forall kind', MessageType_.name kind = MessageType_.name kind' ->
                    kind = kind')
  /\ (MessageType_.call (PInt n) = Ok kind <-> n = MessageType_.value kind)
  /\ ((exists kind', MessageType_.call (PInt n) = Ok kind') <->
      1 <= n <= 13)
  /\ (~ 1 <= n <= 13 -> MessageType_.call (PInt n) = Raise ValueError)
  /\ MessageType_.call (PBool true) = Ok REQUEST_REGISTER
  /\ MessageType_.call (PBool false) = Raise ValueError
  /\ MessageType_.call PNone = Raise ValueError
  /\ (forall s, MessageType_.call (PStr s) = Raise ValueError)
  /\ (forall b, MessageType_.call (PBytes b) = Raise ValueError)
  /\ (forall l, MessageType_.call (PList l) = Raise ValueError)
  /\ (forall d, MessageType_.call (PDict d) = Raise ValueError).
Proof.
  assert (Hint : forall z k, MessageType_.call (PInt z) = Ok k
                             <-> z = MessageType_.value k).
  { intros z k. rewrite call_value. cbn [MessageType_.eq_int].
    apply Z.eqb_eq. }
  split; [apply Hint; reflexivity |].
  split; [apply value_inj |].
  split.
  { intros kind'. destruct kind, kind'; simpl; intros Heq;
      try reflexivity; discriminate. }
  split; [apply Hint |].
  split.
  { split.
    - intros [kind' Hcall]. apply Hint in Hcall. subst n.
      apply value_range.
    - intros Hn. destruct (value_surj n Hn) as [kind' Hv].
      exists kind'. apply Hint. symmetry. exact Hv. }
  split.
  { intros Hn. apply call_no_member. intros kind'.
    cbn [MessageType_.eq_int]. apply Z.eqb_neq. intros ->.
    apply Hn, value_range. }
  split; [reflexivity |].
  split; [reflexivity |].
  split; [reflexivity |].
  repeat split; intros; reflexivity.
Qed.

End Kinds.

(** ** What gets through [__message_log], and what it gives *)

Module Projection.
Import Spec Protocol Server LogFacts.

Lemma keys_app (d1 d2 : pydict) :
  dict_keys (d1 ++ d2) = dict_keys d1 ++ dict_keys d2.
Proof. unfold dict_keys. apply map_app. Qed.

Lemma key_of_entry k v (d : pydict) : (k, v) ∈ d -> k ∈ dict_keys d.
Proof.
  induction d as [| [k0 v0] d IH]; intros Hin.
  - apply elem_of_nil in Hin. contradiction.
  - apply elem_of_cons in Hin as [[= -> ->] | Hin]; simpl.
    + left.
    + right. apply IH, Hin.
Qed.

Lemma dict_get_entry k v d : dict_get k d = Some v -> (k, v) ∈ d.
Proof.
  induction d as [| [k0 v0] d IH]; simpl; [discriminate |].
  destruct (String.eqb_spec k k0) as [-> | Hne].
  - intros [= ->]. left.
  - intros Hget. right. apply IH, Hget.
Qed.

(** In a dict every key has one entry. *)
Lemma dict_get_nodup d k v :
  NoDup (dict_keys d) -> (k, v) ∈ d -> dict_get k d = Some v.
Proof.
  induction d as [| [k0 v0] d IH]; intros Hnd Hin.
  - apply elem_of_nil in Hin. contradiction.
  - simpl in Hnd. apply NoDup_cons in Hnd as [Hfresh Hnd].
    apply elem_of_cons in Hin as [[= -> ->] | Hin]; simpl.
    + rewrite String.eqb_refl. reflexivity.
    + destruct (String.eqb_spec k k0) as [-> | Hne].
      * exfalso. apply Hfresh. eapply key_of_entry, Hin.
      * apply IH; assumption.
Qed.

(** Setting a new key appends the entry. *)
Lemma dict_set_fresh k v d :
  k ∉ dict_keys d -> dict_set k v d = d ++ [(k, v)].
Proof.
  induction d as [| [k0 v0] d IH]; intros Hfresh; [reflexivity |].
  simpl in *. destruct (String.eqb_spec k k0) as [-> | Hne].
  - exfalso. apply Hfresh. left.
  - f_equal. apply IH. intros Hin. apply Hfresh. right. exact Hin.
Qed.

(** Setting a key of the dict changes its entry in place. *)
Lemma dict_set_present k v d :
  NoDup (dict_keys d) -> k ∈ dict_keys d ->
  dict_set k v d
  = map (fun kv => if String.eqb (fst kv) k then (fst kv, v) else kv) d.
Proof.
  induction d as [| [k0 v0] d IH]; intros Hnd Hin.
  - apply elem_of_nil in Hin. contradiction.
  - simpl in Hnd, Hin. apply NoDup_cons in Hnd as [Hfresh Hnd]. simpl.
    destruct (String.eqb_spec k k0) as [-> | Hne].
    + rewrite String.eqb_refl. f_equal.
      clear IH Hin Hnd. induction d as [| [k1 v1] d IH]; [reflexivity |].
      simpl in *. destruct (String.eqb_spec k1 k0) as [-> | Hne].
      * exfalso. apply Hfresh. left.
      * f_equal. apply IH. intros Hin. apply Hfresh. right. exact Hin.
    + destruct (String.eqb_spec k0 k) as [-> | _]; [contradiction |].
      f_equal. apply IH; [exact Hnd |].
      apply elem_of_cons in Hin as [-> | Hin]; [contradiction | exact Hin].
Qed.

Lemma keys_filter_subset (P : string * pyval -> Prop)
    `{forall kv, Decision (P kv)} (d : pydict) k :
  k ∈ dict_keys (filter P d) -> k ∈ dict_keys d.
Proof.
  induction d as [| kv d IH]; [intros Hin; exact Hin |].
  destruct (decide (P kv)) as [Hp | Hp].
  - rewrite filter_cons_True by exact Hp. simpl.
    intros [-> | Hin]%elem_of_cons; [left | right; apply IH, Hin].
  - rewrite filter_cons_False by exact Hp. simpl.
    intros Hin. right. apply IH, Hin.
Qed.

Lemma keys_filter_nodup (P : string * pyval -> Prop)
    `{forall kv, Decision (P kv)} (d : pydict) :
  NoDup (dict_keys d) -> NoDup (dict_keys (filter P d)).
Proof.
  induction d as [| kv d IH]; intros Hnd; [exact Hnd |].
  simpl in Hnd. apply NoDup_cons in Hnd as [Hfresh Hnd].
  destruct (decide (P kv)) as [Hp | Hp].
  - rewrite filter_cons_True by exact Hp. simpl. apply NoDup_cons.
    split; [| apply IH, Hnd].
    intros Hin. apply Hfresh. eapply keys_filter_subset, Hin.
  - rewrite filter_cons_False by exact Hp. apply IH, Hnd.
Qed.

(** The comprehension over the entries of a dict, in their order. *)
Lemma comprehension_in_order message (es acc : pydict) :
  NoDup (dict_keys acc ++ dict_keys es) ->
  (forall k v, (k, v) ∈ es -> dict_get k message = Some v) ->
  foldl (step message) (Ok acc) (dict_keys es)
  = Ok (acc ++ filter (fun kv => fst kv <> "data") es).
Proof.
  revert acc. induction es as [| [k v] es IH]; intros acc Hnd Hget.
  - simpl. rewrite app_nil_r. reflexivity.
  - simpl dict_keys in *. cbn [foldl]. unfold step at 2. cbn [res_bind].
    apply NoDup_app in Hnd as (Hacc & Hdisj & Hes).
    apply NoDup_cons in Hes as [Hk Hes].
    destruct (String.eqb_spec k "data") as [-> | Hdata].
    + rewrite filter_cons_False by (simpl; intros Hne; apply Hne; reflexivity).
      apply IH.
      * apply NoDup_app. split; [exact Hacc |]. split; [| exact Hes].
        intros x Hx Hin. apply (Hdisj x Hx). right. exact Hin.
      * intros k' v' Hin. apply Hget. right. exact Hin.
    + rewrite (Hget k v) by left.
      rewrite dict_set_fresh.
      2:{ intros Hin. apply (Hdisj k Hin). left. }
      rewrite filter_cons_True by exact Hdata.
      rewrite IH.
      * rewrite <- app_assoc. reflexivity.
      * rewrite keys_app. simpl. apply NoDup_app.
        split; [| split; [| exact Hes]].
        -- apply NoDup_app. split; [exact Hacc |]. split.
           ++ intros x Hx Hin. apply list_elem_of_singleton in Hin as ->.
              apply (Hdisj k Hx). left.
           ++ apply NoDup_singleton.
        -- intros x Hx Hin. apply elem_of_app in Hx as [Hx | Hx].
           ++ apply (Hdisj x Hx). right. exact Hin.
           ++ apply list_elem_of_singleton in Hx as ->. contradiction.
      * intros k' v' Hin. apply Hget. right. exact Hin.
Qed.

(** X4.  For a dict message with a recognized ['type'], [__message_log]
    returns the entries of the message in their order, without the
    ['data'] entry and with the name of the kind as the value of
    ['type']. *)
Theorem message_log_keeps_order (d : pydict) (ty : pyval)
    (kind : MessageType) :
  NoDup (dict_keys d) ->
  dict_get "type" d = Some ty ->
  MessageType_.call ty = Ok kind ->
  __message_log (PDict d) = Ok (projection kind d).
Proof.
  intros Hnd Hty Hcall. unfold __message_log, dict_comprehension.
  change (foldl _ (Ok []) (dict_keys d))
    with (foldl (step d) (Ok []) (dict_keys d)).
  rewrite (comprehension_in_order d d []).
  - cbn [res_bind app]. rewrite Hty, Hcall. cbn [res_bind]. f_equal.
    unfold projection. apply dict_set_present.
    + apply keys_filter_nodup, Hnd.
    + apply (key_of_entry "type" ty). apply list_elem_of_filter.
      split; [discriminate | apply dict_get_entry, Hty].
  - exact Hnd.
  - intros k v Hin. apply dict_get_nodup; assumption.
Qed.

(** X3.  [__message_log] returns exactly for the mappings with a
    recognized ['type']; so these are the only messages that the asyncio
    [_read_message] returns and the only ones that the asyncio
    [_write_message] sends. *)
Theorem message_log_accepts_typed_mappings `{PyLib}
    (msg : pyval) (reader writer : nat) (st st' : State) :
  ((exists log_message, __message_log msg = Ok log_message) <-> typed msg)
  /\ (_read_message reader st = (Ok msg, st') -> typed msg)
  /\ (_write_message msg writer st = (Ok tt, st') -> typed msg).
Proof.
  assert (Hiff : (exists lm, __message_log msg = Ok lm) <-> typed msg).
  { split.
    - intros [lm Hlog].
      destruct msg as [| | | | | | d];
        try (match type of Hlog with
             | __message_log ?m = _ =>
                 destruct (message_log_not_dict m) as [e He];
                 [intros d0; discriminate
                 | rewrite He in Hlog; discriminate]
             end).
      destruct (dict_get "type" d) as [ty |] eqn:Hty.
      + exists d, ty. split; [reflexivity |]. split; [exact Hty |].
        destruct (MessageType_.call ty) as [kind | e] eqn:Hcall.
        * exists kind. apply Kinds.call_value, Hcall.
        * exfalso. unfold __message_log in Hlog.
          destruct (dict_comprehension_spec d) as (lm0 & Hrun & _).
          rewrite Hrun in Hlog. cbn [res_bind] in Hlog.
          rewrite Hty, Hcall in Hlog. discriminate.
      + rewrite (message_log_no_type d Hty) in Hlog. discriminate.
    - intros (d & ty & -> & Hty & Hrec).
      destruct (message_log_dict d ty Hty Hrec) as (kind & lm & _ & Hlog & _).
      exists lm. exact Hlog. }
  split; [exact Hiff |]. split.
  - intros Hr. apply Hiff.
    destruct (Logging.read_message_inv _ _ _ _ Hr) as (lm & Hlog & _).
    exists lm. exact Hlog.
  - intros Hw. apply Hiff.
    destruct (AsyncFrames.async_write_message_inv _ _ _ _ Hw)
      as (lm & _ & _ & _ & Hlog & _).
    exists lm. exact Hlog.
Qed.

End Projection.

(** ** Whole runs of the threaded handler *)

Module HandlerRuns.
Import Spec Protocol Socket Utils SocketFacts RecvallFacts StructFacts Frames.

Section Runs.
Context `{PyLib} {U : Type}.
Variable _client_connected : M (World U) unit.
Variable _process_message : pyval -> M (World U) unit.
Variable _client_closed : M (World U) unit.

Abbreviation body := (_read_message_body _process_message).
Abbreviation loop := (_read_message_loop _process_message).
Abbreviation handler := (_read_message _process_message _client_closed).

(** A hook call records the call and leaves the receiving side alone. *)
Lemma invoke_spec ev (hook : M (World U) unit) (w : World U) :
  exists w',
    invoke ev hook w = ((hook (set_sock_in [] w)).1, w')
    /\ sock_in (client w') = sock_in (client w)
    /\ trace w' = trace w ++ [ev].
Proof.
  unfold invoke. destruct (hook (set_sock_in [] w)) as [r wh].
  eexists. split; [reflexivity |]. split; reflexivity.
Qed.

(** The pass over the frame of a message that decodes. *)
Lemma body_message (w : World U) payload rest text m :
  len payload < 2 ^ 32 ->
  contents (sock_in (client w)) = frame_of payload ++ rest ->
  bytes_decode_utf8 payload = Ok text ->
  json_loads text = Ok m ->
  exists w1 w2,
    body w = ((_process_message m (set_sock_in [] w1)).1, w2)
    /\ trace w1 = trace w
    /\ contents (sock_in (client w2)) = rest
    /\ trace w2 = trace w ++ [Processed m].
Proof.
  intros Hfit Hc Hdec Hloads. unfold frame_of in Hc.
  pose proof (len_nonneg payload) as Hlen.
  rewrite pack_I_ok in Hc by lia. rewrite <- app_assoc in Hc.
  destruct (body_frame _process_message w _ payload rest Hc)
    as (s & Hrest & Hbody); [reflexivity | |].
  { eapply unpack_I_pack_I, pack_I_ok. lia. }
  rewrite Hbody. unfold threaded_after_payload.
  unfold bind at 1. unfold lift at 1. rewrite Hdec.
  unfold bind at 1. unfold lift at 1. rewrite Hloads.
  unfold bind, getpeername, gets, emit, modify. cbn [fst snd].
  match goal with
  | |- context [invoke ?ev ?hook ?w0] =>
      destruct (invoke_spec ev hook w0) as (w2 & Hinv & Hin & Htr);
      exists w0, w2
  end.
  rewrite Hinv. split; [reflexivity |]. split; [reflexivity |].
  split; [rewrite Hin; exact Hrest | exact Htr].
Qed.

(** What a pass adds to the record of the calls: at most one
    [_process_message], and one when the pass does not raise. *)
Lemma body_trace (w : World U) :
  (trace (body w).2 = trace w /\ (body w).1 <> Ok tt)
  \/ exists m, trace (body w).2 = trace w ++ [Processed m].
Proof.
  remember (body w) as outcome eqn:Hb. revert Hb.
  unfold _read_message_body.
  unfold bind at 1. unfold recvall at 1.
  destruct (_recvall (sock_in (client w)) 4) as [[hdr | e] s];
    [| intros ->; left; split; [reflexivity | discriminate]].
  unfold bind at 1. unfold lift at 1.
  destruct (Struct.unpack_I hdr) as [msglen | e];
    [| intros ->; left; split; [reflexivity | discriminate]].
  unfold bind at 1. unfold recvall at 1.
  destruct (_recvall _ msglen) as [[raw | e] s2];
    [| intros ->; left; split; [reflexivity | discriminate]].
  unfold bind at 1. unfold lift at 1.
  destruct (bytes_decode_utf8 raw) as [text | e];
    [| intros ->; left; split; [reflexivity | discriminate]].
  unfold bind at 1. unfold lift at 1.
  destruct (json_loads text) as [msg | e];
    [| intros ->; left; split; [reflexivity | discriminate]].
  unfold bind, getpeername, gets, emit, modify. cbn [fst snd].
  match goal with
  | |- context [invoke ?ev ?hook ?w0] =>
      destruct (invoke_spec ev hook w0) as (w2 & Hinv & _ & Htr)
  end.
  rewrite Hinv. intros ->. right. exists msg. exact Htr.
Qed.

Lemma loop_trace fuel (w : World U) e w' :
  loop fuel w = Some (e, w') ->
  exists ms, trace w' = trace w ++ processed ms.
Proof.
  revert w. induction fuel as [| fuel IH]; intros w; [discriminate |].
  simpl. destruct (body_trace w) as [[Htr Hr] | [m Htr]];
    destruct (body w) as [[[] | e0] w1]; cbn [fst snd] in *.
  - contradiction.
  - intros [= <- <-]. exists []. rewrite app_nil_r. exact Htr.
  - intros Hrun. destruct (IH _ Hrun) as [ms Hms].
    exists (m :: ms). rewrite Hms, Htr, <- app_assoc. reflexivity.
  - intros [= <- <-]. exists [m]. exact Htr.
Qed.

(** The frames of the messages, one after the other, and then the close:
    the loop hands on every message, in order, and ends by [EOFError]. *)
Lemma loop_in_order (items : list (bytes * pyval)) :
  forall (w : World U) fuel,
    (length (contents (sock_in (client w))) < fuel)%nat ->
    (forall payload m, (payload, m) ∈ items ->
       len payload < 2 ^ 32
       /\ exists text, bytes_decode_utf8 payload = Ok text
                       /\ json_loads text = Ok m) ->
    (forall m w0, (_process_message m w0).1 = Ok tt) ->
    contents (sock_in (client w))
    = concat (map (fun it => frame_of (fst it)) items) ->
    exists w',
      loop fuel w = Some (eof, w')
      /\ trace w' = trace w ++ processed (map snd items).
Proof.
  induction items as [| [payload m] items IH];
    intros w fuel Hfuel Hitems Hhook Hc;
    (destruct fuel as [| fuel]; [lia |]); cbn [_read_message_loop].
  - rewrite Truncation.body_truncated.
    2:{ left. rewrite Hc. simpl. unfold len. simpl. lia. }
    eexists. split; [reflexivity |]. simpl. rewrite app_nil_r. reflexivity.
  - simpl in Hc.
    destruct (Hitems payload m) as (Hfit & text & Hdec & Hloads); [left |].
    destruct (body_message w payload _ text m Hfit Hc Hdec Hloads)
      as (w1 & w2 & Hbody & _ & Hrest & Htr).
    rewrite Hbody, Hhook.
    destruct (IH w2 fuel) as (w' & Hrun & Htr').
    + rewrite Hrest. rewrite Hc, length_app in Hfuel.
      assert (Hframe : (4 <= length (frame_of payload))%nat).
      { unfold frame_of.
        rewrite pack_I_ok by (pose proof (len_nonneg payload); lia).
        simpl. lia. }
      lia.
    + intros p' m' Hin. apply Hitems. right. exact Hin.
    + exact Hhook.
    + exact Hrest.
    + exists w'. split; [exact Hrun |].
      rewrite Htr', Htr, <- app_assoc. reflexivity.
Qed.

End Runs.

(** X5.  Messages on one connection are handed on in the order received.
    When the peer sends the frames of messages [m1 ... mk], cut into
    segments in any way, and then closes, and [_process_message] does not
    raise, the handler calls [_process_message] with [m1], ..., [mk] in
    that order, then [_client_closed] once, and ends. *)
Theorem messages_processed_in_order `{PyLib} {U : Type}
    (_process_message : pyval -> M (World U) unit)
    (_client_closed : M (World U) unit)
    (items : list (bytes * pyval)) (w : World U) :
  (forall payload m, (payload, m) ∈ items ->
     len payload < 2 ^ 32
     /\ exists text, bytes_decode_utf8 payload = Ok text
                     /\ json_loads text = Ok m) ->
  (forall m w0, (_process_message m w0).1 = Ok tt) ->
  contents (sock_in (client w))
  = concat (map (fun it => frame_of (fst it)) items) ->
  exists r w',
    _read_message _process_message _client_closed w = Some (r, w')
    /\ trace w' = trace w ++ processed (map snd items) ++ [Closed].
Proof.
  intros Hitems Hhook Hc. unfold _read_message.
  destruct (loop_in_order _process_message items w
              (S (length (contents (sock_in (client w)))))
              ltac:(lia) Hitems Hhook Hc) as (w' & -> & Htr).
  cbn [is_EOFError eof].
  unfold _read_message_except, bind, getpeername, gets, emit, modify.
  cbn [fst snd].
  match goal with
  | |- context [invoke ?ev ?hook ?w0] =>
      destruct (invoke_spec ev hook w0) as (w2 & Hinv & _ & Htr2)
  end.
  rewrite Hinv. eexists _, w2. split; [reflexivity |].
  rewrite Htr2. cbn [trace]. rewrite Htr, <- app_assoc. reflexivity.
Qed.

(** X6.  For one accepted client the hooks are called in the order
    connect, messages, close: [_client_connected] once and first, then
    [_process_message] some number of times, then [_client_closed] at most
    once and last.  The run ends on every finite stream; it ends normally
    only through [_client_closed]; and when [_client_connected] raises, no
    other hook is called. *)
Theorem hooks_called_in_protocol_order `{PyLib} {U : Type}
    (_client_connected : M (World U) unit)
    (_process_message : pyval -> M (World U) unit)
    (_client_closed : M (World U) unit) (w : World U) :
  exists r w' ms tail,
    listen_pass _client_connected _process_message _client_closed w
    = Some (r, w')
    /\ trace w' = trace w ++ [Connected] ++ processed ms ++ tail
    /\ (tail = [] \/ tail = [Closed])
    /\ (r = Ok tt -> tail = [Closed])
    /\ ((_client_connected (set_sock_in [] w)).1 <> Ok tt ->
        ms = [] /\ tail = []).
Proof.
  unfold listen_pass.
  unfold bind at 1.
  destruct (invoke_spec Connected _client_connected w)
    as (w1 & Hinv & Hin & Htr).
  rewrite Hinv.
  destruct ((_client_connected (set_sock_in [] w)).1) as [[] | e] eqn:Hconn.
  - unfold bind, getpeername, gets, emit, modify. cbn [fst snd].
    match goal with
    | |- context [_read_message _ _ ?w0] => set (w2 := w0)
    end.
    assert (Htr2 : trace w2 = trace w ++ [Connected]) by exact Htr.
    clearbody w2. unfold _read_message.
    destruct (UtilsFacts.loop_terminates _process_message
                (S (length (contents (sock_in (client w2))))) w2)
      as (e & w3 & Hloop); [lia |].
    rewrite Hloop.
    destruct (loop_trace _process_message _ _ _ _ Hloop) as [ms Hms].
    destruct (is_EOFError e).
    + unfold _read_message_except, bind, getpeername, gets, emit, modify.
      cbn [fst snd].
      match goal with
      | |- context [invoke ?ev ?hook ?w0] =>
          destruct (invoke_spec ev hook w0) as (w4 & Hinv4 & _ & Htr4)
      end.
      rewrite Hinv4. eexists _, w4, ms, [Closed]. split; [reflexivity |].
      split.
      { rewrite Htr4. cbn [trace]. rewrite Hms, Htr2, <- !app_assoc.
        reflexivity. }
      split; [right; reflexivity |]. split; [reflexivity |].
      intros Hne. contradiction Hne. reflexivity.
    + exists (Raise e), w3, ms, []. split; [reflexivity |]. split.
      { rewrite Hms, Htr2, app_nil_r, <- !app_assoc. reflexivity. }
      split; [left; reflexivity |]. split; [discriminate |].
      intros Hne. contradiction Hne. reflexivity.
  - exists (Raise e), w1, [], []. split; [reflexivity |]. split.
    { rewrite Htr. reflexivity. }
    split; [left; reflexivity |]. split; [discriminate |].
    intros _. split; reflexivity.
Qed.

(** X7.  The [try] of [_read_message] covers the call of
    [_process_message].  When the hook raises on a message, no later frame
    is read: an [EOFError] from the hook is taken for the peer's close
    ([_client_closed] is called and the handler ends), and any other
    exception leaves the handler, with [_client_closed] not called. *)
Theorem hook_exception_ends_handler `{PyLib} {U : Type}
    (_process_message : pyval -> M (World U) unit)
    (_client_closed : M (World U) unit)
    (w : World U) (payload rest : bytes) (text : string) (m : pyval)
    (e : exn) :
  len payload < 2 ^ 32 ->
  contents (sock_in (client w)) = frame_of payload ++ rest ->
  bytes_decode_utf8 payload = Ok text ->
  json_loads text = Ok m ->
  (forall w0, (_process_message m w0).1 = Raise e) ->
  (is_EOFError e = true ->
     exists r w',
       _read_message _process_message _client_closed w = Some (r, w')
       /\ trace w' = trace w ++ [Processed m; Closed]
       /\ contents (sock_in (client w')) = rest)
  /\ (is_EOFError e = false ->
        exists w',
          _read_message _process_message _client_closed w
          = Some (Raise e, w')
          /\ trace w' = trace w ++ [Processed m]
          /\ contents (sock_in (client w')) = rest).
Proof.
  intros Hfit Hc Hdec Hloads Hhook.
  destruct (body_message _process_message w payload rest text m
              Hfit Hc Hdec Hloads) as (w1 & w2 & Hbody & _ & Hrest & Htr).
  rewrite Hhook in Hbody.
  split; intros He; unfold _read_message; cbn [_read_message_loop];
    rewrite Hbody, He.
  - unfold _read_message_except, bind, getpeername, gets, emit, modify.
    cbn [fst snd].
    match goal with
    | |- context [invoke ?ev ?hook ?w0] =>
        destruct (invoke_spec ev hook w0) as (w3 & Hinv & Hin & Htr3)
    end.
    rewrite Hinv. eexists _, w3. split; [reflexivity |]. split.
    + rewrite Htr3. cbn [trace]. rewrite Htr, <- app_assoc. reflexivity.
    + rewrite Hin. exact Hrest.
  - exists w2. split; [reflexivity |]. split; assumption.
Qed.

(** X13.  The whole run of the threaded handler, over all the frames of a
    stream and the close, does not depend on how the stream is cut into
    segments: it gives the same result, the same log, the same calls of
    the hooks and the same bytes sent as on the stream delivered in one
    piece. *)
Theorem handler_independent_of_segmentation `{PyLib} {U : Type}
    (_process_message : pyval -> M (World U) unit)
    (_client_closed : M (World U) unit)
    (sock : Socket.t) (w : World U) :
  match _read_message _process_message _client_closed (set_sock_in sock w),
        _read_message _process_message _client_closed
          (set_sock_in [contents sock] w) with
  | Some (r1, w1), Some (r2, w2) => r1 = r2 /\ same_world w1 w2
  | _, _ => False
  end.
Proof.
  assert (Hs : same_world (set_sock_in sock w)
                 (set_sock_in [contents sock] w)).
  { repeat split. simpl. unfold contents. simpl. symmetry. apply app_nil_r. }
  unfold _read_message.
  assert (Hlen : length (contents (sock_in (client (set_sock_in sock w))))
                 = length (contents (sock_in (client
                             (set_sock_in [contents sock] w))))).
  { destruct Hs as [-> _]. reflexivity. }
  rewrite <- Hlen.
  set (fuel := S (length (contents (sock_in (client (set_sock_in sock w)))))).
  pose proof (UtilsFacts.loop_segmentation _process_message fuel _ _ Hs)
    as Hloop.
  destruct (UtilsFacts.loop_terminates _process_message fuel
              (set_sock_in sock w)) as (e1 & v1 & H1); [unfold fuel; lia |].
  rewrite H1 in Hloop |- *.
  destruct (_read_message_loop _process_message fuel
              (set_sock_in [contents sock] w)) as [[e2 v2] |];
    [| contradiction].
  destruct Hloop as [<- Hv].
  destruct (is_EOFError e1).
  - pose proof (UtilsFacts.respects_except _client_closed v1 v2 Hv)
      as [Hr Hw].
    destruct (_read_message_except _client_closed v1) as [r1 w1].
    destruct (_read_message_except _client_closed v2) as [r2 w2].
    split; assumption.
  - split; [reflexivity | exact Hv].
Qed.

(** What [write_all] sends: the frames of the payloads, one after the
    other. *)
Lemma write_all_frames `{PyLib} {U : Type} (items : list (bytes * pyval)) :
  forall sender : World U,
    (forall payload m, (payload, m) ∈ items ->
       len payload < 2 ^ 32
       /\ exists text, json_dumps m = Ok text
                       /\ str_encode_utf8 text = Ok payload) ->
    exists sender',
      write_all (map snd items) sender = (Ok tt, sender')
      /\ sock_out (client sender')
         = sock_out (client sender)
           ++ concat (map (fun it => frame_of (fst it)) items).
Proof.
  induction items as [| [payload m] items IH]; intros sender Hitems.
  - exists sender. split; [reflexivity |]. simpl. rewrite app_nil_r.
    reflexivity.
  - destruct (Hitems payload m) as (Hfit & text & Hd & He); [left |].
    destruct (write_message_ok m sender text payload Hd He Hfit)
      as [sender1 Hw].
    destruct (write_message_inv m sender sender1 Hw)
      as (text' & payload' & header & Hd' & He' & Hp & Hout & _).
    rewrite Hd in Hd'. injection Hd' as <-.
    rewrite He in He'. injection He' as <-.
    destruct (IH sender1) as (sender' & Hrun & Hout').
    { intros p' m' Hin. apply Hitems. right. exact Hin. }
    exists sender'. split.
    + cbn [map snd write_all]. unfold bind at 1. rewrite Hw. exact Hrun.
    + rewrite Hout', Hout. cbn [map fst concat]. unfold frame_of at 2.
      rewrite Hp, <- !app_assoc. reflexivity.
Qed.

(** X14.  What one end writes, the other end processes, in the same
    order.  The bytes that the threaded [_write_message] sends for the
    messages [m1 ... mk], one call after the other, make the handler that
    receives them (in any segmentation, followed by the close) call
    [_process_message] with [m1], ..., [mk] in that order. *)
Theorem written_messages_arrive_in_order `{PyLib} {U : Type}
    (_process_message : pyval -> M (World U) unit)
    (_client_closed : M (World U) unit)
    (items : list (bytes * pyval)) (sender receiver : World U) :
  (forall payload m, (payload, m) ∈ items ->
     len payload < 2 ^ 32
     /\ exists text, json_dumps m = Ok text
                     /\ str_encode_utf8 text = Ok payload
                     /\ bytes_decode_utf8 payload = Ok text
                     /\ json_loads text = Ok m) ->
  (forall m w0, (_process_message m w0).1 = Ok tt) ->
  exists sender' sent,
    write_all (map snd items) sender = (Ok tt, sender')
    /\ sock_out (client sender') = sock_out (client sender) ++ sent
    /\ (contents (sock_in (client receiver)) = sent ->
        exists r receiver',
          _read_message _process_message _client_closed receiver
          = Some (r, receiver')
          /\ trace receiver'
             = trace receiver ++ processed (map snd items) ++ [Closed]).
Proof.
  intros Hitems Hhook.
  destruct (write_all_frames items sender) as (sender' & Hrun & Hout).
  { intros payload m Hin.
    destruct (Hitems payload m Hin) as (Hfit & text & Hd & He & _).
    split; [exact Hfit |]. exists text. split; assumption. }
  exists sender', (concat (map (fun it => frame_of (fst it)) items)).
  split; [exact Hrun |]. split; [exact Hout |]. intros Hc.
  unfold _read_message.
  destruct (loop_in_order _process_message items receiver
              (S (length (contents (sock_in (client receiver)))))
              ltac:(lia)) as (w' & -> & Htr); try assumption.
  { intros payload m Hin.
    destruct (Hitems payload m Hin) as (Hfit & text & _ & _ & Hdec & Hl).
    split; [exact Hfit |]. exists text. split; assumption. }
  cbn [is_EOFError eof].
  unfold _read_message_except, bind, getpeername, gets, emit, modify.
  cbn [fst snd].
  match goal with
  | |- context [invoke ?ev ?hook ?w0] =>
      destruct (invoke_spec ev hook w0) as (w2 & Hinv & _ & Htr2)
  end.
  rewrite Hinv. eexists _, w2. split; [reflexivity |].
  rewrite Htr2. cbn [trace]. rewrite Htr, <- app_assoc. reflexivity.
Qed.

End HandlerRuns.

(** ** Writes that fail, and what the codec leaves alone *)

Module Effects.
Import Spec Protocol SocketFacts StructFacts Frames AsyncFrames.

(** X8.  A write that fails in serialization sends nothing.  When
    [json.dumps], the UTF-8 encoding or the packing of the header raises,
    the threaded [_write_message] raises that exception to its caller, the
    socket is as before and the message has been logged all the same.
    When the asyncio [_write_message] raises anything but the
    [ConnectionResetError] of [drain], no writer, no reader and not the
    registry has changed, and the log has at most the two records of the
    write. *)
Theorem failed_write_sends_nothing `{PyLib} {U : Type}
    (message : pyval) (e : exn) (w : Utils.World U)
    (writer : nat) (st st' : Server.State) :
  (json_dumps message = Raise e
   \/ (exists text,
         json_dumps message = Ok text
         /\ (str_encode_utf8 text = Raise e
             \/ exists raw_msg,
                  str_encode_utf8 text = Ok raw_msg
                  /\ Struct.pack_I (len raw_msg) = Raise e)) ->
   exists w',
     Utils._write_message message w = (Raise e, w')
     /\ Utils.client w' = Utils.client w
     /\ Utils.trace w' = Utils.trace w
     /\ Utils.user w' = Utils.user w
     /\ Utils.log w'
        = Utils.log w
          ++ [LogRec INFO "Writing {} to {}"
                [ArgVal message;
                 ArgPeer (Utils.peer_host (Utils.client w))
                   (Utils.peer_port (Utils.client w))]])
  /\ (Server._write_message message writer st = (Raise e, st') ->
        e <> ConnectionResetError ->
        Server.writers st' = Server.writers st
        /\ Server.readers st' = Server.readers st
        /\ Server._writers st' = Server._writers st
        /\ exists records,
             Server.log st' = Server.log st ++ records
             /\ (length records <= 2)%nat).
Proof.
  split.
  - intros Hcause.
    unfold Utils._write_message, bind, Utils.getpeername, gets, Utils.emit,
      modify, lift, Utils.sendall. cbn [fst snd].
    destruct Hcause as [-> | (text & -> & [-> | (raw & -> & ->)])];
      eexists; (split; [reflexivity |]); repeat split.
  - unfold Server._write_message, bind, lift, Server.emit, modify, raise, ret,
      Server.on_writer.
    destruct (Server.__message_log message) as [lm |].
    2:{ intros [= <- <-] _. repeat split. exists []. rewrite app_nil_r.
        split; [reflexivity | simpl; lia]. }
    cbn [Server._writers Server.readers Server.writers Server.log].
    destruct (json_dumps message) as [text |].
    2:{ intros [= <- <-] _. repeat split. eexists. split; [reflexivity |].
        simpl. lia. }
    destruct (str_encode_utf8 text) as [raw |].
    2:{ intros [= <- <-] _. repeat split. eexists. split; [reflexivity |].
        simpl. lia. }
    destruct (len raw =? 0).
    { intros [= <- <-] _. repeat split. eexists. split; [reflexivity |].
      simpl. lia. }
    cbn [Server._writers Server.readers Server.writers Server.log].
    destruct (Struct.pack_I (len (zstd_compress raw))) as [header |].
    + cbn [Server._writers Server.readers Server.writers Server.log].
      rewrite lookup_total_insert_eq, call_drain, write_is_closing.
      destruct (StreamWriter.is_closing (Server.writers st !!! writer));
        [| discriminate].
      intros [= <- _] Hne. contradiction.
    + intros [= <- <-] _. repeat split.
      cbn [Server._writers Server.readers Server.writers Server.log].
      rewrite <- app_assoc. eexists. split; [reflexivity |]. simpl. lia.
Qed.

(** X9.  The asyncio codec touches only the stream it is given.
    [_write_message], whatever its outcome, changes no reader, no other
    writer and not the registry, and does not close its writer;
    [_read_message], whatever its outcome, changes no writer, no other
    reader and not the registry. *)
Theorem codec_touches_only_its_stream `{PyLib}
    (message : pyval) (writer reader : nat) (st : Server.State) :
  (let st' := (Server._write_message message writer st).2 in
   Server._writers st' = Server._writers st
   /\ Server.readers st' = Server.readers st
   /\ (forall other, other <> writer ->
         Server.writers st' !!! other = Server.writers st !!! other)
   /\ StreamWriter.closing (Server.writers st' !!! writer)
      = StreamWriter.closing (Server.writers st !!! writer)
   /\ StreamWriter.closed (Server.writers st' !!! writer)
      = StreamWriter.closed (Server.writers st !!! writer))
  /\ (let st' := (Server._read_message reader st).2 in
      Server._writers st' = Server._writers st
      /\ Server.writers st' = Server.writers st
      /\ (forall other, other <> reader ->
            Server.readers st' !!! other = Server.readers st !!! other)).
Proof.
  split.
  - cbv zeta.
    unfold Server._write_message, bind, lift, Server.emit, modify, raise, ret,
      Server.on_writer.
    destruct (Server.__message_log message) as [lm |]; [| repeat split].
    cbn [Server._writers Server.readers Server.writers Server.log].
    destruct (json_dumps message) as [text |]; [| repeat split].
    destruct (str_encode_utf8 text) as [raw |]; [| repeat split].
    destruct (len raw =? 0); [repeat split |].
    cbn [Server._writers Server.readers Server.writers Server.log].
    destruct (Struct.pack_I (len (zstd_compress raw))) as [header |];
      [| repeat split].
    cbn [Server._writers Server.readers Server.writers Server.log].
    rewrite lookup_total_insert_eq, call_drain, write_is_closing.
    assert (Hflags :
              StreamWriter.closing
                (StreamWriter.write (header ++ zstd_compress raw)
                   (Server.writers st !!! writer))
              = StreamWriter.closing (Server.writers st !!! writer)
              /\ StreamWriter.closed
                   (StreamWriter.write (header ++ zstd_compress raw)
                      (Server.writers st !!! writer))
                 = StreamWriter.closed (Server.writers st !!! writer)).
    { unfold StreamWriter.write.
      destruct (StreamWriter.is_closing (Server.writers st !!! writer));
        split; reflexivity. }
    destruct (StreamWriter.is_closing (Server.writers st !!! writer));
      cbn [snd Server._writers Server.readers Server.writers Server.log];
      (split; [reflexivity |]); (split; [reflexivity |]); (split;
        [intros other Hother;
         rewrite !lookup_total_insert_ne by congruence; reflexivity
        | rewrite !lookup_total_insert_eq; exact Hflags]).
  - cbv zeta.
    assert (Hstep : forall {A} (f : StreamReader.t -> res A * StreamReader.t)
                      (s : Server.State),
               let s' := (Server.on_reader reader f s).2 in
               Server._writers s' = Server._writers s
               /\ Server.writers s' = Server.writers s
               /\ (forall other, other <> reader ->
                     Server.readers s' !!! other
                     = Server.readers s !!! other)).
    { intros A f s. unfold Server.on_reader.
      destruct (f (Server.readers s !!! reader)) as [a rd].
      cbn [snd Server._writers Server.readers Server.writers].
      split; [reflexivity |]. split; [reflexivity |].
      intros other Hother.
      rewrite lookup_total_insert_ne by congruence. reflexivity. }
    remember (Server._read_message reader st) as out eqn:Hout.
    revert Hout. unfold Server._read_message.
    unfold bind at 1.
    pose proof (Hstep _ (StreamReader.readexactly 4) st) as (H1 & H2 & H3).
    destruct (Server.on_reader reader (StreamReader.readexactly 4) st)
      as [[hdr | e] st1]; cbn [snd] in H1, H2, H3;
      [| intros ->; cbn [snd]; repeat split; assumption].
    unfold bind at 1. unfold lift at 1.
    destruct (Struct.unpack_I hdr) as [msglen |];
      [| intros ->; cbn [snd]; repeat split; assumption].
    unfold bind at 1.
    pose proof (Hstep _ (StreamReader.readexactly msglen) st1)
      as (H4 & H5 & H6).
    destruct (Server.on_reader reader (StreamReader.readexactly msglen) st1)
      as [[raw | e] st2]; cbn [snd] in H4, H5, H6.
    2:{ intros ->. cbn [snd]. split; [congruence |]. split; [congruence |].
        intros other Hother. rewrite H6, H3 by exact Hother. reflexivity. }
    assert (Hrest : forall r : res pyval * Server.State,
               Server._writers r.2 = Server._writers st2 ->
               Server.writers r.2 = Server.writers st2 ->
               Server.readers r.2 = Server.readers st2 ->
               Server._writers r.2 = Server._writers st
               /\ Server.writers r.2 = Server.writers st
               /\ (forall other, other <> reader ->
                     Server.readers r.2 !!! other
                     = Server.readers st !!! other)).
    { intros r Ha Hb Hc. split; [congruence |]. split; [congruence |].
      intros other Hother. rewrite Hc, H6, H3 by exact Hother. reflexivity. }
    intros ->.
    apply Hrest; unfold bind, lift, Server.emit, modify, ret;
      destruct (zstd_decompress raw) as [plain |]; try reflexivity;
      destruct (bytes_decode_utf8 plain) as [text |]; try reflexivity;
      destruct (json_loads text) as [msg |]; try reflexivity;
      destruct (Server.__message_log msg) as [lm |]; reflexivity.
Qed.

(** After the payload is in hand, only the log changes. *)
Lemma after_payload_readers `{PyLib} payload (st : Server.State) :
  Server.readers (async_after_payload payload st).2 = Server.readers st.
Proof.
  unfold async_after_payload, bind, lift, Server.emit, modify, ret.
  destruct (zstd_decompress payload) as [plain |]; [| reflexivity].
  destruct (bytes_decode_utf8 plain) as [text |]; [| reflexivity].
  destruct (json_loads text) as [msg |]; [| reflexivity].
  destruct (Server.__message_log msg) as [lm |]; reflexivity.
Qed.

(** X10.  Consecutive reads stay in step with the frames.  A call of the
    asyncio [_read_message] on a complete frame takes exactly that frame
    off the stream, whether its payload decodes or not; the next call
    returns the message of the next frame. *)
Theorem reads_stay_in_step `{PyLib}
    (st : Server.State) (reader : nat)
    (header1 payload1 payload2 plain2 rest : bytes)
    (text2 : string) (m2 : pyval) :
  StreamReader.contents (Server.readers st !!! reader)
  = header1 ++ payload1 ++ frame_of payload2 ++ rest ->
  length header1 = 4%nat ->
  Struct.unpack_I header1 = Ok (len payload1) ->
  len payload2 < 2 ^ 32 ->
  zstd_decompress payload2 = Ok plain2 ->
  bytes_decode_utf8 plain2 = Ok text2 ->
  json_loads text2 = Ok m2 ->
  typed m2 ->
  exists st2,
    Server._read_message reader (Server._read_message reader st).2
    = (Ok m2, st2)
    /\ StreamReader.contents (Server.readers st2 !!! reader) = rest.
Proof.
  intros Hc Hh Hu Hfit Hz Hdec Hloads (d & ty & -> & Hty & Hrec).
  destruct (async_read_message_frame st reader header1 payload1 _ Hc Hh Hu)
    as (st1 & Hread & Hrest & _).
  rewrite Hread.
  set (st1' := (async_after_payload payload1 st1).2).
  assert (Hc1 : StreamReader.contents (Server.readers st1' !!! reader)
                = frame_of payload2 ++ rest).
  { unfold st1'. rewrite after_payload_readers. exact Hrest. }
  clearbody st1'. unfold frame_of in Hc1.
  pose proof (len_nonneg payload2) as Hlen.
  rewrite pack_I_ok in Hc1 by lia. rewrite <- app_assoc in Hc1.
  destruct (async_read_message_frame st1' reader _ payload2 rest Hc1)
    as (st2 & Hread2 & Hrest2 & _); [reflexivity | |].
  { eapply unpack_I_pack_I, pack_I_ok. lia. }
  destruct (LogFacts.message_log_dict d ty Hty Hrec)
    as (kind & lm & _ & Hlog & _).
  eexists. split.
  - rewrite Hread2. unfold async_after_payload.
    unfold bind at 1. unfold lift at 1. rewrite Hz.
    unfold bind at 1. unfold lift at 1. rewrite Hdec.
    unfold bind at 1. unfold lift at 1. rewrite Hloads.
    unfold bind at 1. unfold lift at 1. rewrite Hlog.
    unfold bind, Server.emit, modify, ret. cbn [fst snd]. reflexivity.
  - cbn [Server.readers]. exact Hrest2.
Qed.

End Effects.

(** ** The registry over the life of a connection, and shutdown *)

Module Lifecycle.
Import Server AsyncFrames.

Lemma added_then_removed (writer : nat) (ws : gset nat) :
  writer ∉ ws -> ({[writer]} ∪ ws) ∖ {[writer]} = ws.
Proof.
  intros Hfresh. apply set_eq. intros x.
  rewrite elem_of_difference, elem_of_union, !elem_of_singleton.
  split.
  - intros [[-> | Hx] Hne]; [contradiction Hne; reflexivity | exact Hx].
  - intros Hx. split; [right; exact Hx |]. intros ->. contradiction.
Qed.

(** X11.  The registry over the life of a connection.  When
    [_process_connection] leaves the registry alone, a connection that
    returns normally leaves the registry exactly as it was before the
    accept; and one whose [_process_connection] raises has its exception
    raised by [__new_connection], and its writer still registered. *)
Theorem registry_after_connection
    (_process_connection : nat -> nat -> M State unit)
    (reader writer : nat) (st st1 : State) (r : res unit) :
  writer ∉ _writers st ->
  _process_connection reader writer
    (set_writers ({[writer]} ∪ _writers st) st) = (r, st1) ->
  _writers st1 = {[writer]} ∪ _writers st ->
  (r = Ok tt ->
     exists st',
       __new_connection _process_connection reader writer st = (Ok tt, st')
       /\ _writers st' = _writers st)
  /\ (forall e, r = Raise e ->
        __new_connection _process_connection reader writer st
        = (Raise e, st1)
        /\ writer ∈ _writers st1
        /\ _writers st1 <> _writers st).
Proof.
  intros Hfresh Hrun Hkeep. split.
  - intros ->. eexists. split.
    + unfold __new_connection, bind, modify. rewrite Hrun.
      unfold writers_remove. rewrite bool_decide_eq_true_2; [reflexivity |].
      rewrite Hkeep. apply elem_of_union. left.
      apply elem_of_singleton. reflexivity.
    + cbn [_writers set_writers]. rewrite Hkeep.
      apply added_then_removed, Hfresh.
  - intros e ->. split.
    + unfold __new_connection, bind, modify. rewrite Hrun. reflexivity.
    + assert (Hin : writer ∈ _writers st1).
      { rewrite Hkeep. apply elem_of_union. left.
        apply elem_of_singleton. reflexivity. }
      split; [exact Hin |]. intros Heq. rewrite Heq in Hin. contradiction.
Qed.

(** X12.  [stop] returns normally exactly when no connection is
    registered, and then it does nothing.  Whatever its outcome, it takes
    nothing out of the registry, and changes no reader, no log record and
    no byte written. *)
Theorem stop_returns_iff_registry_empty (st : State) :
  ((stop st).1 = Ok tt <-> _writers st = ∅)
  /\ (_writers st = ∅ -> stop st = (Ok tt, st))
  /\ _writers (stop st).2 = _writers st
  /\ readers (stop st).2 = readers st
  /\ log (stop st).2 = log st
  /\ (forall writer,
        StreamWriter.written (writers (stop st).2 !!! writer)
        = StreamWriter.written (writers st !!! writer)).
Proof.
  unfold stop.
  destruct (elements (_writers st)) as [| writer ws] eqn:He.
  - apply elements_empty_inv in He. apply leibniz_equiv in He.
    cbn [stop_loop]. unfold ret. cbn [fst snd].
    repeat split; try reflexivity; intros; assumption.
  - assert (Hne : _writers st <> ∅).
    { intros Heq. rewrite Heq, elements_empty in He. discriminate. }
    cbn [stop_loop]. unfold bind, on_writer.
    rewrite call_close. cbn [_writers readers writers log].
    rewrite lookup_total_insert_eq, call_wait_close.
    cbn [fst snd _writers readers writers log].
    split; [split; [discriminate | intros Heq; contradiction] |].
    split; [intros Heq; contradiction |].
    repeat (split; [reflexivity |]).
    intros other. destruct (decide (writer = other)) as [<- | Hother].
    + rewrite !lookup_total_insert_eq. reflexivity.
    + rewrite !lookup_total_insert_ne by exact Hother. reflexivity.
Qed.

End Lifecycle.

Module MoreChecks.
Import Spec Protocol Socket Concrete Samples.

#[local] Existing Instance RefLib.lib.

Lemma header_codec_bijection_witness :
  length [x00; x00; x01; x02] = 4%nat
  /\ 0 <= 258 < 2 ^ 32
  /\ Struct.unpack_I [x00; x00; x01; x02] = Ok 258
  /\ Struct.pack_I 258 = Ok [x00; x00; x01; x02]
  /\ Struct.pack_I (2 ^ 32) = Raise StructError
  /\ Struct.unpack_I [x00; x01; x02] = Raise StructError.
Proof.
  assert (Hb : length [x00; x00; x01; x02] = 4%nat) by reflexivity.
  assert (Hn : 0 <= 258 < 2 ^ 32) by (split; [discriminate | reflexivity]).
  destruct (Kinds.header_codec_bijection [x00; x00; x01; x02] 258)
    as (T1 & _ & T3 & _).
  destruct (Kinds.header_codec_bijection [x00; x01; x02] (2 ^ 32))
    as (_ & T2 & _ & T4).
  destruct (T1 Hb) as (L & HL & _ & Hpack).
  assert (L = 258) as -> by (vm_compute in HL; congruence).
  destruct (T3 Hn) as (header & Hp & _ & _).
  repeat (split; [assumption |]). split.
  - apply T4. intros [_ Hlt]. vm_compute in Hlt. discriminate.
  - apply T2. discriminate.
Defined.

Lemma message_type_lookup_witness :
  MessageType_.call (PInt 8) = Ok REPLY_FILE_LIST
  /\ ~ 1 <= 14 <= 13
  /\ MessageType_.call (PInt 14) = Raise ValueError
  /\ MessageType_.call (PBool true) = Ok REQUEST_REGISTER.
Proof.
  destruct (Kinds.message_type_lookup REPLY_FILE_LIST 14)
    as (T1 & _ & _ & _ & _ & T6 & T7 & _).
  assert (Hn : ~ 1 <= 14 <= 13) by (intros [_ Hle]; apply Hle; reflexivity).
  split; [exact T1 |]. split; [exact Hn |]. split; [exact (T6 Hn) |].
  exact T7.
Defined.

Lemma message_log_accepts_typed_mappings_witness :
  typed chunk_reply
  /\ (exists log_message, Server.__message_log chunk_reply = Ok log_message)
  /\ typed (match (Server._read_message 0%nat
                     (feeding 0 (bytewise (written_frame chunk_reply))
                        (server ∅))).1 with
            | Ok msg => msg
            | Raise _ => PNone
            end).
Proof.
  assert (Ht : typed chunk_reply).
  { eexists _, (PInt 13). split; [reflexivity |]. split; [reflexivity |].
    exists PEER_REPLY_CHUNK. reflexivity. }
  destruct (@Projection.message_log_accepts_typed_mappings RefLib.lib
              chunk_reply 0%nat 0%nat
              (feeding 0 (bytewise (written_frame chunk_reply)) (server ∅))
              (Server._read_message 0%nat
                 (feeding 0 (bytewise (written_frame chunk_reply))
                    (server ∅))).2)
    as (T1 & T2 & _).
  split; [exact Ht |]. split; [apply T1, Ht |].
  assert (Hrun : Server._read_message 0%nat
                   (feeding 0 (bytewise (written_frame chunk_reply))
                      (server ∅))
                 = (Ok chunk_reply,
                    (Server._read_message 0%nat
                       (feeding 0 (bytewise (written_frame chunk_reply))
                          (server ∅))).2))
    by (vm_compute; reflexivity).
  rewrite Hrun at 1. cbn [fst]. apply T2, Hrun.
Defined.

Lemma message_log_keeps_order_witness :
  NoDup (dict_keys [("type", PInt 13); ("data", PStr "abc");
                    ("index", PInt 0)])
  /\ Server.__message_log chunk_reply
     = Ok [("type", PStr "PEER_REPLY_CHUNK"); ("index", PInt 0)].
Proof.
  assert (Hnd : NoDup (dict_keys [("type", PInt 13); ("data", PStr "abc");
                                  ("index", PInt 0)])).
  { apply (bool_decide_unpack _). vm_compute. exact I. }
  split; [exact Hnd |].
  change chunk_reply
    with (PDict [("type", PInt 13); ("data", PStr "abc"); ("index", PInt 0)]).
  rewrite (Projection.message_log_keeps_order _ (PInt 13) PEER_REPLY_CHUNK
             Hnd eq_refl eq_refl).
  vm_compute. reflexivity.
Defined.

Lemma messages_processed_in_order_witness :
  exists r w',
    Utils._read_message on_message on_closed (world two_frames)
    = Some (r, w')
    /\ Utils.trace w'
       = [Utils.Processed file_list_request; Utils.Processed chunk_reply;
          Utils.Closed].
Proof.
  destruct (@HandlerRuns.messages_processed_in_order RefLib.lib unit
              on_message on_closed two_items (world two_frames))
    as (r & w' & Hrun & Htr).
  - intros payload m Hin.
    apply elem_of_cons in Hin as [[= -> ->] | Hin];
      [| apply elem_of_cons in Hin as [[= -> ->] | Hin];
         [| apply elem_of_nil in Hin; contradiction]].
    + split; [vm_compute; reflexivity |].
      exists (dumped file_list_request). split; vm_compute; reflexivity.
    + split; [vm_compute; reflexivity |].
      exists (dumped chunk_reply). split; vm_compute; reflexivity.
  - intros m w0. reflexivity.
  - vm_compute. reflexivity.
  - exists r, w'. split; [exact Hrun | exact Htr].
Defined.

Lemma hooks_called_in_protocol_order_witness :
  exists r w' ms tail,
    Utils.listen_pass on_connected on_message on_closed (world two_frames)
    = Some (r, w')
    /\ Utils.trace w' = [Utils.Connected] ++ processed ms ++ tail
    /\ (tail = [] \/ tail = [Utils.Closed]).
Proof.
  destruct (@HandlerRuns.hooks_called_in_protocol_order RefLib.lib unit
              on_connected on_message on_closed (world two_frames))
    as (r & w' & ms & tail & Hrun & Htr & Htail & _).
  exists r, w', ms, tail. split; [exact Hrun |].
  split; [exact Htr | exact Htail].
Defined.

Lemma hook_exception_ends_handler_witness :
  (exists r w',
     Utils._read_message (failing (EOFError "hook")) on_closed
       (world two_frames) = Some (r, w')
     /\ Utils.trace w'
        = [Utils.Processed file_list_request; Utils.Closed])
  /\ (exists w',
        Utils._read_message (failing ValueError) on_closed
          (world two_frames) = Some (Raise ValueError, w')
        /\ Utils.trace w' = [Utils.Processed file_list_request]).
Proof.
  split.
  - destruct (@HandlerRuns.hook_exception_ends_handler RefLib.lib unit
                (failing (EOFError "hook")) on_closed (world two_frames)
                (RefLib.b (dumped file_list_request))
                (frame_of (RefLib.b (dumped chunk_reply)))
                (dumped file_list_request) file_list_request
                (EOFError "hook")) as (T & _);
      try (vm_compute; reflexivity).
    destruct (T eq_refl) as (r & w' & Hrun & Htr & _).
    exists r, w'. split; [exact Hrun | exact Htr].
  - destruct (@HandlerRuns.hook_exception_ends_handler RefLib.lib unit
                (failing ValueError) on_closed (world two_frames)
                (RefLib.b (dumped file_list_request))
                (frame_of (RefLib.b (dumped chunk_reply)))
                (dumped file_list_request) file_list_request
                ValueError) as (_ & T);
      try (vm_compute; reflexivity).
    destruct (T eq_refl) as (w' & Hrun & Htr & _).
    exists w'. split; [exact Hrun | exact Htr].
Defined.

Lemma failed_write_sends_nothing_witness :
  json_dumps unserializable = Raise TypeError
  /\ TypeError <> ConnectionResetError
  /\ (exists w',
        Utils._write_message unserializable (world [])
        = (Raise TypeError, w')
        /\ Utils.client w' = Utils.client (world []))
  /\ Server._write_message unserializable 0%nat (server {[0%nat]})
     = (Raise TypeError,
        (Server._write_message unserializable 0%nat (server {[0%nat]})).2)
  /\ Server.writers
       (Server._write_message unserializable 0%nat (server {[0%nat]})).2
     = Server.writers (server {[0%nat]}).
Proof.
  assert (H1 : json_dumps unserializable = Raise TypeError)
    by (vm_compute; reflexivity).
  assert (Hne : TypeError <> ConnectionResetError) by discriminate.
  assert (H2 : Server._write_message unserializable 0%nat (server {[0%nat]})
               = (Raise TypeError,
                  (Server._write_message unserializable 0%nat
                     (server {[0%nat]})).2))
    by (vm_compute; reflexivity).
  destruct (@Effects.failed_write_sends_nothing RefLib.lib unit
              unserializable TypeError (world []) 0%nat
              (server {[0%nat]})
              (Server._write_message unserializable 0%nat
                 (server {[0%nat]})).2) as (T1 & T2).
  destruct (T1 (or_introl H1)) as (w' & Hrun & Hc & _).
  destruct (T2 H2 Hne) as (Hw & _).
  split; [exact H1 |]. split; [exact Hne |].
  split; [exists w'; split; assumption |].
  split; [exact H2 | exact Hw].
Defined.

Lemma codec_touches_only_its_stream_witness :
  1%nat <> 0%nat
  /\ Server.writers
       (Server._write_message file_list_reply 0%nat (server {[0%nat]})).2
       !!! 1%nat
     = Server.writers (server {[0%nat]}) !!! 1%nat.
Proof.
  assert (Hne : 1%nat <> 0%nat) by discriminate.
  destruct (@Effects.codec_touches_only_its_stream RefLib.lib
              file_list_reply 0%nat 0%nat (server {[0%nat]}))
    as ((_ & _ & T & _) & _).
  split; [exact Hne | exact (T 1%nat Hne)].
Defined.

Lemma reads_stay_in_step_witness :
  (Server._read_message 0%nat (feeding 0 bad_then_good (server ∅))).1
  = Raise ZstdError
  /\ exists st2,
       Server._read_message 0%nat
         (Server._read_message 0%nat
            (feeding 0 bad_then_good (server ∅))).2
       = (Ok chunk_reply, st2).
Proof.
  split; [vm_compute; reflexivity |].
  destruct (@Effects.reads_stay_in_step RefLib.lib
              (feeding 0 bad_then_good (server ∅)) 0%nat
              (header_of (RefLib.b "{")) (RefLib.b "{")
              (compressed (dumped chunk_reply))
              (RefLib.b (dumped chunk_reply)) []
              (dumped chunk_reply) chunk_reply)
    as (st2 & Hrun & _); try (vm_compute; reflexivity).
  { eexists _, (PInt 13). split; [reflexivity |]. split; [reflexivity |].
    exists PEER_REPLY_CHUNK. reflexivity. }
  exists st2. exact Hrun.
Defined.

Lemma registry_after_connection_witness :
  (2%nat ∉ Server._writers (server {[1%nat]}))
  /\ (exists st',
        Server.__new_connection returning 0%nat 2%nat (server {[1%nat]})
        = (Ok tt, st')
        /\ Server._writers st' = {[1%nat]})
  /\ Server.__new_connection Server._process_connection 0%nat 2%nat
       (server {[1%nat]})
     = (Raise NotImplementedError,
        Server.set_writers ({[2%nat]} ∪ {[1%nat]}) (server {[1%nat]})).
Proof.
  assert (Hfresh : 2%nat ∉ Server._writers (server {[1%nat]})).
  { change (2%nat ∉ ({[1%nat]} : gset nat)).
    intros Hin. apply elem_of_singleton in Hin. discriminate. }
  destruct (Lifecycle.registry_after_connection returning 0%nat 2%nat
              (server {[1%nat]})
              (Server.set_writers ({[2%nat]} ∪ {[1%nat]}) (server {[1%nat]}))
              (Ok tt) Hfresh eq_refl eq_refl) as (T1 & _).
  destruct (Lifecycle.registry_after_connection Server._process_connection
              0%nat 2%nat (server {[1%nat]})
              (Server.set_writers ({[2%nat]} ∪ {[1%nat]}) (server {[1%nat]}))
              (Raise NotImplementedError) Hfresh eq_refl eq_refl)
    as (_ & T2).
  destruct (T1 eq_refl) as (st' & Hrun & Hreg).
  destruct (T2 NotImplementedError eq_refl) as (Hraise & _).
  split; [exact Hfresh |]. split; [| exact Hraise].
  exists st'. split; [exact Hrun | exact Hreg].
Defined.

Lemma stop_returns_iff_registry_empty_witness :
  Server._writers (server ∅) = ∅
  /\ Server.stop (server ∅) = (Ok tt, server ∅)
  /\ (Server.stop (server {[1%nat]})).1 <> Ok tt.
Proof.
  assert (He : Server._writers (server ∅) = ∅) by reflexivity.
  destruct (Lifecycle.stop_returns_iff_registry_empty (server ∅))
    as (_ & T2 & _).
  destruct (Lifecycle.stop_returns_iff_registry_empty (server {[1%nat]}))
    as (T1 & _).
  split; [exact He |]. split; [exact (T2 He) |].
  intros Hok. apply T1 in Hok.
  assert (Hin : 1%nat ∈ Server._writers (server {[1%nat]})).
  { change (1%nat ∈ ({[1%nat]} : gset nat)).
    apply elem_of_singleton. reflexivity. }
  rewrite Hok in Hin. apply elem_of_empty in Hin. exact Hin.
Defined.

Lemma written_messages_arrive_in_order_witness :
  exists sender' sent r receiver',
    write_all (map snd two_items) (world []) = (Ok tt, sender')
    /\ Utils.sock_out (Utils.client sender') = sent
    /\ Utils._read_message on_message on_closed (world (bytewise sent))
       = Some (r, receiver')
    /\ Utils.trace receiver'
       = [Utils.Processed file_list_request; Utils.Processed chunk_reply;
          Utils.Closed].
Proof.
  set (sent := concat (map (fun it => frame_of (fst it)) two_items)).
  destruct (@HandlerRuns.written_messages_arrive_in_order RefLib.lib unit
              on_message on_closed two_items (world [])
              (world (bytewise sent)))
    as (sender' & sent' & Hrun & Hout & Hrecv).
  - intros payload m Hin.
    apply elem_of_cons in Hin as [[= -> ->] | Hin];
      [| apply elem_of_cons in Hin as [[= -> ->] | Hin];
         [| apply elem_of_nil in Hin; contradiction]].
    + split; [vm_compute; reflexivity |].
      exists (dumped file_list_request).
      repeat split; vm_compute; reflexivity.
    + split; [vm_compute; reflexivity |].
      exists (dumped chunk_reply). repeat split; vm_compute; reflexivity.
  - intros m w0. reflexivity.
  - assert (Hsent : sent' = sent).
    { assert (Hv : write_all (map snd two_items) (world [])
                   = (Ok tt, (write_all (map snd two_items) (world [])).2))
        by (vm_compute; reflexivity).
      rewrite Hv in Hrun. injection Hrun as <-.
      cbn [Utils.sock_out Utils.client world app] in Hout.
      rewrite <- Hout. vm_compute. reflexivity. }
    subst sent'.
    destruct Hrecv as (r & receiver' & Hread & Htr).
    { vm_compute. reflexivity. }
    exists sender', sent, r, receiver'.
    split; [exact Hrun |]. split; [exact Hout |]. split; [exact Hread |].
    exact Htr.
Defined.

End MoreChecks.
